(** * Abhaya News & Video CMS backend: authentication guard and content lifecycle

    A shallow embedding of the Express/Mongoose backend
    ([backend/models/User.js], [backend/models/News.js],
    [backend/models/Video.js], [backend/middleware/auth.js],
    [backend/routes/auth.js], [backend/routes/news.js],
    [backend/routes/videos.js], [backend/routes/admin.js]) and the
    properties of its lockout policy, of its draft/published life cycle and
    of its middlewares.

    Conventions of the model.
    - A request handler is a program of type [Prog Store Response]: a sequence
      of awaited store operations, each of which MongoDB applies atomically to
      one document.  [run] executes a handler alone; [run_schedule]
      interleaves the awaited operations of several handlers.
    - [Date.now()] / [new Date()] is the argument [now] of a handler, in
      milliseconds since the epoch; a handler runs at one instant.
    - Library code (bcryptjs, jsonwebtoken, express-validator, the MongoDB
      text index) is the interface [Libs].
    - A Mongoose document in memory is a [Document]: the current field values
      together with the paths marked modified, which is what [isModified]
      reads and what [save] writes back with [$set].
    - An [ObjectId] is a value of the store's identifier type.  The share
      and like handlers take the [:id] of the request as it arrives, a
      string, and [castObjectId] is the cast Mongoose applies to it, whose
      failure the handler's [catch] answers with 500; the other handlers are
      modelled from the cast on, for an [:id] that is an identifier.
    - A JavaScript number is an IEEE 754 binary64; a counter is the integer
      it holds, and [number_add] is the addition [+] of the language, exact
      on the safe integers and rounded beyond them.  [$inc] is the addition
      of the store.
    - A property that needs the documents of the store to satisfy their
      schema, or the [_id] index to hold, says so ([schema_valid],
      [unique_account_ids]). *)

From Stdlib Require Import ZArith NArith List String Ascii Bool Lia.
Import ListNotations.

Local Open Scope Z_scope.

(** ** Handlers as programs over the store *)

Inductive Prog (S R : Type) : Type :=
| Ret (r : R)
| Await {X : Type} (op : S -> X * S) (k : X -> Prog S R).

Arguments Ret {S R} r.
Arguments Await {S R X} op k.

Fixpoint bind {S A B : Type} (p : Prog S A) (f : A -> Prog S B) : Prog S B :=
  match p with
  | Ret a => f a
  | Await op k => Await op (fun x => bind (k x) f)
  end.

(** One awaited store operation. *)
Definition await {S X : Type} (op : S -> X * S) : Prog S X := Await op Ret.

Declare Scope prog_scope.
Delimit Scope prog_scope with prog.
Notation "x <- p ;; q" := (bind p (fun x => q))
  (at level 61, p at next level, right associativity) : prog_scope.
Notation "p ;;; q" := (bind p (fun _ => q))
  (at level 61, right associativity) : prog_scope.

(** Sequential execution: the handler runs alone against the store. *)
Fixpoint run {S R : Type} (p : Prog S R) (s : S) : R * S :=
  match p with
  | Ret r => (r, s)
  | Await op k => let (x, s') := op s in run (k x) s'
  end.

(** Concurrent execution: the scheduler picks which handler performs its next
    awaited store operation. *)
Definition step {S R : Type} (p : Prog S R) (s : S) : Prog S R * S :=
  match p with
  | Ret r => (Ret r, s)
  | Await op k => let (x, s') := op s in (k x, s')
  end.

Fixpoint step_nth {S R : Type} (i : nat) (ts : list (Prog S R)) (s : S)
  : list (Prog S R) * S :=
  match ts, i with
  | [], _ => ([], s)
  | t :: ts', O => let (t', s') := step t s in (t' :: ts', s')
  | t :: ts', Datatypes.S j => let (ts'', s') := step_nth j ts' s in (t :: ts'', s')
  end.

Fixpoint run_schedule {S R : Type} (sched : list nat) (ts : list (Prog S R)) (s : S)
  : list (Prog S R) * S :=
  match sched with
  | [] => (ts, s)
  | i :: sched' => let (ts', s') := step_nth i ts s in run_schedule sched' ts' s'
  end.

Definition finished {S R : Type} (p : Prog S R) : option R :=
  match p with
  | Ret r => Some r
  | Await _ _ => None
  end.

(** ** Collections *)

Definition ObjectId := N.

Module Collection.
Section Generic.
Context {D : Type} (id_of : D -> ObjectId).

(** [Model.findOne(filter)]: the first matching document. *)
Definition findOne (p : D -> bool) (c : list D) : option D := find p c.

Definition findById (i : ObjectId) (c : list D) : option D :=
  findOne (fun d => N.eqb (id_of d) i) c.

(** A single-document update: the first matching document is replaced. *)
Fixpoint updateFirst (p : D -> bool) (f : D -> D) (c : list D) : list D :=
  match c with
  | [] => []
  | d :: c' => if p d then f d :: c' else d :: updateFirst p f c'
  end.

Definition updateById (i : ObjectId) (f : D -> D) (c : list D) : list D :=
  updateFirst (fun d => N.eqb (id_of d) i) f c.

Fixpoint deleteFirst (p : D -> bool) (c : list D) : list D :=
  match c with
  | [] => []
  | d :: c' => if p d then c' else d :: deleteFirst p c'
  end.

(** A new [_id], different from every one in the collection. *)
Definition fresh_id (c : list D) : ObjectId :=
  N.succ (fold_right (fun d m => N.max (id_of d) m) 0%N c).

(** [countDocuments(filter)]. *)
Definition countDocuments (p : D -> bool) (c : list D) : Z :=
  Z.of_nat (List.length (filter p c)).
End Generic.
End Collection.

(** A Mongoose document held by a handler: [this], whether it was built with
    [new Model(..)], and the paths marked modified. *)
Record Document (D P : Type) : Type := mkDocument {
  this : D;
  isNew : bool;
  modifiedPaths : list P
}.

Arguments mkDocument {D P}.
Arguments this {D P}.
Arguments isNew {D P}.
Arguments modifiedPaths {D P}.

(** A document loaded from the store: nothing is modified yet. *)
Definition hydrate {D P : Type} (d : D) : Document D P := mkDocument d false [].

(** ** Enumerations of the schemas *)

Inductive Role := role_user | role_admin | role_super_admin | role_guest.
Inductive AccountStatus := active | inactive | suspended.
Inductive ContentStatus := published | draft.

Definition Role_eqb (a b : Role) : bool :=
  match a, b with
  | role_user, role_user | role_admin, role_admin
  | role_super_admin, role_super_admin | role_guest, role_guest => true
  | _, _ => false
  end.

Definition AccountStatus_eqb (a b : AccountStatus) : bool :=
  match a, b with
  | active, active | inactive, inactive | suspended, suspended => true
  | _, _ => false
  end.

Definition ContentStatus_eqb (a b : ContentStatus) : bool :=
  match a, b with
  | published, published | draft, draft => true
  | _, _ => false
  end.

(** ** Strings

    A JavaScript string is modelled by its sequence of 8-bit code units. *)

Local Open Scope string_scope.

Definition non_empty (s : string) : bool := negb (String.eqb s "").

Fixpoint take_while (p : ascii -> bool) (s : string) : string :=
  match s with
  | EmptyString => EmptyString
  | String c s' => if p c then String c (take_while p s') else EmptyString
  end.

Fixpoint drop (n : nat) (s : string) : string :=
  match n, s with
  | O, _ => s
  | Datatypes.S _, EmptyString => EmptyString
  | Datatypes.S n', String _ s' => drop n' s'
  end.

Fixpoint string_forallb (p : ascii -> bool) (s : string) : bool :=
  match s with
  | EmptyString => true
  | String c s' => p c && string_forallb p s'
  end.

Definition strip_prefix (pre s : string) : option string :=
  if String.prefix pre s then Some (drop (String.length pre) s) else None.

Definition is_some {A : Type} (o : option A) : bool :=
  match o with
  | Some _ => true
  | None => false
  end.

Definition option_eqb {A : Type} (eqb : A -> A -> bool) (a b : option A) : bool :=
  match a, b with
  | Some x, Some y => eqb x y
  | None, None => true
  | _, _ => false
  end.

Definition or_else {A : Type} (a b : option A) : option A :=
  match a with
  | Some _ => a
  | None => b
  end.

Definition in_range (lo hi : nat) (c : ascii) : bool :=
  (lo <=? nat_of_ascii c)%nat && (nat_of_ascii c <=? hi)%nat.

(** The class [[\w-]]: letters, digits, underscore and hyphen. *)
Definition word_or_hyphen (c : ascii) : bool :=
  in_range 48 57 c || in_range 65 90 c || in_range 97 122 c
  || Ascii.eqb c "_"%char || Ascii.eqb c "-"%char.

(** The class [[^&\n?#]]. *)
Definition id_char (c : ascii) : bool :=
  negb (Ascii.eqb c "&"%char || Ascii.eqb c (ascii_of_nat 10)
        || Ascii.eqb c "?"%char || Ascii.eqb c "#"%char).

(** What [.] refuses: the line terminators. *)
Definition line_terminator (c : ascii) : bool :=
  Ascii.eqb c (ascii_of_nat 10) || Ascii.eqb c (ascii_of_nat 13).

(** The capture group [([^&\n?#]+)] at the start of [s]. *)
Definition capture (s : string) : option string :=
  let r := take_while id_char s in
  if non_empty r then Some r else None.

(** An unanchored regular expression: the leftmost position at which the
    anchored matcher [m] succeeds. *)
Fixpoint search (m : string -> option string) (s : string) : option string :=
  match m s with
  | Some r => Some r
  | None =>
      match s with
      | EmptyString => None
      | String _ s' => search m s'
      end
  end.

(** [/(?:youtube\.com\/watch\?v=|youtu\.be\/|youtube\.com\/embed\/)([^&\n?#]+)/]
    anchored at the start of [s]. *)
Definition pattern1_here (s : string) : option string :=
  let alt (pre : string) :=
    match strip_prefix pre s with
    | Some rest => capture rest
    | None => None
    end in
  or_else (alt "youtube.com/watch?v=")
          (or_else (alt "youtu.be/") (alt "youtube.com/embed/")).

(** [/.*v=([^&\n?#]+)/] anchored at the start of [s]: the greedy [.*] gives
    the last [v=] of the line that is followed by an identifier. *)
Fixpoint last_v (s : string) : option string :=
  let here :=
    match strip_prefix "v=" s with
    | Some rest => capture rest
    | None => None
    end in
  match s with
  | EmptyString => here
  | String c s' => if line_terminator c then here else or_else (last_v s') here
  end.

(** [/youtube\.com\/watch\?.*v=([^&\n?#]+)/] anchored at the start of [s]. *)
Definition pattern2_here (s : string) : option string :=
  match strip_prefix "youtube.com/watch?" s with
  | Some rest => last_v rest
  | None => None
  end.

(** routes/videos.js, [extractYouTubeId]. *)
Definition extractYouTubeId (url : string) : option string :=
  or_else (search pattern1_here url) (search pattern2_here url).

(** [/^https?:\/\/(www\.)?(youtube\.com\/(watch\?v=|embed\/)|youtu\.be\/)[\w-]+/] *)
Definition youtubeUrl_regex (s : string) : bool :=
  let after_scheme := or_else (strip_prefix "https://" s) (strip_prefix "http://" s) in
  match after_scheme with
  | None => false
  | Some r =>
      let r := match strip_prefix "www." r with Some r' => r' | None => r end in
      let host :=
        or_else (strip_prefix "youtube.com/watch?v=" r)
                (or_else (strip_prefix "youtube.com/embed/" r)
                         (strip_prefix "youtu.be/" r)) in
      match host with
      | Some (String c _) => word_or_hyphen c
      | _ => false
      end
  end.

(** [/^https?:\/\/.+/] *)
Definition http_url_regex (s : string) : bool :=
  match or_else (strip_prefix "https://" s) (strip_prefix "http://" s) with
  | Some (String c _) => negb (line_terminator c)
  | _ => false
  end.

(** [/^[\w-]{11}$/] *)
Definition youtubeId_regex (s : string) : bool :=
  Nat.eqb (String.length s) 11 && string_forallb word_or_hyphen s.

Definition string_in (s : string) (l : list string) : bool :=
  existsb (String.eqb s) l.

Definition length_between (lo hi : nat) (s : string) : bool :=
  (lo <=? String.length s)%nat && (String.length s <=? hi)%nat.

(** ** Numbers

    A JavaScript number is an IEEE 754 binary64 value.  The counters of the
    store are numbers with an integer value, held here as integers; a sum
    is the exact sum rounded to 53 significant bits, ties to even (the sums
    of the model stay far below the largest finite number). *)

Definition round_binary64 (x : Z) : Z :=
  let m := Z.abs x in
  if (m <? 2 ^ 53)%Z then x
  else
    let e := (Z.log2 m - 52)%Z in
    let q := (m / 2 ^ e)%Z in
    let r := (m mod 2 ^ e)%Z in
    let half := (2 ^ (e - 1))%Z in
    let q' := if (r <? half)%Z then q
              else if (half <? r)%Z then (q + 1)%Z
              else if Z.even q then q else (q + 1)%Z in
    (Z.sgn x * (q' * 2 ^ e))%Z.

(** [a + b] on numbers with an integer value. *)
Definition number_add (a b : Z) : Z := round_binary64 (a + b).

Arguments number_add : simpl never.

(** [Number.MAX_SAFE_INTEGER] *)
Definition MAX_SAFE_INTEGER : Z := (2 ^ 53 - 1)%Z.

(** ** Identifiers

    The [:id] of a route is a string; Mongoose casts it to an [ObjectId]
    when it builds the query, and throws a [CastError] when it is not the
    text of one.  This is the text of an [ObjectId] in hexadecimal. *)

Definition hex_digit (c : ascii) : option N :=
  let n := N_of_ascii c in
  if in_range 48 57 c then Some (n - 48)%N
  else if in_range 97 102 c then Some (n - 87)%N
  else if in_range 65 70 c then Some (n - 55)%N
  else None.

Fixpoint hex_value (acc : N) (s : string) : option N :=
  match s with
  | EmptyString => Some acc
  | String c s' =>
      match hex_digit c with
      | Some d => hex_value (16 * acc + d)%N s'
      | None => None
      end
  end.

(** A string of 24 hexadecimal digits. *)
Definition objectId_of_hex (s : string) : option ObjectId :=
  if Nat.eqb (String.length s) 24 then hex_value 0%N s else None.

(** ** models/User.js *)

Module userSchema.

Record t : Type := mk {
  _id : ObjectId;
  name : string;
  email : string;
  password : string;              (* the bcrypt hash *)
  phone : option string;
  role : Role;
  status : AccountStatus;
  phoneVerified : bool;
  lastLogin : option Z;
  loginAttempts : Z;              (* default 0; a removed field reads as 0 *)
  lockUntil : option Z;
  lastActiveAt : Z;               (* analytics.lastActiveAt *)
  createdAt : Z;
  updatedAt : Z
}.

Inductive Path :=
| p_password | p_phoneVerified | p_lastLogin | p_loginAttempts
| p_lockUntil | p_lastActiveAt | p_other.

Definition Path_eqb (a b : Path) : bool :=
  match a, b with
  | p_password, p_password | p_phoneVerified, p_phoneVerified
  | p_lastLogin, p_lastLogin | p_loginAttempts, p_loginAttempts
  | p_lockUntil, p_lockUntil | p_lastActiveAt, p_lastActiveAt
  | p_other, p_other => true
  | _, _ => false
  end.

(** Update operators on a stored document. *)
Definition set_password (v : string) (u : t) : t :=
  mk (_id u) (name u) (email u) v (phone u) (role u) (status u)
     (phoneVerified u) (lastLogin u) (loginAttempts u) (lockUntil u)
     (lastActiveAt u) (createdAt u) (updatedAt u).

Definition set_phoneVerified (v : bool) (u : t) : t :=
  mk (_id u) (name u) (email u) (password u) (phone u) (role u) (status u)
     v (lastLogin u) (loginAttempts u) (lockUntil u)
     (lastActiveAt u) (createdAt u) (updatedAt u).

Definition set_lastLogin (v : option Z) (u : t) : t :=
  mk (_id u) (name u) (email u) (password u) (phone u) (role u) (status u)
     (phoneVerified u) v (loginAttempts u) (lockUntil u)
     (lastActiveAt u) (createdAt u) (updatedAt u).

Definition set_loginAttempts (v : Z) (u : t) : t :=
  mk (_id u) (name u) (email u) (password u) (phone u) (role u) (status u)
     (phoneVerified u) (lastLogin u) v (lockUntil u)
     (lastActiveAt u) (createdAt u) (updatedAt u).

Definition set_lockUntil (v : option Z) (u : t) : t :=
  mk (_id u) (name u) (email u) (password u) (phone u) (role u) (status u)
     (phoneVerified u) (lastLogin u) (loginAttempts u) v
     (lastActiveAt u) (createdAt u) (updatedAt u).

Definition set_lastActiveAt (v : Z) (u : t) : t :=
  mk (_id u) (name u) (email u) (password u) (phone u) (role u) (status u)
     (phoneVerified u) (lastLogin u) (loginAttempts u) (lockUntil u)
     v (createdAt u) (updatedAt u).

Definition set_updatedAt (v : Z) (u : t) : t :=
  mk (_id u) (name u) (email u) (password u) (phone u) (role u) (status u)
     (phoneVerified u) (lastLogin u) (loginAttempts u) (lockUntil u)
     (lastActiveAt u) (createdAt u) v.

(** [{ $inc: { loginAttempts: n } }] *)
Definition inc_loginAttempts (n : Z) (u : t) : t :=
  set_loginAttempts (loginAttempts u + n) u.

(** [{ $unset: { loginAttempts: 1 } }]: the field is removed, and every
    reader sees the schema default. *)
Definition unset_loginAttempts (u : t) : t := set_loginAttempts 0 u.

(** [{ $unset: { lockUntil: 1 } }] *)
Definition unset_lockUntil (u : t) : t := set_lockUntil None u.

(** [$set] of one modified path, with the value the handler's copy holds. *)
Definition assign (src : t) (p : Path) (dst : t) : t :=
  match p with
  | p_password => set_password (password src) dst
  | p_phoneVerified => set_phoneVerified (phoneVerified src) dst
  | p_lastLogin => set_lastLogin (lastLogin src) dst
  | p_loginAttempts => set_loginAttempts (loginAttempts src) dst
  | p_lockUntil => set_lockUntil (lockUntil src) dst
  | p_lastActiveAt => set_lastActiveAt (lastActiveAt src) dst
  | p_other => dst
  end.

Definition doc := Document t Path.

Definition isModified (p : Path) (d : doc) : bool :=
  existsb (Path_eqb p) (modifiedPaths d).

(** Do two copies agree on a path?  ([p_other] stands for the paths the
    model does not track; an assignment to one always counts as a change.) *)
Definition same_at (p : Path) (a b : t) : bool :=
  match p with
  | p_password => String.eqb (password a) (password b)
  | p_phoneVerified => Bool.eqb (phoneVerified a) (phoneVerified b)
  | p_lastLogin => option_eqb Z.eqb (lastLogin a) (lastLogin b)
  | p_loginAttempts => Z.eqb (loginAttempts a) (loginAttempts b)
  | p_lockUntil => option_eqb Z.eqb (lockUntil a) (lockUntil b)
  | p_lastActiveAt => Z.eqb (lastActiveAt a) (lastActiveAt b)
  | p_other => false
  end.

(** Assignment to a field of the handler's copy: the path is marked modified
    when the document is new or the value changes. *)
Definition write (p : Path) (f : t -> t) (d : doc) : doc :=
  let x := f (this d) in
  mkDocument x (isNew d)
    (if isNew d || negb (same_at p (this d) x) then p :: modifiedPaths d
     else modifiedPaths d).

(** [userSchema.virtual('isLocked')] *)
Definition isLocked (now : Z) (u : t) : bool :=
  match lockUntil u with
  | Some until => (now <? until)%Z
  | None => false
  end.

Definition maxAttempts : Z := 5.
Definition lockTime : Z := 2 * 60 * 60 * 1000.

End userSchema.

(** ** models/News.js

    Of the schema's paths the model keeps those the handlers and the pre-save
    hook read or write, and the validated text fields; [imageUrl], [tags] and
    [author] are left out.  Text fields hold trimmed strings. *)

Module newsSchema.

Record t : Type := mk {
  _id : ObjectId;
  title : string;
  summary : string;
  content : string;
  category : string;
  status : ContentStatus;
  views : Z;
  shares : Z;
  featured : bool;
  publishedAt : option Z;
  createdBy : option ObjectId;
  createdAt : Z;
  updatedAt : Z
}.

Inductive Path :=
| p_title | p_summary | p_content | p_category | p_status | p_views
| p_shares | p_featured | p_publishedAt | p_createdBy.

Definition Path_eqb (a b : Path) : bool :=
  match a, b with
  | p_title, p_title | p_summary, p_summary | p_content, p_content
  | p_category, p_category | p_status, p_status | p_views, p_views
  | p_shares, p_shares | p_featured, p_featured
  | p_publishedAt, p_publishedAt | p_createdBy, p_createdBy => true
  | _, _ => false
  end.

Definition all_paths : list Path :=
  [p_title; p_summary; p_content; p_category; p_status; p_views;
   p_shares; p_featured; p_publishedAt; p_createdBy].

Definition set__id (v : ObjectId) (a : t) : t :=
  mk v (title a) (summary a) (content a) (category a) (status a) (views a)
     (shares a) (featured a) (publishedAt a) (createdBy a) (createdAt a) (updatedAt a).

Definition set_title (v : string) (a : t) : t :=
  mk (_id a) v (summary a) (content a) (category a) (status a) (views a)
     (shares a) (featured a) (publishedAt a) (createdBy a) (createdAt a) (updatedAt a).

Definition set_summary (v : string) (a : t) : t :=
  mk (_id a) (title a) v (content a) (category a) (status a) (views a)
     (shares a) (featured a) (publishedAt a) (createdBy a) (createdAt a) (updatedAt a).

Definition set_content (v : string) (a : t) : t :=
  mk (_id a) (title a) (summary a) v (category a) (status a) (views a)
     (shares a) (featured a) (publishedAt a) (createdBy a) (createdAt a) (updatedAt a).

Definition set_category (v : string) (a : t) : t :=
  mk (_id a) (title a) (summary a) (content a) v (status a) (views a)
     (shares a) (featured a) (publishedAt a) (createdBy a) (createdAt a) (updatedAt a).

Definition set_status (v : ContentStatus) (a : t) : t :=
  mk (_id a) (title a) (summary a) (content a) (category a) v (views a)
     (shares a) (featured a) (publishedAt a) (createdBy a) (createdAt a) (updatedAt a).

Definition set_views (v : Z) (a : t) : t :=
  mk (_id a) (title a) (summary a) (content a) (category a) (status a) v
     (shares a) (featured a) (publishedAt a) (createdBy a) (createdAt a) (updatedAt a).

Definition set_shares (v : Z) (a : t) : t :=
  mk (_id a) (title a) (summary a) (content a) (category a) (status a) (views a)
     v (featured a) (publishedAt a) (createdBy a) (createdAt a) (updatedAt a).

Definition set_featured (v : bool) (a : t) : t :=
  mk (_id a) (title a) (summary a) (content a) (category a) (status a) (views a)
     (shares a) v (publishedAt a) (createdBy a) (createdAt a) (updatedAt a).

Definition set_publishedAt (v : option Z) (a : t) : t :=
  mk (_id a) (title a) (summary a) (content a) (category a) (status a) (views a)
     (shares a) (featured a) v (createdBy a) (createdAt a) (updatedAt a).

Definition set_createdBy (v : option ObjectId) (a : t) : t :=
  mk (_id a) (title a) (summary a) (content a) (category a) (status a) (views a)
     (shares a) (featured a) (publishedAt a) v (createdAt a) (updatedAt a).

Definition set_createdAt (v : Z) (a : t) : t :=
  mk (_id a) (title a) (summary a) (content a) (category a) (status a) (views a)
     (shares a) (featured a) (publishedAt a) (createdBy a) v (updatedAt a).

Definition set_updatedAt (v : Z) (a : t) : t :=
  mk (_id a) (title a) (summary a) (content a) (category a) (status a) (views a)
     (shares a) (featured a) (publishedAt a) (createdBy a) (createdAt a) v.

(** [{ $inc: { views: n } }] *)
Definition inc_views (n : Z) (a : t) : t := set_views (views a + n) a.

(** [$set] of one modified path, with the value the handler's copy holds. *)
Definition assign (src : t) (p : Path) (dst : t) : t :=
  match p with
  | p_title => set_title (title src) dst
  | p_summary => set_summary (summary src) dst
  | p_content => set_content (content src) dst
  | p_category => set_category (category src) dst
  | p_status => set_status (status src) dst
  | p_views => set_views (views src) dst
  | p_shares => set_shares (shares src) dst
  | p_featured => set_featured (featured src) dst
  | p_publishedAt => set_publishedAt (publishedAt src) dst
  | p_createdBy => set_createdBy (createdBy src) dst
  end.

Definition doc := Document t Path.

Definition isModified (p : Path) (d : doc) : bool :=
  existsb (Path_eqb p) (modifiedPaths d).

Definition same_at (p : Path) (a b : t) : bool :=
  match p with
  | p_title => String.eqb (title a) (title b)
  | p_summary => String.eqb (summary a) (summary b)
  | p_content => String.eqb (content a) (content b)
  | p_category => String.eqb (category a) (category b)
  | p_status => ContentStatus_eqb (status a) (status b)
  | p_views => Z.eqb (views a) (views b)
  | p_shares => Z.eqb (shares a) (shares b)
  | p_featured => Bool.eqb (featured a) (featured b)
  | p_publishedAt => option_eqb Z.eqb (publishedAt a) (publishedAt b)
  | p_createdBy => option_eqb N.eqb (createdBy a) (createdBy b)
  end.

(** Assignment to a field of the handler's copy: the path is marked modified
    when the document is new or the value changes. *)
Definition write (p : Path) (f : t -> t) (d : doc) : doc :=
  let x := f (this d) in
  mkDocument x (isNew d)
    (if isNew d || negb (same_at p (this d) x) then p :: modifiedPaths d
     else modifiedPaths d).

Definition categories : list string :=
  ["Politics"; "Technology"; "Sports"; "Entertainment"; "Business"; "Health"].

(** The validators the schema declares for a path. *)
Definition validate_path (p : Path) (a : t) : bool :=
  match p with
  | p_title => non_empty (title a) && (String.length (title a) <=? 200)%nat
  | p_summary => non_empty (summary a) && (String.length (summary a) <=? 500)%nat
  | p_content => non_empty (content a)
  | p_category => string_in (category a) categories
  | p_views => (0 <=? views a)%Z
  | p_shares => (0 <=? shares a)%Z
  | _ => true
  end.

(** Validation before a save: every path of a new document, the modified
    paths of a loaded one. *)
Definition validate (d : doc) : bool :=
  forallb (fun p => validate_path p (this d))
          (if isNew d then all_paths else modifiedPaths d).

(** [newsSchema.pre('save', ..)] *)
Definition pre_save (now : Z) (d : doc) : doc :=
  (* Set publishedAt when status changes to published *)
  let d :=
    if isModified p_status d
       && ContentStatus_eqb (status (this d)) published
       && negb (is_some (publishedAt (this d)))
    then write p_publishedAt (set_publishedAt (Some now)) d
    else d in
  (* Remove publishedAt if status changes to draft *)
  let d :=
    if isModified p_status d && ContentStatus_eqb (status (this d)) draft
    then write p_publishedAt (set_publishedAt None) d
    else d in
  d.

(** The request body of [POST /api/news] and [PUT /api/news/:id]. *)
Record Body : Type := mkBody {
  b_title : string;
  b_summary : string;
  b_content : string;
  b_category : string;
  b_status : option ContentStatus;
  b_featured : option bool;
  b_publishedAt : option Z
}.

Definition write_opt {A : Type} (p : Path) (f : A -> t -> t) (v : option A) (d : doc) : doc :=
  match v with
  | Some x => write p (f x) d
  | None => d
  end.

(** The schema defaults of a document under construction. *)
Definition defaults : t :=
  mk 0%N "" "" "" "" draft 0 0 false None None 0 0.

(** [new News({ ...req.body, createdBy })] *)
Definition construct (b : Body) (creator : ObjectId) : doc :=
  let d := mkDocument defaults true [] in
  let d := write p_title (set_title (b_title b)) d in
  let d := write p_summary (set_summary (b_summary b)) d in
  let d := write p_content (set_content (b_content b)) d in
  let d := write p_category (set_category (b_category b)) d in
  let d := write_opt p_status set_status (b_status b) d in
  let d := write_opt p_featured set_featured (b_featured b) d in
  let d := write_opt p_publishedAt (fun v => set_publishedAt (Some v)) (b_publishedAt b) d in
  write p_createdBy (set_createdBy (Some creator)) d.

(** The update document Mongoose casts the body of a PUT into: a [$set] of
    the paths the body carries. *)
Definition apply_body (b : Body) (a : t) : t :=
  let a := set_title (b_title b) a in
  let a := set_summary (b_summary b) a in
  let a := set_content (b_content b) a in
  let a := set_category (b_category b) a in
  let a := match b_status b with Some v => set_status v a | None => a end in
  let a := match b_featured b with Some v => set_featured v a | None => a end in
  let a := match b_publishedAt b with Some v => set_publishedAt (Some v) a | None => a end in
  a.

(** The update validators ([runValidators: true]) of the paths a body sets. *)
Definition validate_update (b : Body) : bool :=
  let a := apply_body b defaults in
  validate_path p_title a && validate_path p_summary a
  && validate_path p_content a && validate_path p_category a.

End newsSchema.

(** ** models/Video.js

    [duration], [tags] and [youtubeData] are left out. *)

Module videoSchema.

Record t : Type := mk {
  _id : ObjectId;
  title : string;
  description : string;
  youtubeUrl : string;
  youtubeId : string;
  thumbnailUrl : option string;
  category : string;
  status : ContentStatus;
  views : Z;
  shares : Z;
  likes : Z;
  featured : bool;
  publishedAt : option Z;
  createdBy : option ObjectId;
  createdAt : Z;
  updatedAt : Z
}.

Inductive Path :=
| p_title | p_description | p_youtubeUrl | p_youtubeId | p_thumbnailUrl
| p_category | p_status | p_views | p_shares | p_likes | p_featured
| p_publishedAt | p_createdBy.

Definition Path_eqb (a b : Path) : bool :=
  match a, b with
  | p_title, p_title | p_description, p_description
  | p_youtubeUrl, p_youtubeUrl | p_youtubeId, p_youtubeId
  | p_thumbnailUrl, p_thumbnailUrl | p_category, p_category
  | p_status, p_status | p_views, p_views | p_shares, p_shares
  | p_likes, p_likes | p_featured, p_featured
  | p_publishedAt, p_publishedAt | p_createdBy, p_createdBy => true
  | _, _ => false
  end.

Definition all_paths : list Path :=
  [p_title; p_description; p_youtubeUrl; p_youtubeId; p_thumbnailUrl;
   p_category; p_status; p_views; p_shares; p_likes; p_featured;
   p_publishedAt; p_createdBy].

Definition set__id (x : ObjectId) (v : t) : t :=
  mk x (title v) (description v) (youtubeUrl v) (youtubeId v) (thumbnailUrl v)
     (category v) (status v) (views v) (shares v) (likes v) (featured v)
     (publishedAt v) (createdBy v) (createdAt v) (updatedAt v).

Definition set_title (x : string) (v : t) : t :=
  mk (_id v) x (description v) (youtubeUrl v) (youtubeId v) (thumbnailUrl v)
     (category v) (status v) (views v) (shares v) (likes v) (featured v)
     (publishedAt v) (createdBy v) (createdAt v) (updatedAt v).

Definition set_description (x : string) (v : t) : t :=
  mk (_id v) (title v) x (youtubeUrl v) (youtubeId v) (thumbnailUrl v)
     (category v) (status v) (views v) (shares v) (likes v) (featured v)
     (publishedAt v) (createdBy v) (createdAt v) (updatedAt v).

Definition set_youtubeUrl (x : string) (v : t) : t :=
  mk (_id v) (title v) (description v) x (youtubeId v) (thumbnailUrl v)
     (category v) (status v) (views v) (shares v) (likes v) (featured v)
     (publishedAt v) (createdBy v) (createdAt v) (updatedAt v).

Definition set_youtubeId (x : string) (v : t) : t :=
  mk (_id v) (title v) (description v) (youtubeUrl v) x (thumbnailUrl v)
     (category v) (status v) (views v) (shares v) (likes v) (featured v)
     (publishedAt v) (createdBy v) (createdAt v) (updatedAt v).

Definition set_thumbnailUrl (x : option string) (v : t) : t :=
  mk (_id v) (title v) (description v) (youtubeUrl v) (youtubeId v) x
     (category v) (status v) (views v) (shares v) (likes v) (featured v)
     (publishedAt v) (createdBy v) (createdAt v) (updatedAt v).

Definition set_category (x : string) (v : t) : t :=
  mk (_id v) (title v) (description v) (youtubeUrl v) (youtubeId v) (thumbnailUrl v)
     x (status v) (views v) (shares v) (likes v) (featured v)
     (publishedAt v) (createdBy v) (createdAt v) (updatedAt v).

Definition set_status (x : ContentStatus) (v : t) : t :=
  mk (_id v) (title v) (description v) (youtubeUrl v) (youtubeId v) (thumbnailUrl v)
     (category v) x (views v) (shares v) (likes v) (featured v)
     (publishedAt v) (createdBy v) (createdAt v) (updatedAt v).

Definition set_views (x : Z) (v : t) : t :=
  mk (_id v) (title v) (description v) (youtubeUrl v) (youtubeId v) (thumbnailUrl v)
     (category v) (status v) x (shares v) (likes v) (featured v)
     (publishedAt v) (createdBy v) (createdAt v) (updatedAt v).

Definition set_shares (x : Z) (v : t) : t :=
  mk (_id v) (title v) (description v) (youtubeUrl v) (youtubeId v) (thumbnailUrl v)
     (category v) (status v) (views v) x (likes v) (featured v)
     (publishedAt v) (createdBy v) (createdAt v) (updatedAt v).

Definition set_likes (x : Z) (v : t) : t :=
  mk (_id v) (title v) (description v) (youtubeUrl v) (youtubeId v) (thumbnailUrl v)
     (category v) (status v) (views v) (shares v) x (featured v)
     (publishedAt v) (createdBy v) (createdAt v) (updatedAt v).

Definition set_featured (x : bool) (v : t) : t :=
  mk (_id v) (title v) (description v) (youtubeUrl v) (youtubeId v) (thumbnailUrl v)
     (category v) (status v) (views v) (shares v) (likes v) x
     (publishedAt v) (createdBy v) (createdAt v) (updatedAt v).

Definition set_publishedAt (x : option Z) (v : t) : t :=
  mk (_id v) (title v) (description v) (youtubeUrl v) (youtubeId v) (thumbnailUrl v)
     (category v) (status v) (views v) (shares v) (likes v) (featured v)
     x (createdBy v) (createdAt v) (updatedAt v).

Definition set_createdBy (x : option ObjectId) (v : t) : t :=
  mk (_id v) (title v) (description v) (youtubeUrl v) (youtubeId v) (thumbnailUrl v)
     (category v) (status v) (views v) (shares v) (likes v) (featured v)
     (publishedAt v) x (createdAt v) (updatedAt v).

Definition set_createdAt (x : Z) (v : t) : t :=
  mk (_id v) (title v) (description v) (youtubeUrl v) (youtubeId v) (thumbnailUrl v)
     (category v) (status v) (views v) (shares v) (likes v) (featured v)
     (publishedAt v) (createdBy v) x (updatedAt v).

Definition set_updatedAt (x : Z) (v : t) : t :=
  mk (_id v) (title v) (description v) (youtubeUrl v) (youtubeId v) (thumbnailUrl v)
     (category v) (status v) (views v) (shares v) (likes v) (featured v)
     (publishedAt v) (createdBy v) (createdAt v) x.

(** [{ $inc: { views: n } }] *)
Definition inc_views (n : Z) (v : t) : t := set_views (views v + n) v.

Definition assign (src : t) (p : Path) (dst : t) : t :=
  match p with
  | p_title => set_title (title src) dst
  | p_description => set_description (description src) dst
  | p_youtubeUrl => set_youtubeUrl (youtubeUrl src) dst
  | p_youtubeId => set_youtubeId (youtubeId src) dst
  | p_thumbnailUrl => set_thumbnailUrl (thumbnailUrl src) dst
  | p_category => set_category (category src) dst
  | p_status => set_status (status src) dst
  | p_views => set_views (views src) dst
  | p_shares => set_shares (shares src) dst
  | p_likes => set_likes (likes src) dst
  | p_featured => set_featured (featured src) dst
  | p_publishedAt => set_publishedAt (publishedAt src) dst
  | p_createdBy => set_createdBy (createdBy src) dst
  end.

Definition doc := Document t Path.

Definition isModified (p : Path) (d : doc) : bool :=
  existsb (Path_eqb p) (modifiedPaths d).

Definition same_at (p : Path) (a b : t) : bool :=
  match p with
  | p_title => String.eqb (title a) (title b)
  | p_description => String.eqb (description a) (description b)
  | p_youtubeUrl => String.eqb (youtubeUrl a) (youtubeUrl b)
  | p_youtubeId => String.eqb (youtubeId a) (youtubeId b)
  | p_thumbnailUrl => option_eqb String.eqb (thumbnailUrl a) (thumbnailUrl b)
  | p_category => String.eqb (category a) (category b)
  | p_status => ContentStatus_eqb (status a) (status b)
  | p_views => Z.eqb (views a) (views b)
  | p_shares => Z.eqb (shares a) (shares b)
  | p_likes => Z.eqb (likes a) (likes b)
  | p_featured => Bool.eqb (featured a) (featured b)
  | p_publishedAt => option_eqb Z.eqb (publishedAt a) (publishedAt b)
  | p_createdBy => option_eqb N.eqb (createdBy a) (createdBy b)
  end.

(** Assignment to a field of the handler's copy: the path is marked modified
    when the document is new or the value changes. *)
Definition write (p : Path) (f : t -> t) (d : doc) : doc :=
  let x := f (this d) in
  mkDocument x (isNew d)
    (if isNew d || negb (same_at p (this d) x) then p :: modifiedPaths d
     else modifiedPaths d).

Definition categories : list string :=
  ["News"; "Analysis"; "Interview"; "Documentary"; "Live"; "Entertainment"].

(** JavaScript truthiness of an optional string. *)
Definition truthy (o : option string) : bool :=
  match o with
  | Some s => non_empty s
  | None => false
  end.

Definition validate_path (p : Path) (v : t) : bool :=
  match p with
  | p_title => non_empty (title v) && (String.length (title v) <=? 200)%nat
  | p_description => (String.length (description v) <=? 1000)%nat
  | p_youtubeUrl => non_empty (youtubeUrl v) && youtubeUrl_regex (youtubeUrl v)
  | p_youtubeId => non_empty (youtubeId v) && youtubeId_regex (youtubeId v)
  | p_thumbnailUrl =>
      match thumbnailUrl v with
      | Some u => negb (non_empty u) || http_url_regex u
      | None => true
      end
  | p_category => string_in (category v) categories
  | p_views => (0 <=? views v)%Z
  | p_shares => (0 <=? shares v)%Z
  | p_likes => (0 <=? likes v)%Z
  | _ => true
  end.

Definition validate (d : doc) : bool :=
  forallb (fun p => validate_path p (this d))
          (if isNew d then all_paths else modifiedPaths d).

Definition defaultThumbnail (id : string) : string :=
  "https://img.youtube.com/vi/" ++ id ++ "/maxresdefault.jpg".

(** [videoSchema.pre('save', ..)] *)
Definition pre_save (now : Z) (d : doc) : doc :=
  (* Extract YouTube ID from URL if not provided *)
  let d :=
    if non_empty (youtubeUrl (this d)) && negb (non_empty (youtubeId (this d)))
    then match extractYouTubeId (youtubeUrl (this d)) with
         | Some id => write p_youtubeId (set_youtubeId id) d
         | None => d
         end
    else d in
  (* Set default thumbnail if not provided *)
  let d :=
    if negb (truthy (thumbnailUrl (this d))) && non_empty (youtubeId (this d))
    then write p_thumbnailUrl
               (set_thumbnailUrl (Some (defaultThumbnail (youtubeId (this d))))) d
    else d in
  (* Set publishedAt when status changes to published *)
  let d :=
    if isModified p_status d
       && ContentStatus_eqb (status (this d)) published
       && negb (is_some (publishedAt (this d)))
    then write p_publishedAt (set_publishedAt (Some now)) d
    else d in
  (* Remove publishedAt if status changes to draft *)
  let d :=
    if isModified p_status d && ContentStatus_eqb (status (this d)) draft
    then write p_publishedAt (set_publishedAt None) d
    else d in
  d.

(** The request body of [POST /api/videos] and [PUT /api/videos/:id]. *)
Record Body : Type := mkBody {
  b_title : string;
  b_description : option string;
  b_youtubeUrl : string;
  b_category : string;
  b_thumbnailUrl : option string;
  b_status : option ContentStatus;
  b_featured : option bool;
  b_publishedAt : option Z
}.

Definition write_opt {A : Type} (p : Path) (f : A -> t -> t) (x : option A) (d : doc) : doc :=
  match x with
  | Some y => write p (f y) d
  | None => d
  end.

Definition defaults : t :=
  mk 0%N "" "" "" "" None "" draft 0 0 0 false None None 0 0.

(** [new Video({ ...req.body, youtubeId, createdBy })] *)
Definition construct (b : Body) (id : string) (creator : ObjectId) : doc :=
  let d := mkDocument defaults true [] in
  let d := write p_title (set_title (b_title b)) d in
  let d := write_opt p_description set_description (b_description b) d in
  let d := write p_youtubeUrl (set_youtubeUrl (b_youtubeUrl b)) d in
  let d := write p_category (set_category (b_category b)) d in
  let d := write_opt p_thumbnailUrl (fun u => set_thumbnailUrl (Some u)) (b_thumbnailUrl b) d in
  let d := write_opt p_status set_status (b_status b) d in
  let d := write_opt p_featured set_featured (b_featured b) d in
  let d := write_opt p_publishedAt (fun x => set_publishedAt (Some x)) (b_publishedAt b) d in
  let d := write p_youtubeId (set_youtubeId id) d in
  write p_createdBy (set_createdBy (Some creator)) d.

(** The [$set] a PUT body is cast into; [id] is the [youtubeId] the handler
    added to the body. *)
Definition apply_body (b : Body) (id : string) (v : t) : t :=
  let v := set_title (b_title b) v in
  let v := match b_description b with Some x => set_description x v | None => v end in
  let v := set_youtubeUrl (b_youtubeUrl b) v in
  let v := set_category (b_category b) v in
  let v := match b_thumbnailUrl b with Some x => set_thumbnailUrl (Some x) v | None => v end in
  let v := match b_status b with Some x => set_status x v | None => v end in
  let v := match b_featured b with Some x => set_featured x v | None => v end in
  let v := match b_publishedAt b with Some x => set_publishedAt (Some x) v | None => v end in
  set_youtubeId id v.

Definition validate_update (b : Body) (id : string) : bool :=
  let v := apply_body b id defaults in
  validate_path p_title v && validate_path p_description v
  && validate_path p_youtubeUrl v && validate_path p_youtubeId v
  && validate_path p_thumbnailUrl v && validate_path p_category v.

End videoSchema.

(** ** The store, the libraries, the responses *)

Record Store : Type := mkStore {
  users : list userSchema.t;
  news : list newsSchema.t;
  videos : list videoSchema.t
}.

Definition set_users (c : list userSchema.t) (s : Store) : Store :=
  mkStore c (news s) (videos s).

Definition set_news (c : list newsSchema.t) (s : Store) : Store :=
  mkStore (users s) c (videos s).

Definition set_videos (c : list videoSchema.t) (s : Store) : Store :=
  mkStore (users s) (news s) c.

(** The library functions the backend calls. *)
Class Libs : Type := {
  (* bcryptjs *)
  bcrypt_compare : string -> string -> bool;   (* candidate, hash *)
  bcrypt_hash : string -> string -> string;    (* salt, password *)
  (* jsonwebtoken: [jwt.sign({ userId }, JWT_SECRET, { expiresIn })] at an instant *)
  jwt_sign : Z -> ObjectId -> string;
  (* express-validator *)
  isEmail : string -> bool;
  normalizeEmail : string -> string;
  isMobilePhone : string -> bool;
  isURL : string -> bool;
  (* String.prototype.toLowerCase *)
  toLowerCase : string -> string;
  (* the MongoDB text index: does the search string match these fields *)
  text_search : string -> list string -> bool;
  (* Mongoose: the cast of a route parameter to an [ObjectId]; [None] is a
     thrown [CastError] *)
  castObjectId : string -> option ObjectId
}.

(** The values [Math.random()] and [bcrypt.genSalt] give to one request. *)
Record Random : Type := mkRandom {
  random_password : string;
  random_salt : string
}.

Record UserView : Type := mkUserView {
  v_id : ObjectId;
  v_name : string;
  v_email : option string;
  v_phone : option string;
  v_role : Role;
  v_status : AccountStatus
}.

Record Pagination : Type := mkPagination {
  currentPage : Z;
  totalPages : Z;
  total : Z;
  hasNextPage : bool;
  hasPrevPage : bool;
  page_limit : Z
}.

Inductive Data : Type :=
| no_data
| auth_data (token : string) (user : UserView)
| shares_data (shares : Z)
| likes_data (likes : Z)
| article_data (article : newsSchema.t) (related : list newsSchema.t)
| video_data (video : videoSchema.t) (related : list videoSchema.t)
| articles_data (articles : list newsSchema.t) (pagination : Pagination)
| videos_data (videos : list videoSchema.t) (pagination : Pagination)
| deleted_data (deletedId : ObjectId).

Record Response : Type := mkResponse {
  code : Z;
  success : bool;
  message : string;
  data : Data
}.

Definition failure (c : Z) (m : string) : Response := mkResponse c false m no_data.

(** [req.user], as the authentication middleware leaves it. *)
Record ReqUser : Type := mkReqUser {
  userId : ObjectId;
  req_role : Role
}.

(** ** middleware/auth.js *)

(** [adminMiddleware]: the response that ends the request, if any. *)
Definition adminMiddleware (user : option ReqUser) : option Response :=
  match user with
  | None => Some (failure 401 "Authentication required.")
  | Some u =>
      if negb (Role_eqb (req_role u) role_admin || Role_eqb (req_role u) role_super_admin)
      then Some (failure 403 "Access denied. Admin privileges required.")
      else None
  end.

(** [superAdminMiddleware] *)
Definition superAdminMiddleware (user : option ReqUser) : option Response :=
  match user with
  | None => Some (failure 401 "Authentication required.")
  | Some u =>
      if negb (Role_eqb (req_role u) role_super_admin)
      then Some (failure 403 "Access denied. Super admin privileges required.")
      else None
  end.

(** ** The User model: statics and methods *)

Definition is_space (c : ascii) : bool :=
  in_range 9 13 c || Ascii.eqb c " "%char || Ascii.eqb c (ascii_of_nat 160).

(** The class [[^\s@]]. *)
Definition email_char (c : ascii) : bool := negb (is_space c || Ascii.eqb c "@"%char).

(** [/^[^\s@]+\.[^\s@]+$/]: the domain of an address. *)
Fixpoint dotted (seen : bool) (s : string) : bool :=
  match s with
  | EmptyString => false
  | String c s' =>
      email_char c
      && ((seen && Ascii.eqb c "."%char && non_empty s' && string_forallb email_char s')
          || dotted true s')
  end.

(** [/^[^\s@]+@[^\s@]+\.[^\s@]+$/] *)
Definition email_regex (s : string) : bool :=
  let local := take_while email_char s in
  non_empty local
  && match drop (String.length local) s with
     | String c rest => Ascii.eqb c "@"%char && dotted false rest
     | EmptyString => false
     end.

(** [/^\+?[\d\s-()]+$/] *)
Definition phone_regex (s : string) : bool :=
  let digits := match s with
                | String c s' => if Ascii.eqb c "+"%char then s' else s
                | EmptyString => s
                end in
  non_empty digits
  && string_forallb (fun c => in_range 48 57 c || is_space c || Ascii.eqb c "-"%char
                              || Ascii.eqb c "("%char || Ascii.eqb c ")"%char) digits.

(** [str.slice(-n)] *)
Definition slice_last (n : nat) (s : string) : string :=
  drop (String.length s - n) s.

Module User.
Import userSchema.

Section WithLibs.
Context {L : Libs}.

Definition findOne (p : t -> bool) : Prog Store (option t) :=
  await (fun s => (Collection.findOne p (users s), s)).

(** [userSchema.statics.findByEmail] *)
Definition findByEmail (address : string) : Prog Store (option t) :=
  findOne (fun u => String.eqb (email u) (toLowerCase address)).

Definition findById (id : ObjectId) : Prog Store (option t) :=
  await (fun s => (Collection.findById _id id (users s), s)).

(** [this.updateOne(update)]: one atomic update of the stored document;
    the schema's timestamps option stamps [updatedAt]. *)
Definition updateOne (now : Z) (id : ObjectId) (update : t -> t) : Prog Store unit :=
  await (fun s =>
    (tt, set_users (Collection.updateById _id id (fun u => set_updatedAt now (update u)) (users s)) s)).

(** [userSchema.methods.comparePassword] *)
Definition comparePassword (u : t) (candidatePassword : string) : bool :=
  if negb (non_empty (password u)) then false
  else bcrypt_compare candidatePassword (password u).

(** [userSchema.methods.incLoginAttempts] *)
Definition incLoginAttempts (now : Z) (u : t) : Prog Store unit :=
  (* If we have a previous lock that has expired, restart at 1 *)
  if match lockUntil u with Some until => (until <? now)%Z | None => false end
  then updateOne now (_id u) (fun d => set_loginAttempts 1 (unset_lockUntil d))
  else
    let updates := inc_loginAttempts 1 in
    (* Lock account after max attempts *)
    let updates :=
      if (maxAttempts <=? loginAttempts u + 1)%Z && negb (isLocked now u)
      then fun d => set_lockUntil (Some (now + lockTime)) (updates d)
      else updates in
    updateOne now (_id u) updates.

(** [userSchema.methods.resetLoginAttempts] *)
Definition resetLoginAttempts (now : Z) (u : t) : Prog Store unit :=
  updateOne now (_id u) (fun d => unset_lockUntil (unset_loginAttempts d)).

(** The validators of the user schema. *)
Definition validate_path (p : Path) (u : t) : bool :=
  match p with
  | p_password => non_empty (password u) && (6 <=? String.length (password u))%nat
  | _ => true
  end.

Definition validate_new (u : t) : bool :=
  non_empty (name u) && (String.length (name u) <=? 50)%nat
  && non_empty (email u) && email_regex (email u)
  && validate_path p_password u
  && match phone u with
     | Some ph => negb (non_empty ph) || phone_regex ph
     | None => true
     end.

Definition validate (d : doc) : bool :=
  if isNew d then validate_new (this d)
  else forallb (fun p => validate_path p (this d)) (modifiedPaths d).

(** The first pre-save hook: hash the password if it is modified. *)
Definition pre_save_password (r : Random) (d : doc) : doc :=
  if negb (isModified p_password d) then d
  else mkDocument (set_password (bcrypt_hash (random_salt r) (password (this d))) (this d))
                  (isNew d) (modifiedPaths d).

(** The second pre-save hook, for login attempts. *)
Definition pre_save_loginAttempts (now : Z) (d : doc) : Prog Store unit :=
  if negb (isModified p_loginAttempts d) && negb (isModified p_lockUntil d)
  then Ret tt
  else
    if match lockUntil (this d) with Some until => (until <? now)%Z | None => false end
    then updateOne now (_id (this d)) (fun x => set_loginAttempts 1 (unset_lockUntil x))
    else Ret tt.

(** [doc.save()]: validation, the pre-save hooks, then one store operation:
    an insert for a new document (refused when the unique index on [email]
    has the address already), a [$set] of the modified paths otherwise
    (nothing is sent when no path is modified; the save throws when the
    document is gone).  [None] is a thrown error. *)
Definition save (now : Z) (r : Random) (d : doc) : Prog Store (option doc) :=
  if negb (validate d) then Ret None
  else
    let d := pre_save_password r d in
    (pre_save_loginAttempts now d ;;;
     await (fun s =>
       if isNew d then
         if existsb (fun u => String.eqb (email u) (email (this d))) (users s)
         then (None, s)
         else
           let u := set_updatedAt now (mk (Collection.fresh_id _id (users s)) (name (this d))
                      (email (this d)) (password (this d)) (phone (this d))
                      (role (this d)) (status (this d)) (phoneVerified (this d))
                      (lastLogin (this d)) (loginAttempts (this d)) (lockUntil (this d))
                      (lastActiveAt (this d)) now now) in
           (Some (mkDocument u false []), set_users (users s ++ [u])%list s)
       else
         match modifiedPaths d, Collection.findById _id (_id (this d)) (users s) with
         | [], _ => (Some d, s)
         | _, None => (None, s)
         | _, Some _ =>
             (Some (mkDocument (this d) false []),
              set_users
                (Collection.updateById _id (_id (this d))
                   (fun stored =>
                      set_updatedAt now
                        (fold_right (assign (this d)) stored (modifiedPaths d)))
                   (users s)) s)
         end))%prog.

End WithLibs.
End User.

(** ** routes/auth.js *)

(** validator.js [isNumeric]: [/^[+-]?([0-9]*[.])?[0-9]+$/] *)
Definition isNumeric (s : string) : bool :=
  let digit := in_range 48 57 in
  let s := match s with
           | String c s' =>
               if Ascii.eqb c "+"%char || Ascii.eqb c "-"%char then s' else s
           | EmptyString => s
           end in
  let int_part := take_while digit s in
  match drop (String.length int_part) s with
  | EmptyString => non_empty int_part
  | String c frac =>
      Ascii.eqb c "."%char && non_empty frac && string_forallb digit frac
  end.

Module authRoutes.
Import userSchema.

Section WithLibs.
Context {L : Libs}.

(** [generateToken] *)
Definition generateToken (now : Z) (id : ObjectId) : string := jwt_sign now id.

Record RegisterBody : Type := mkRegisterBody {
  r_name : string;
  r_email : string;
  r_password : string;
  r_phone : option string;
  r_role : option Role
}.

Record LoginBody : Type := mkLoginBody {
  l_email : string;
  l_password : string
}.

Record PhoneBody : Type := mkPhoneBody {
  ph_phone : string;
  ph_otp : string
}.

(** [validateRegister]: are there no validation errors *)
Definition validateRegister (b : RegisterBody) : bool :=
  length_between 2 50 (r_name b)
  && isEmail (r_email b)
  && (6 <=? String.length (r_password b))%nat
  && match r_role b with
     | Some r => Role_eqb r role_user || Role_eqb r role_admin
     | None => true
     end.

(** [validateLogin] *)
Definition validateLogin (b : LoginBody) : bool :=
  isEmail (l_email b) && non_empty (l_password b).

(** [validatePhoneOTP] *)
Definition validatePhoneOTP (b : PhoneBody) : bool :=
  isMobilePhone (ph_phone b)
  && length_between 4 6 (ph_otp b) && isNumeric (ph_otp b).

Definition view_email (u : t) : UserView :=
  mkUserView (_id u) (name u) (Some (email u)) None (role u) (status u).

Definition view_phone (u : t) : UserView :=
  mkUserView (_id u) (name u) None (phone u) (role u) (status u).

(** [new User({ name, email, password, phone, role, phoneVerified })]: the
    schema lower-cases the address and applies its defaults. *)
Definition new_user (now : Z) (nm address pw : string) (ph : option string)
    (r : Role) (verified : bool) : doc :=
  mkDocument (mk 0%N nm (toLowerCase address) pw ph r active verified None 0 None now 0 0)
             true [p_password; p_other].

(** [POST /api/auth/register] *)
Definition register (now : Z) (rnd : Random) (b : RegisterBody) : Prog Store Response :=
  if negb (validateRegister b) then Ret (failure 400 "Validation failed")
  else
    let address := normalizeEmail (r_email b) in
    let r := match r_role b with Some r => r | None => role_user end in
    (existingUser <- User.findByEmail address ;;
     match existingUser with
     | Some _ => Ret (failure 400 "User already exists with this email")
     | None =>
         saved <- User.save now rnd
                    (new_user now (r_name b) address (r_password b) (r_phone b) r false) ;;
         match saved with
         | None => Ret (failure 500 "Server error during registration")
         | Some user =>
             let token := generateToken now (_id (this user)) in
             let user := write p_lastLogin (set_lastLogin (Some now)) user in
             saved <- User.save now rnd user ;;
             match saved with
             | None => Ret (failure 500 "Server error during registration")
             | Some user =>
                 Ret (mkResponse 201 true "User registered successfully"
                        (auth_data token (view_email (this user))))
             end
         end
     end)%prog.

(** [POST /api/auth/login] *)
Definition login (now : Z) (rnd : Random) (b : LoginBody) : Prog Store Response :=
  if negb (validateLogin b) then Ret (failure 400 "Validation failed")
  else
    let address := normalizeEmail (l_email b) in
    (* Find user and include password for comparison *)
    (found <- User.findByEmail address ;;
     match found with
     | None => Ret (failure 401 "Invalid email or password")
     | Some user =>
         (* Check if account is locked *)
         if isLocked now user
         then Ret (failure 423
                "Account temporarily locked due to too many failed login attempts")
         (* Check if account is active *)
         else if negb (AccountStatus_eqb (status user) active)
         then Ret (failure 403 "Account is not active. Please contact support.")
         (* Verify password *)
         else if negb (User.comparePassword user (l_password b))
         then
           (* Increment login attempts *)
           User.incLoginAttempts now user ;;;
           Ret (failure 401 "Invalid email or password")
         else
           (* Reset login attempts on successful login *)
           (if (0 <? loginAttempts user)%Z
            then User.resetLoginAttempts now user
            else Ret tt) ;;;
           let token := generateToken now (_id user) in
           (* Update last login and analytics *)
           let d := write p_lastLogin (set_lastLogin (Some now)) (hydrate user) in
           let d := write p_lastActiveAt (set_lastActiveAt now) d in
           saved <- User.save now rnd d ;;
           match saved with
           | None => Ret (failure 500 "Server error during login")
           | Some d =>
               Ret (mkResponse 200 true "Login successful"
                      (auth_data token (view_email (this d))))
           end
     end)%prog.

Definition validOTP : string := "1234".

(** [POST /api/auth/phone-login] *)
Definition phone_login (now : Z) (rnd : Random) (b : PhoneBody) : Prog Store Response :=
  if negb (validatePhoneOTP b) then Ret (failure 400 "Validation failed")
  else
    let ph := ph_phone b in
    (* Mock OTP verification *)
    if negb (String.eqb (ph_otp b) validOTP) then Ret (failure 401 "Invalid OTP")
    else
      (* Find or create user with phone number *)
      (found <- User.findOne (fun u => option_eqb String.eqb (phone u) (Some ph)) ;;
       found <- match found with
                | Some user => Ret (Some (hydrate user))
                | None =>
                    User.save now rnd
                      (new_user now ("User " ++ slice_last 4 ph) (ph ++ "@temp.com")
                                (random_password rnd) (Some ph) role_user true)
                end ;;
       match found with
       | None => Ret (failure 500 "Server error during phone login")
       | Some user =>
           (* Check if account is active *)
           if negb (AccountStatus_eqb (status (this user)) active)
           then Ret (failure 403 "Account is not active. Please contact support.")
           else
             let token := generateToken now (_id (this user)) in
             (* Update last login *)
             let user := write p_lastLogin (set_lastLogin (Some now)) user in
             let user := write p_phoneVerified (set_phoneVerified true) user in
             let user := write p_lastActiveAt (set_lastActiveAt now) user in
             saved <- User.save now rnd user ;;
             match saved with
             | None => Ret (failure 500 "Server error during phone login")
             | Some user =>
                 Ret (mkResponse 200 true "Phone login successful"
                        (auth_data token (view_phone (this user))))
             end
       end)%prog.

End WithLibs.
End authRoutes.

(** ** Queries: filter, sort, skip, limit *)

(** The filter object a list route builds. *)
Record Filter : Type := mkFilter {
  f_status : option string;
  f_category : option string;
  f_featured : option bool;
  f_text : option string
}.

Definition status_string (s : ContentStatus) : string :=
  match s with
  | published => "published"
  | draft => "draft"
  end.

Definition holds {A : Type} (cond : option A) (test : A -> bool) : bool :=
  match cond with
  | Some x => test x
  | None => true
  end.

Section Cursor.
Context {D : Type}.

Fixpoint insert_by (le : D -> D -> bool) (x : D) (l : list D) : list D :=
  match l with
  | [] => [x]
  | y :: l' => if le x y then x :: l else y :: insert_by le x l'
  end.

(** [.sort(sortObj)], stable. *)
Definition sort_by (le : D -> D -> bool) (l : list D) : list D :=
  fold_right (insert_by le) [] l.

(** [{ [field]: order === 'desc' ? -1 : 1 }] as an order on documents. *)
Definition sort_order (cmp : D -> D -> comparison) (descending : bool) (x y : D) : bool :=
  match (if descending then cmp y x else cmp x y) with
  | Gt => false
  | _ => true
  end.

(** [Model.find(filter).sort(..).skip(..).limit(..)] *)
Definition find_page (matches : D -> bool) (le : D -> D -> bool) (skip limit : Z)
    (c : list D) : list D :=
  firstn (Z.to_nat limit) (skipn (Z.to_nat skip) (sort_by le (filter matches c))).
End Cursor.

Definition compare_option_Z (a b : option Z) : comparison :=
  match a, b with
  | None, None => Eq
  | None, Some _ => Lt
  | Some _, None => Gt
  | Some x, Some y => Z.compare x y
  end.

(** The query string of [GET /api/news] and [GET /api/videos]. *)
Record ListQuery : Type := mkListQuery {
  q_page : option Z;
  q_limit : option Z;
  q_category : option string;
  q_status : option string;
  q_search : option string;
  q_featured : option string;
  q_sort : option string;
  q_order : option string
}.

Definition or_default {A : Type} (d : A) (o : option A) : A :=
  match o with
  | Some x => x
  | None => d
  end.

(** [validateQuery], for the category list of the route. *)
Definition validateQuery (categories : list string) (q : ListQuery) : bool :=
  holds (q_page q) (fun p => (1 <=? p)%Z)
  && holds (q_limit q) (fun l => (1 <=? l)%Z && (l <=? 100)%Z)
  && holds (q_category q) (fun c => string_in c categories)
  && holds (q_status q) (fun s => string_in s ["published"; "draft"])
  && holds (q_search q) (fun s => (2 <=? String.length s)%nat).

(** The statements with which both list routes build their query object. *)
Definition build_query (user : option ReqUser) (q : ListQuery) : Filter :=
  let status := or_default "published" (q_status q) in
  let query_status :=
    (* Only show published items for public access *)
    if match user with
       | None => true
       | Some u => negb (Role_eqb (req_role u) role_admin)
       end
    then Some "published"
    else if non_empty status then Some status else None in
  let query_category :=
    match q_category q with
    | Some c => if non_empty c then Some c else None
    | None => None
    end in
  let query_featured := option_map (fun f => String.eqb f "true") (q_featured q) in
  let query_text :=
    match q_search q with
    | Some s => if non_empty s then Some s else None
    | None => None
    end in
  mkFilter query_status query_category query_featured query_text.

Definition ceil_div (a b : Z) : Z := (- ((- a) / b))%Z.

Definition pagination (page limit count : Z) : Pagination :=
  let pages := ceil_div count limit in
  mkPagination page pages count (page <? pages)%Z (1 <? page)%Z limit.

(** ** The News model: statics and methods *)

Module News.
Import newsSchema.

Section WithLibs.
Context {L : Libs}.

Definition matches (q : Filter) (a : t) : bool :=
  holds (f_status q) (String.eqb (status_string (status a)))
  && holds (f_category q) (String.eqb (category a))
  && holds (f_featured q) (Bool.eqb (featured a))
  && holds (f_text q) (fun s => text_search s [title a; summary a; content a]).

(** The order of two documents on a sort key; keys the model does not know
    leave the order as it is. *)
Definition compare_field (field : string) (a b : t) : comparison :=
  if String.eqb field "createdAt" then Z.compare (createdAt a) (createdAt b)
  else if String.eqb field "updatedAt" then Z.compare (updatedAt a) (updatedAt b)
  else if String.eqb field "publishedAt"
       then compare_option_Z (publishedAt a) (publishedAt b)
  else if String.eqb field "views" then Z.compare (views a) (views b)
  else if String.eqb field "shares" then Z.compare (shares a) (shares b)
  else if String.eqb field "title" then String.compare (title a) (title b)
  else Eq.

Definition findById (id : ObjectId) : Prog Store (option t) :=
  await (fun s => (Collection.findById _id id (news s), s)).

Definition find (p : t -> bool) (le : t -> t -> bool) (skip limit : Z)
  : Prog Store (list t) :=
  await (fun s => (find_page p le skip limit (news s), s)).

Definition countDocuments (p : t -> bool) : Prog Store Z :=
  await (fun s => (Collection.countDocuments p (news s), s)).

(** [News.findByIdAndUpdate(id, update, { new: true })]: one atomic update
    of the stored document, which no save hook sees; the result is the
    updated document. *)
Definition findByIdAndUpdate (now : Z) (id : ObjectId) (update : t -> t)
  : Prog Store (option t) :=
  await (fun s =>
    let c := Collection.updateById _id id (fun a => set_updatedAt now (update a)) (news s) in
    (Collection.findById _id id c, set_news c s)).

Definition findByIdAndDelete (id : ObjectId) : Prog Store (option t) :=
  await (fun s =>
    (Collection.findById _id id (news s),
     set_news (Collection.deleteFirst (fun a => N.eqb (_id a) id) (news s)) s)).

(** [doc.save()]: validation, the pre-save hook, then one store operation:
    an insert for a new document, a [$set] of the modified paths otherwise.
    [None] is a thrown error. *)
Definition save (now : Z) (d : doc) : Prog Store (option doc) :=
  if negb (validate d) then Ret None
  else
    let d := pre_save now d in
    await (fun s =>
      if isNew d then
        let a := set_updatedAt now (set_createdAt now
                   (set__id (Collection.fresh_id _id (news s)) (this d))) in
        (Some (mkDocument a false []), set_news (news s ++ [a])%list s)
      else
        match modifiedPaths d, Collection.findById _id (_id (this d)) (news s) with
        | [], _ => (Some d, s)
        | _, None => (None, s)
        | _, Some _ =>
            (Some (mkDocument (this d) false []),
             set_news
               (Collection.updateById _id (_id (this d))
                  (fun stored =>
                     set_updatedAt now
                       (fold_right (assign (this d)) stored (modifiedPaths d)))
                  (news s)) s)
        end).

(** [newsSchema.methods.incrementViews] *)
Definition incrementViews (now : Z) (d : doc) : Prog Store (option doc) :=
  save now (write p_views (set_views (number_add (views (this d)) 1)) d).

(** [newsSchema.methods.incrementShares] *)
Definition incrementShares (now : Z) (d : doc) : Prog Store (option doc) :=
  save now (write p_shares (set_shares (number_add (shares (this d)) 1)) d).

End WithLibs.
End News.

(** ** routes/news.js

    [req.user] is an input of a handler; [populate] and [select], which only
    shape the response, are left out. *)

Module newsRoutes.
Import newsSchema.

Section WithLibs.
Context {L : Libs}.

(** [validateNews] *)
Definition validateNews (b : Body) : bool :=
  length_between 5 200 (b_title b)
  && length_between 10 500 (b_summary b)
  && (50 <=? String.length (b_content b))%nat
  && string_in (b_category b) categories.

Definition is_not_admin (user : option ReqUser) : bool :=
  match user with
  | None => true
  | Some u => negb (Role_eqb (req_role u) role_admin)
  end.

(** [GET /api/news] *)
Definition get_list (user : option ReqUser) (q : ListQuery) : Prog Store Response :=
  if negb (validateQuery categories q) then Ret (failure 400 "Validation failed")
  else
    let page := or_default 1%Z (q_page q) in
    let limit := or_default 10%Z (q_limit q) in
    let sort := or_default "createdAt" (q_sort q) in
    let order := or_default "desc" (q_order q) in
    let query := build_query user q in
    let skip := ((page - 1) * limit)%Z in
    let sortObj := sort_order (News.compare_field sort) (String.eqb order "desc") in
    (articles <- News.find (News.matches query) sortObj skip limit ;;
     count <- News.countDocuments (News.matches query) ;;
     Ret (mkResponse 200 true "" (articles_data articles (pagination page limit count))))%prog.

(** [GET /api/news/:id], after the article is read: "Get related articles"
    and the response. *)
Definition get_related (id : ObjectId) (article : t) : Prog Store Response :=
  (relatedArticles <-
     News.find (fun a => negb (N.eqb (_id a) id)
                         && String.eqb (category a) (category article)
                         && ContentStatus_eqb (status a) published)
               (sort_order (News.compare_field "createdAt") true) 0 5 ;;
   Ret (mkResponse 200 true "" (article_data article relatedArticles)))%prog.

(** "Increment view count if requested": one [$inc] on the stored article,
    and [article.views += 1] on the handler's copy. *)
Definition increment_view_count (now : Z) (id : ObjectId) (increment_view : string)
    (article : t) : Prog Store t :=
  if String.eqb increment_view "true" && ContentStatus_eqb (status article) published
  then (News.findByIdAndUpdate now id (inc_views 1) ;;;
        Ret (set_views (number_add (views article) 1) article))%prog
  else Ret article.

(** The handler once [News.findById] has answered. *)
Definition serve (now : Z) (user : option ReqUser) (id : ObjectId)
    (increment_view : string) (found : option t) : Prog Store Response :=
  match found with
  | None => Ret (failure 404 "Article not found")
  | Some article =>
      (* Check if user can access draft articles *)
      if ContentStatus_eqb (status article) draft && is_not_admin user
      then Ret (failure 403 "Access denied")
      else
        (article <- increment_view_count now id increment_view article ;;
         get_related id article)%prog
  end.

(** [GET /api/news/:id] *)
Definition get_one (now : Z) (user : option ReqUser) (id : ObjectId)
    (increment_view : option string) : Prog Store Response :=
  let increment_view := or_default "true" increment_view in
  (found <- News.findById id ;;
   serve now user id increment_view found)%prog.

(** [POST /api/news] *)
Definition post (now : Z) (user : option ReqUser) (b : Body) : Prog Store Response :=
  match adminMiddleware user, user with
  | Some refusal, _ => Ret refusal
  | None, None => Ret (failure 401 "Authentication required.")
  | None, Some u =>
      if negb (validateNews b) then Ret (failure 400 "Validation failed")
      else
        (saved <- News.save now (construct b (userId u)) ;;
         match saved with
         | None => Ret (failure 500 "Failed to create article")
         | Some article =>
             Ret (mkResponse 201 true "Article created successfully"
                    (article_data (this article) []))
         end)%prog
  end.

(** [PUT /api/news/:id] *)
Definition put (now : Z) (user : option ReqUser) (id : ObjectId) (b : Body)
  : Prog Store Response :=
  match adminMiddleware user with
  | Some refusal => Ret refusal
  | None =>
      if negb (validateNews b) then Ret (failure 400 "Validation failed")
      else if negb (validate_update b) then Ret (failure 500 "Failed to update article")
      else
        (updated <- News.findByIdAndUpdate now id (apply_body b) ;;
         match updated with
         | None => Ret (failure 404 "Article not found")
         | Some article =>
             Ret (mkResponse 200 true "Article updated successfully"
                    (article_data article []))
         end)%prog
  end.

(** [DELETE /api/news/:id] *)
Definition delete (user : option ReqUser) (id : ObjectId) : Prog Store Response :=
  match adminMiddleware user with
  | Some refusal => Ret refusal
  | None =>
      (removed <- News.findByIdAndDelete id ;;
       match removed with
       | None => Ret (failure 404 "Article not found")
       | Some _ => Ret (mkResponse 200 true "Article deleted successfully" (deleted_data id))
       end)%prog
  end.

(** [POST /api/news/:id/share].  [id] is [req.params.id]; when
    [News.findById(id)] cannot cast it, the [CastError] it throws is caught
    and answered 500, and no store operation is made. *)
Definition post_share (now : Z) (id : string) : Prog Store Response :=
  match castObjectId id with
  | None => Ret (failure 500 "Failed to update share count")
  | Some objectId =>
      (found <- News.findById objectId ;;
       match found with
       | None => Ret (failure 404 "Article not found")
       | Some stored =>
           let article : doc := hydrate stored in
           if negb (ContentStatus_eqb (status (this article)) published)
           then Ret (failure 403 "Cannot share unpublished article")
           else
             saved <- News.incrementShares now article ;;
             match saved with
             | None => Ret (failure 500 "Failed to update share count")
             | Some article =>
                 Ret (mkResponse 200 true "Share count updated"
                        (shares_data (shares (this article))))
             end
       end)%prog
  end.

End WithLibs.
End newsRoutes.

(** ** The Video model: statics and methods *)

Module Video.
Import videoSchema.

Section WithLibs.
Context {L : Libs}.

Definition matches (q : Filter) (v : t) : bool :=
  holds (f_status q) (String.eqb (status_string (status v)))
  && holds (f_category q) (String.eqb (category v))
  && holds (f_featured q) (Bool.eqb (featured v))
  && holds (f_text q) (fun s => text_search s [title v; description v]).

Definition compare_field (field : string) (a b : t) : comparison :=
  if String.eqb field "createdAt" then Z.compare (createdAt a) (createdAt b)
  else if String.eqb field "updatedAt" then Z.compare (updatedAt a) (updatedAt b)
  else if String.eqb field "publishedAt"
       then compare_option_Z (publishedAt a) (publishedAt b)
  else if String.eqb field "views" then Z.compare (views a) (views b)
  else if String.eqb field "shares" then Z.compare (shares a) (shares b)
  else if String.eqb field "likes" then Z.compare (likes a) (likes b)
  else if String.eqb field "title" then String.compare (title a) (title b)
  else Eq.

Definition findById (id : ObjectId) : Prog Store (option t) :=
  await (fun s => (Collection.findById _id id (videos s), s)).

(** [Video.findOne({ youtubeId })] *)
Definition findOne (p : t -> bool) : Prog Store (option t) :=
  await (fun s => (Collection.findOne p (videos s), s)).

Definition find (p : t -> bool) (le : t -> t -> bool) (skip limit : Z)
  : Prog Store (list t) :=
  await (fun s => (find_page p le skip limit (videos s), s)).

Definition countDocuments (p : t -> bool) : Prog Store Z :=
  await (fun s => (Collection.countDocuments p (videos s), s)).

(** The unique index on [youtubeId]: may [v] be written, given the other
    documents of the collection?  (Asked when a write changes the key.) *)
Definition youtubeId_free (v : t) (c : list t) : bool :=
  negb (existsb (fun w => negb (N.eqb (_id w) (_id v))
                          && String.eqb (youtubeId w) (youtubeId v)) c).

(** [Video.findByIdAndUpdate(id, update, { new: true })]: one atomic update,
    which no save hook sees.  The outer [None] is a thrown duplicate-key
    error, the inner one the absence of the document. *)
Definition findByIdAndUpdate (now : Z) (id : ObjectId) (update : t -> t)
  : Prog Store (option (option t)) :=
  await (fun s =>
    match Collection.findById _id id (videos s) with
    | None => (Some None, s)
    | Some v =>
        let v' := set_updatedAt now (update v) in
        if String.eqb (youtubeId v') (youtubeId v) || youtubeId_free v' (videos s)
        then (Some (Some v'),
              set_videos (Collection.updateById _id id (fun _ => v') (videos s)) s)
        else (None, s)
    end).

Definition findByIdAndDelete (id : ObjectId) : Prog Store (option t) :=
  await (fun s =>
    (Collection.findById _id id (videos s),
     set_videos (Collection.deleteFirst (fun v => N.eqb (_id v) id) (videos s)) s)).

(** [doc.save()] *)
Definition save (now : Z) (d : doc) : Prog Store (option doc) :=
  if negb (validate d) then Ret None
  else
    let d := pre_save now d in
    await (fun s =>
      if isNew d then
        let v := set_updatedAt now (set_createdAt now
                   (set__id (Collection.fresh_id _id (videos s)) (this d))) in
        if youtubeId_free v (videos s)
        then (Some (mkDocument v false []), set_videos (videos s ++ [v])%list s)
        else (None, s)
      else
        match modifiedPaths d, Collection.findById _id (_id (this d)) (videos s) with
        | [], _ => (Some d, s)
        | _, None => (None, s)
        | _, Some stored =>
            let v := set_updatedAt now
                       (fold_right (assign (this d)) stored (modifiedPaths d)) in
            if String.eqb (youtubeId v) (youtubeId stored) || youtubeId_free v (videos s)
            then (Some (mkDocument (this d) false []),
                  set_videos (Collection.updateById _id (_id (this d)) (fun _ => v)
                                (videos s)) s)
            else (None, s)
        end).

(** [videoSchema.methods.incrementViews] *)
Definition incrementViews (now : Z) (d : doc) : Prog Store (option doc) :=
  save now (write p_views (set_views (number_add (views (this d)) 1)) d).

(** [videoSchema.methods.incrementShares] *)
Definition incrementShares (now : Z) (d : doc) : Prog Store (option doc) :=
  save now (write p_shares (set_shares (number_add (shares (this d)) 1)) d).

(** [videoSchema.methods.incrementLikes] *)
Definition incrementLikes (now : Z) (d : doc) : Prog Store (option doc) :=
  save now (write p_likes (set_likes (number_add (likes (this d)) 1)) d).

End WithLibs.
End Video.

(** ** routes/videos.js *)

Module videosRoutes.
Import videoSchema.

Section WithLibs.
Context {L : Libs}.

(** [validateVideo] *)
Definition validateVideo (b : Body) : bool :=
  length_between 5 200 (b_title b)
  && holds (b_description b) (fun d => (String.length d <=? 1000)%nat)
  && isURL (b_youtubeUrl b) && youtubeUrl_regex (b_youtubeUrl b)
  && string_in (b_category b) categories
  && holds (b_thumbnailUrl b) isURL.

Definition is_not_admin (user : option ReqUser) : bool :=
  match user with
  | None => true
  | Some u => negb (Role_eqb (req_role u) role_admin)
  end.

(** [GET /api/videos] *)
Definition get_list (user : option ReqUser) (q : ListQuery) : Prog Store Response :=
  if negb (validateQuery categories q) then Ret (failure 400 "Validation failed")
  else
    let page := or_default 1%Z (q_page q) in
    let limit := or_default 10%Z (q_limit q) in
    let sort := or_default "createdAt" (q_sort q) in
    let order := or_default "desc" (q_order q) in
    let query := build_query user q in
    let skip := ((page - 1) * limit)%Z in
    let sortObj := sort_order (Video.compare_field sort) (String.eqb order "desc") in
    (found <- Video.find (Video.matches query) sortObj skip limit ;;
     count <- Video.countDocuments (Video.matches query) ;;
     Ret (mkResponse 200 true "" (videos_data found (pagination page limit count))))%prog.

(** [GET /api/videos/:id], after the video is read: "Get related videos"
    and the response. *)
Definition get_related (id : ObjectId) (video : t) : Prog Store Response :=
  (relatedVideos <-
     Video.find (fun v => negb (N.eqb (_id v) id)
                          && String.eqb (category v) (category video)
                          && ContentStatus_eqb (status v) published)
                (sort_order (Video.compare_field "createdAt") true) 0 5 ;;
   Ret (mkResponse 200 true "" (video_data video relatedVideos)))%prog.

(** "Increment view count if requested" *)
Definition increment_view_count (now : Z) (id : ObjectId) (increment_view : string)
    (video : t) : Prog Store t :=
  if String.eqb increment_view "true" && ContentStatus_eqb (status video) published
  then (Video.findByIdAndUpdate now id (inc_views 1) ;;;
        Ret (set_views (number_add (views video) 1) video))%prog
  else Ret video.

(** The handler once [Video.findById] has answered. *)
Definition serve (now : Z) (user : option ReqUser) (id : ObjectId)
    (increment_view : string) (found : option t) : Prog Store Response :=
  match found with
  | None => Ret (failure 404 "Video not found")
  | Some video =>
      (* Check if user can access draft videos *)
      if ContentStatus_eqb (status video) draft && is_not_admin user
      then Ret (failure 403 "Access denied")
      else
        (video <- increment_view_count now id increment_view video ;;
         get_related id video)%prog
  end.

(** [GET /api/videos/:id] *)
Definition get_one (now : Z) (user : option ReqUser) (id : ObjectId)
    (increment_view : option string) : Prog Store Response :=
  let increment_view := or_default "true" increment_view in
  (found <- Video.findById id ;;
   serve now user id increment_view found)%prog.

(** [POST /api/videos] *)
Definition post (now : Z) (user : option ReqUser) (b : Body) : Prog Store Response :=
  match adminMiddleware user, user with
  | Some refusal, _ => Ret refusal
  | None, None => Ret (failure 401 "Authentication required.")
  | None, Some u =>
      if negb (validateVideo b) then Ret (failure 400 "Validation failed")
      else
        (* Extract YouTube ID from URL *)
        match extractYouTubeId (b_youtubeUrl b) with
        | None => Ret (failure 400 "Invalid YouTube URL")
        | Some id =>
            (* Check if video already exists *)
            (existingVideo <- Video.findOne (fun v => String.eqb (youtubeId v) id) ;;
             match existingVideo with
             | Some _ => Ret (failure 400 "Video with this YouTube ID already exists")
             | None =>
                 saved <- Video.save now (construct b id (userId u)) ;;
                 match saved with
                 | None => Ret (failure 500 "Failed to create video")
                 | Some video =>
                     Ret (mkResponse 201 true "Video created successfully"
                            (video_data (this video) []))
                 end
             end)%prog
        end
  end.

(** [PUT /api/videos/:id] *)
Definition put (now : Z) (user : option ReqUser) (id : ObjectId) (b : Body)
  : Prog Store Response :=
  match adminMiddleware user with
  | Some refusal => Ret refusal
  | None =>
      if negb (validateVideo b) then Ret (failure 400 "Validation failed")
      else
        (* If YouTube URL is being updated, extract new ID *)
        match extractYouTubeId (b_youtubeUrl b) with
        | None => Ret (failure 400 "Invalid YouTube URL")
        | Some yid =>
            if negb (validate_update b yid) then Ret (failure 500 "Failed to update video")
            else
              (updated <- Video.findByIdAndUpdate now id (apply_body b yid) ;;
               match updated with
               | None => Ret (failure 500 "Failed to update video")
               | Some None => Ret (failure 404 "Video not found")
               | Some (Some video) =>
                   Ret (mkResponse 200 true "Video updated successfully"
                          (video_data video []))
               end)%prog
        end
  end.

(** [DELETE /api/videos/:id] *)
Definition delete (user : option ReqUser) (id : ObjectId) : Prog Store Response :=
  match adminMiddleware user with
  | Some refusal => Ret refusal
  | None =>
      (removed <- Video.findByIdAndDelete id ;;
       match removed with
       | None => Ret (failure 404 "Video not found")
       | Some _ => Ret (mkResponse 200 true "Video deleted successfully" (deleted_data id))
       end)%prog
  end.

(** [POST /api/videos/:id/share].  [id] is [req.params.id]; a [CastError]
    of [Video.findById(id)] is caught and answered 500. *)
Definition post_share (now : Z) (id : string) : Prog Store Response :=
  match castObjectId id with
  | None => Ret (failure 500 "Failed to update share count")
  | Some objectId =>
      (found <- Video.findById objectId ;;
       match found with
       | None => Ret (failure 404 "Video not found")
       | Some stored =>
           let video : doc := hydrate stored in
           if negb (ContentStatus_eqb (status (this video)) published)
           then Ret (failure 403 "Cannot share unpublished video")
           else
             saved <- Video.incrementShares now video ;;
             match saved with
             | None => Ret (failure 500 "Failed to update share count")
             | Some video =>
                 Ret (mkResponse 200 true "Share count updated"
                        (shares_data (shares (this video))))
             end
       end)%prog
  end.

(** [POST /api/videos/:id/like].  [id] is [req.params.id]; a [CastError]
    of [Video.findById(id)] is caught and answered 500. *)
Definition post_like (now : Z) (id : string) : Prog Store Response :=
  match castObjectId id with
  | None => Ret (failure 500 "Failed to update like count")
  | Some objectId =>
      (found <- Video.findById objectId ;;
       match found with
       | None => Ret (failure 404 "Video not found")
       | Some stored =>
           let video : doc := hydrate stored in
           if negb (ContentStatus_eqb (status (this video)) published)
           then Ret (failure 403 "Cannot like unpublished video")
           else
             saved <- Video.incrementLikes now video ;;
             match saved with
             | None => Ret (failure 500 "Failed to update like count")
             | Some video =>
                 Ret (mkResponse 200 true "Like count updated"
                        (likes_data (likes (this video))))
             end
       end)%prog
  end.

End WithLibs.
End videosRoutes.

(** ** The [:id] of a read and of a delete

    [GET /api/news/:id] and [DELETE /api/news/:id] with [req.params.id] as
    it arrives: for a string that is no identifier the first query of the
    handler throws a [CastError], and the [catch] answers 500. *)

Module newsRequests.
Section WithLibs.
Context {L : Libs}.

Definition get_one (now : Z) (user : option ReqUser) (id : string)
    (increment_view : option string) : Prog Store Response :=
  match castObjectId id with
  | None => Ret (failure 500 "Failed to fetch article")
  | Some objectId => newsRoutes.get_one now user objectId increment_view
  end.

Definition delete (user : option ReqUser) (id : string) : Prog Store Response :=
  match adminMiddleware user with
  | Some refusal => Ret refusal
  | None =>
      match castObjectId id with
      | None => Ret (failure 500 "Failed to delete article")
      | Some objectId => newsRoutes.delete user objectId
      end
  end.

End WithLibs.
End newsRequests.

(** ** middleware/auth.js: authentication and rate limiting *)

(** What [jwt.verify] makes of a token: the payload of a token this backend
    signed ([generateToken] for an account, the guest route for a guest
    session), or a thrown error with its [name]. *)
Inductive Payload : Type :=
| account_payload (userId : ObjectId)
| guest_payload (userId : string).

Inductive Verified : Type :=
| decoded (p : Payload)
| thrown (name : string).

(** Whom a request is made by: a guest session or an account. *)
Inductive Principal : Type :=
| guest (userId : string)
| member (u : ReqUser).

(** [req.user] as the routes read it: a guest session has the role
    ['guest'] and an identifier that is no document of the store. *)
Definition req_user (p : Principal) : ReqUser :=
  match p with
  | guest _ => mkReqUser 0%N role_guest
  | member u => u
  end.

Inductive Authenticated : Type :=
| refused (r : Response)
| passed (p : Principal).

(** The token of the [Authorization] header, when there is one:
    [authHeader && authHeader.startsWith('Bearer ') ? authHeader.substring(7) : null],
    and the test [!token] that follows. *)
Definition bearer_token (authHeader : option string) : option string :=
  match authHeader with
  | Some h =>
      if non_empty h && String.prefix "Bearer " h
      then let token := drop 7 h in
           if non_empty token then Some token else None
      else None
  | None => None
  end.

(** The [catch] of [authMiddleware]. *)
Definition auth_error (name : string) : Response :=
  if String.eqb name "JsonWebTokenError" then failure 401 "Invalid token."
  else if String.eqb name "TokenExpiredError"
       then failure 401 "Token expired. Please login again."
  else failure 500 "Server error in authentication.".

Section Authentication.
Variable jwt_verify : Z -> string -> Verified.

(** [authMiddleware] *)
Definition authMiddleware (now : Z) (authHeader : option string)
  : Prog Store Authenticated :=
  match bearer_token authHeader with
  | None => Ret (refused (failure 401 "Access denied. No token provided."))
  | Some token =>
      match jwt_verify now token with
      | thrown name => Ret (refused (auth_error name))
      (* Handle guest users *)
      | decoded (guest_payload id) => Ret (passed (guest id))
      (* Get user from database *)
      | decoded (account_payload id) =>
          (found <- User.findById id ;;
           match found with
           | None => Ret (refused (failure 401 "Token is not valid. User not found."))
           | Some user =>
               (* Check if user is active *)
               if negb (AccountStatus_eqb (userSchema.status user) active)
               then Ret (refused (failure 403
                                    "Account is not active. Please contact support."))
               (* Check if account is locked *)
               else if userSchema.isLocked now user
               then Ret (refused (failure 423 "Account is temporarily locked."))
               else Ret (passed (member (mkReqUser (userSchema._id user)
                                                   (userSchema.role user))))
           end)%prog
      end
  end.

(** [optionalAuthMiddleware]: the [req.user] it leaves, if any; the request
    always goes on. *)
Definition optionalAuthMiddleware (now : Z) (authHeader : option string)
  : Prog Store (option Principal) :=
  match bearer_token authHeader with
  | None => Ret None
  | Some token =>
      match jwt_verify now token with
      | thrown _ => Ret None
      | decoded (guest_payload id) => Ret (Some (guest id))
      | decoded (account_payload id) =>
          (found <- User.findById id ;;
           match found with
           | Some user =>
               if AccountStatus_eqb (userSchema.status user) active
                  && negb (userSchema.isLocked now user)
               then Ret (Some (member (mkReqUser (userSchema._id user)
                                                 (userSchema.role user))))
               else Ret None
           | None => Ret None
           end)%prog
      end
  end.

(** [router.use(authMiddleware); router.use(adminMiddleware)], then the
    handler of the route: the refusal of a middleware, or what the handler
    answers. *)
Definition admin_router {R : Type} (now : Z) (authHeader : option string)
    (handler : ReqUser -> Prog Store R) : Prog Store (Response + R) :=
  (a <- authMiddleware now authHeader ;;
   match a with
   | refused r => Ret (inl r)
   | passed p =>
       match adminMiddleware (Some (req_user p)) with
       | Some r => Ret (inl r)
       | None => r <- handler (req_user p) ;; Ret (inr r)
       end
   end)%prog.

End Authentication.

(** [rateLimitMiddleware(maxAttempts, windowMs)]: the [attempts] map of the
    closure, in insertion order, is the state. *)
Record Attempts : Type := mkAttempts {
  count : Z;
  firstAttempt : Z
}.

Definition AttemptsMap := list (option string * Attempts).

Inductive Limited : Type :=
| next
| too_many (retryAfter : Z).

Section RateLimit.
Variables maxAttempts windowMs : Z.

Definition key_eqb (a b : option string) : bool := option_eqb String.eqb a b.

(** [req.ip || req.connection.remoteAddress] *)
Definition client_key (ip remoteAddress : option string) : option string :=
  match ip with
  | Some a => if non_empty a then ip else remoteAddress
  | None => remoteAddress
  end.

(** "Clean old entries" *)
Definition clean (now : Z) (attempts : AttemptsMap) : AttemptsMap :=
  filter (fun e => negb (windowMs <? now - firstAttempt (snd e))%Z) attempts.

Definition attempts_get (key : option string) (attempts : AttemptsMap) : option Attempts :=
  option_map snd (find (fun e => key_eqb (fst e) key) attempts).

(** [userAttempts.count++] on the entry of [key]. *)
Fixpoint count_up (key : option string) (attempts : AttemptsMap) : AttemptsMap :=
  match attempts with
  | [] => []
  | e :: rest =>
      if key_eqb (fst e) key
      then (fst e, mkAttempts (number_add (count (snd e)) 1) (firstAttempt (snd e)))
           :: rest
      else e :: count_up key rest
  end.

(** The middleware on one request. *)
Definition rateLimitMiddleware (now : Z) (key : option string) (attempts : AttemptsMap)
  : Limited * AttemptsMap :=
  let attempts := clean now attempts in
  (* Check current attempts *)
  match attempts_get key attempts with
  | None => (next, (attempts ++ [(key, mkAttempts 1 now)])%list)
  | Some userAttempts =>
      if (maxAttempts <=? count userAttempts)%Z
      then (too_many (ceil_div (windowMs - (now - firstAttempt userAttempts)) 1000),
            attempts)
      else (next, count_up key attempts)
  end.

(** The requests of a list, served in order: the answers and the map left. *)
Fixpoint serve_requests (requests : list (Z * option string)) (attempts : AttemptsMap)
  : list Limited * AttemptsMap :=
  match requests with
  | [] => ([], attempts)
  | (now, key) :: rest =>
      let (r, attempts) := rateLimitMiddleware now key attempts in
      let (rs, attempts) := serve_requests rest attempts in
      (r :: rs, attempts)
  end.

End RateLimit.

(** ** routes/admin.js *)

(** A JSON answer with the [data] of its route. *)
Record Reply (D : Type) : Type := mkReply {
  reply_code : Z;
  reply_success : bool;
  reply_message : string;
  reply_data : option D
}.

Arguments mkReply {D}.
Arguments reply_code {D}.
Arguments reply_success {D}.
Arguments reply_message {D}.
Arguments reply_data {D}.

Definition reply_failure {D : Type} (c : Z) (m : string) : Reply D :=
  mkReply c false m None.

Module adminRoutes.
Import userSchema.

Section WithLibs.
Context {L : Libs}.

Definition set_status (v : AccountStatus) (u : t) : t :=
  mk (_id u) (name u) (email u) (password u) (phone u) (role u) v
     (phoneVerified u) (lastLogin u) (loginAttempts u) (lockUntil u)
     (lastActiveAt u) (createdAt u) (updatedAt u).

(** The values of the [status] enumeration of the user schema. *)
Definition status_of_string (s : string) : option AccountStatus :=
  if String.eqb s "active" then Some active
  else if String.eqb s "inactive" then Some inactive
  else if String.eqb s "suspended" then Some suspended
  else None.

(** [.select('-password')] *)
Definition without_password (u : t) : t :=
  mk (_id u) (name u) (email u) "" (phone u) (role u) (status u)
     (phoneVerified u) (lastLogin u) (loginAttempts u) (lockUntil u)
     (lastActiveAt u) (createdAt u) (updatedAt u).

(** [User.findByIdAndUpdate(id, update, { new: true })]: one atomic update of
    the stored account, which no save hook sees. *)
Definition findByIdAndUpdate (now : Z) (id : ObjectId) (update : t -> t)
  : Prog Store (option t) :=
  await (fun s =>
    let c := Collection.updateById _id id (fun u => set_updatedAt now (update u)) (users s) in
    (Collection.findById _id id c, set_users c s)).

(** [PUT /api/admin/users/:id/status], behind the two middlewares of the
    router, for a body whose [status] is a string.  The validator reads the
    [status] of the query string, the handler the [status] of the body;
    [runValidators] checks the latter against the enumeration of the schema,
    and the query casts [req.params.id]: an error of either is caught and
    answered 500. *)
Definition put_user_status (now : Z) (query_status : option string) (id : string)
    (body_status : string) : Prog Store (Reply t) :=
  if negb (match query_status with
           | Some s => string_in s ["active"; "inactive"; "suspended"]
           | None => false
           end)
  then Ret (reply_failure 400 "Validation failed")
  else
    match castObjectId id, status_of_string body_status with
    | None, _ | _, None => Ret (reply_failure 500 "Failed to update user status")
    | Some objectId, Some st =>
        (user <- findByIdAndUpdate now objectId (set_status st) ;;
         match user with
         | None => Ret (reply_failure 404 "User not found")
         | Some user =>
             Ret (mkReply 200 true "User status updated successfully"
                    (Some (without_password user)))
         end)%prog
    end.

End WithLibs.
End adminRoutes.

(** ** Vocabulary of the properties *)

Section Vocabulary.
Context {L : Libs}.

(** The account [User.findByEmail] resolves an address to. *)
Definition account_by_email (db : Store) (address : string) : option userSchema.t :=
  Collection.findOne
    (fun u => String.eqb (userSchema.email u) (toLowerCase address)) (users db).

(** The account [User.findOne({ phone })] resolves a number to. *)
Definition account_by_phone (db : Store) (ph : string) : option userSchema.t :=
  Collection.findOne
    (fun u => option_eqb String.eqb (userSchema.phone u) (Some ph)) (users db).

Definition account_by_id (db : Store) (id : ObjectId) : option userSchema.t :=
  Collection.findById userSchema._id id (users db).

Definition article_by_id (db : Store) (id : ObjectId) : option newsSchema.t :=
  Collection.findById newsSchema._id id (news db).

Definition video_by_id (db : Store) (id : ObjectId) : option videoSchema.t :=
  Collection.findById videoSchema._id id (videos db).

(** A sequence of login requests for one address, each with its instant and
    its password, served one after the other. *)
Fixpoint login_seq (rnd : Random) (address : string) (attempts : list (Z * string))
    (db : Store) : list Response * Store :=
  match attempts with
  | [] => ([], db)
  | (now, pw) :: rest =>
      let (r, db') := run (authRoutes.login now rnd (authRoutes.mkLoginBody address pw)) db in
      let (rs, db'') := login_seq rnd address rest db' in
      (r :: rs, db'')
  end.

(** The engagement routes other than the view counter of a read. *)
Inductive Engagement := share_article | share_video | like_video.

Definition record_engagement (e : Engagement) (now : Z) (id : string)
  : Prog Store Response :=
  match e with
  | share_article => newsRoutes.post_share now id
  | share_video => videosRoutes.post_share now id
  | like_video => videosRoutes.post_like now id
  end.

(** The status and the counter of the item an engagement route addresses. *)
Definition engagement_counter (e : Engagement) (db : Store) (id : ObjectId)
  : option (ContentStatus * Z) :=
  match e with
  | share_article =>
      option_map (fun a => (newsSchema.status a, newsSchema.shares a)) (article_by_id db id)
  | share_video =>
      option_map (fun v => (videoSchema.status v, videoSchema.shares v)) (video_by_id db id)
  | like_video =>
      option_map (fun v => (videoSchema.status v, videoSchema.likes v)) (video_by_id db id)
  end.




Definition engagement_done (e : Engagement) (n : Z) : Response :=
  match e with
  | like_video => mkResponse 200 true "Like count updated" (likes_data n)
  | _ => mkResponse 200 true "Share count updated" (shares_data n)
  end.

End Vocabulary.

(** The documents of the store satisfy the validators of their schema. *)
Definition schema_valid (db : Store) : Prop :=
  Forall (fun a => forallb (fun p => newsSchema.validate_path p a) newsSchema.all_paths = true)
         (news db)
  /\ Forall (fun v => forallb (fun p => videoSchema.validate_path p v) videoSchema.all_paths = true)
            (videos db).

(** The [_id] index: no two accounts share an identifier. *)
Definition unique_account_ids (db : Store) : Prop :=
  NoDup (map userSchema._id (users db)).

(** validator.js, the pattern [isMobilePhone] has for the locale [en-IN],
    one of those it tries when no locale is given:
    [/^(\+?91|0)?[6789]\d{9}$/] *)
Definition isMobilePhone_en_IN (s : string) : bool :=
  let subscriber (d : string) :=
    Nat.eqb (String.length d) 10
    && match d with
       | String c _ => in_range 54 57 c
       | EmptyString => false
       end
    && string_forallb (in_range 48 57) d in
  let after (pre : string) :=
    match strip_prefix pre s with
    | Some d => subscriber d
    | None => false
    end in
  subscriber s || after "+91" || after "91" || after "0".

(** A stand-in for the libraries, for running the model on examples:
    a hash is the password behind a marker, an address is checked by the
    pattern of the schema, a mobile number by one of the patterns of the
    validator (what the stand-in accepts, the validator accepts), and an
    identifier is 24 hexadecimal digits. *)
Definition sample_libs : Libs := {|
  bcrypt_compare := fun candidate hash => String.eqb ("$2a$12$" ++ candidate) hash;
  bcrypt_hash := fun _ pw => "$2a$12$" ++ pw;
  jwt_sign := fun _ _ => "jwt";
  isEmail := email_regex;
  normalizeEmail := fun s => s;
  isMobilePhone := isMobilePhone_en_IN;
  isURL := http_url_regex;
  toLowerCase := fun s => s;
  text_search := fun q fields => existsb (String.eqb q) fields;
  castObjectId := objectId_of_hex
|}.

Definition sample_random : Random := mkRandom "k3x9q2ab" "salt".

Definition sample_account (attempts : Z) (lock : option Z) : userSchema.t :=
  userSchema.mk 1%N "Asha" "a@x.com" "$2a$12$secret1" (Some "+15551234567")
                role_user active false None attempts lock 0 0 0.

(** An account whose number the validator of the phone routes accepts. *)
Definition sample_subscriber (attempts : Z) (lock : option Z) : userSchema.t :=
  userSchema.mk 1%N "Meera" "m@x.com" "$2a$12$secret1" (Some "+919876543210")
                role_user active false None attempts lock 0 0 0.

Definition sample_article (st : ContentStatus) (at_ : option Z) (n : Z) : newsSchema.t :=
  newsSchema.mk 1%N "Title" "A summary." "Body" "Sports" st 0 n false at_ (Some 7%N) 0 0.

Definition sample_video (st : ContentStatus) (n : Z) : videoSchema.t :=
  videoSchema.mk 1%N "Video" "" "https://youtu.be/dQw4w9WgXcQ" "dQw4w9WgXcQ"
                 (Some "https://img.youtube.com/vi/dQw4w9WgXcQ/maxresdefault.jpg")
                 "News" st 0 n n false None (Some 7%N) 0 0.

(** The libraries with [bcrypt.compare] replaced by another answer. *)
Definition with_compare (cmp : string -> string -> bool) (L : Libs) : Libs := {|
  bcrypt_compare := cmp;
  bcrypt_hash := @bcrypt_hash L;
  jwt_sign := @jwt_sign L;
  isEmail := @isEmail L;
  normalizeEmail := @normalizeEmail L;
  isMobilePhone := @isMobilePhone L;
  isURL := @isURL L;
  toLowerCase := @toLowerCase L;
  text_search := @text_search L;
  castObjectId := @castObjectId L
|}.

Definition locked_response : Response :=
  failure 423 "Account temporarily locked due to too many failed login attempts".

Definition invalid_credential : Response := failure 401 "Invalid email or password".

Section AccountVocabulary.
Context {L : Libs}.
Import userSchema.

(** The paths the login routes assign before they save. *)
Definition login_path (p : Path) : Prop :=
  p = p_lastLogin \/ p = p_phoneVerified \/ p = p_lastActiveAt.

(** What identifies an account and decides whether it may log in. *)
Definition credentials (u : t) :=
  (_id u, email u, password u, phone u, status u).

(** The lockout state of an account. *)
Definition lockout (u : t) : Z * option Z := (loginAttempts u, lockUntil u).

(** The store after [save] has written the modified paths of [d]. *)
Definition saved_store (now : Z) (d : doc) (db : Store) : Store :=
  match modifiedPaths d with
  | [] => db
  | _ =>
      set_users
        (Collection.updateById _id (_id (this d))
           (fun stored =>
              set_updatedAt now (fold_right (assign (this d)) stored (modifiedPaths d)))
           (users db)) db
  end.

(** The two assignments of a successful login by password. *)
Definition login_touch (now : Z) (d : doc) : doc :=
  write p_lastActiveAt (set_lastActiveAt now)
    (write p_lastLogin (set_lastLogin (Some now)) d).

(** The three assignments of a successful login by phone. *)
Definition phone_touch (now : Z) (d : doc) : doc :=
  write p_lastActiveAt (set_lastActiveAt now)
    (write p_phoneVerified (set_phoneVerified true)
       (write p_lastLogin (set_lastLogin (Some now)) d)).

(** A password that passes validation and that [comparePassword] refuses. *)
Definition wrong_password (u : t) (pw : string) : Prop :=
  non_empty pw = true /\ User.comparePassword u pw = false.

(** Where a run of failures starts counting: the counter is fresh, or a
    previous lock has expired (and the next failure restarts the counter
    at 1). *)
Definition streak_start (now : Z) (u : t) : Prop :=
  (loginAttempts u = 0 /\ lockUntil u = None)
  \/ (exists until, lockUntil u = Some until /\ until < now).

(** The update [incLoginAttempts] sends for an account without a lock. *)
Definition failure_update (now : Z) (u : t) (d : t) : t :=
  if (maxAttempts <=? loginAttempts u + 1)%Z
  then set_lockUntil (Some (now + lockTime)) (inc_loginAttempts 1 d)
  else inc_loginAttempts 1 d.

End AccountVocabulary.

(** The caller is neither admin nor super admin (anonymous and guest callers
    included). *)
Definition without_admin_privileges (user : option ReqUser) : Prop :=
  match user with
  | None => True
  | Some u => req_role u <> role_admin /\ req_role u <> role_super_admin
  end.

Definition sample_content : Store :=
  mkStore []
    [newsSchema.mk 1%N "Title" "A summary." "Body" "Sports" published 0 4 false
       (Some 10) (Some 7%N) 0 0]
    [sample_video draft 2].

Definition sample_body (st : option ContentStatus) : newsSchema.Body :=
  newsSchema.mkBody "Title" "A summary."
    "Fifty characters of body text, counted one by one." "Sports" st None None.

Definition drafts_query : ListQuery :=
  mkListQuery None None None (Some "draft"%string) None None None None.

(** The states of a handler of [GET /api/news/:id] that reads a published
    article with the view increment on, and whether its increment is still
    to come. *)
Inductive view_thread (id : ObjectId) : bool -> Prog Store Response -> Prop :=
| view_start (now : Z) (user : option ReqUser) :
    view_thread id true (newsRoutes.get_one now user id None)
| view_read (now : Z) (user : option ReqUser) (a : newsSchema.t) :
    newsSchema.status a = published ->
    view_thread id true (newsRoutes.serve now user id "true" (Some a))
| view_counted (a : newsSchema.t) :
    view_thread id false (newsRoutes.get_related id a)
| view_done (r : Response) :
    view_thread id false (Ret r).

(** The same list request for another page. *)
Definition at_page (p : Z) (q : ListQuery) : ListQuery :=
  mkListQuery (Some p) (q_limit q) (q_category q) (q_status q) (q_search q)
              (q_featured q) (q_sort q) (q_order q).

(** A newsroom with two published articles on sports and a draft. *)
Definition sample_sports_first (views : Z) : newsSchema.t :=
  newsSchema.mk 1%N "Title" "A summary." "Body" "Sports" published views 4 false
    (Some 10) (Some 7%N) 10 10.

Definition sample_sports_second : newsSchema.t :=
  newsSchema.mk 2%N "Second" "Another summary." "Body" "Sports" published 3 0 true
    (Some 20) (Some 7%N) 20 20.

Definition sample_newsroom : Store :=
  mkStore []
    [sample_sports_first 0; sample_sports_second;
     newsSchema.mk 3%N "Third" "A draft." "Body" "Sports" draft 0 0 false
       None (Some 7%N) 30 30]
    [].

(** A stand-in for [jwt.verify], for running the model on examples. *)
Definition sample_verify (now : Z) (token : string) : Verified :=
  if String.eqb token "token-1" then decoded (account_payload 1%N)
  else if String.eqb token "token-2" then decoded (account_payload 2%N)
  else if String.eqb token "guest-token" then decoded (guest_payload "guest_1000")
  else if String.eqb token "old-token" then thrown "TokenExpiredError"
  else thrown "JsonWebTokenError".

(** An office with a user (account 1) and an admin (account 2). *)
Definition sample_office : Store :=
  mkStore
    [sample_account 0 None;
     userSchema.mk 2%N "Ravi" "r@x.com" "$2a$12$secret2" None
                   role_admin active false None 0 None 0 0 0]
    [] [].

(** How many requests of a list come from a client, and how many of them
    the rate limiter lets through. *)
Definition asked (key : option string) (requests : list (Z * option string)) : Z :=
  Z.of_nat (List.length (filter (fun r => key_eqb (snd r) key) requests)).

Fixpoint granted (key : option string) (requests : list (Z * option string))
    (answers : list Limited) : Z :=
  match requests, answers with
  | (_, k) :: requests', a :: answers' =>
      (if key_eqb k key
       then match a with next => 1 | too_many _ => 0 end
       else 0)
      + granted key requests' answers'
  | _, _ => 0
  end.

(** The account a registration inserts. *)
Definition registered_account_of {L : Libs} (now : Z) (rnd : Random)
    (b : authRoutes.RegisterBody) (db : Store) : userSchema.t :=
  userSchema.mk (Collection.fresh_id userSchema._id (users db)) (authRoutes.r_name b)
     (toLowerCase (normalizeEmail (authRoutes.r_email b)))
     (bcrypt_hash (random_salt rnd) (authRoutes.r_password b))
     (authRoutes.r_phone b) (or_default role_user (authRoutes.r_role b))
     active false None 0 None now now now.

(** * Properties *)

(** ** Programs *)

Lemma run_bind {S A B : Type} (p : Prog S A) (f : A -> Prog S B) (s : S) :
  run (bind p f) s = let (a, s') := run p s in run (f a) s'.
Proof.
  revert s. induction p as [r | X op k IH]; intro s; simpl.
  - reflexivity.
  - destruct (op s) as [x s']. apply IH.
Qed.

(** ** Numbers *)

(** A sum of integers is exact as long as it is no larger than [2 ^ 53]. *)
Lemma number_add_safe (a b : Z) :
  - 2 ^ 53 <= a + b <= 2 ^ 53 -> number_add a b = a + b.
Proof.
  intro H. unfold number_add, round_binary64.
  destruct (Z.abs (a + b) <? 2 ^ 53)%Z eqn:E; [reflexivity |].
  apply Z.ltb_ge in E.
  assert (Hx : a + b = 2 ^ 53 \/ a + b = - 2 ^ 53) by lia.
  destruct Hx as [-> | ->]; reflexivity.
Qed.

(** One more than a counter that is a safe integer. *)
Lemma number_add_one (n : Z) :
  0 <= n <= MAX_SAFE_INTEGER -> number_add n 1 = n + 1.
Proof. unfold MAX_SAFE_INTEGER. intro H. apply number_add_safe. lia. Qed.

(** ** Collections *)

Section CollectionFacts.
Context {D : Type} (id_of : D -> ObjectId).

Lemma findOne_some_true (p : D -> bool) (c : list D) (d : D) :
  Collection.findOne p c = Some d -> In d c /\ p d = true.
Proof. apply find_some. Qed.

Lemma findOne_of_In (p : D -> bool) (c : list D) (d : D) :
  In d c -> p d = true -> exists d', Collection.findOne p c = Some d'.
Proof.
  unfold Collection.findOne. intros Hin Hp.
  destruct (find p c) as [d' |] eqn:E.
  - now exists d'.
  - exfalso. pose proof (find_none p c E d Hin) as H. congruence.
Qed.

Lemma findById_id (i : ObjectId) (c : list D) (d : D) :
  Collection.findById id_of i c = Some d -> id_of d = i.
Proof.
  intro H. apply findOne_some_true in H. destruct H as [_ H].
  now apply N.eqb_eq in H.
Qed.

Lemma findById_In (i : ObjectId) (c : list D) (d : D) :
  Collection.findById id_of i c = Some d -> In d c.
Proof. intro H. now apply findOne_some_true in H. Qed.

(** The document a single-document update by [_id] writes is the one a read
    by [_id] sees. *)
Lemma findById_updateById (i : ObjectId) (f : D -> D) (c : list D) :
  (forall d, id_of (f d) = id_of d) ->
  Collection.findById id_of i (Collection.updateById id_of i f c)
  = option_map f (Collection.findById id_of i c).
Proof.
  intro Hid. unfold Collection.findById, Collection.updateById, Collection.findOne.
  induction c as [| d c IH]; simpl; [reflexivity |].
  destruct (N.eqb (id_of d) i) eqn:E; simpl.
  - now rewrite Hid, E.
  - now rewrite E.
Qed.

Lemma updateById_absent (i : ObjectId) (f : D -> D) (c : list D) :
  Collection.findById id_of i c = None -> Collection.updateById id_of i f c = c.
Proof.
  unfold Collection.findById, Collection.updateById, Collection.findOne.
  induction c as [| d c IH]; simpl; [reflexivity |].
  destruct (N.eqb (id_of d) i); [discriminate |].
  intro H. now rewrite IH.
Qed.

Lemma updateById_ids (i : ObjectId) (f : D -> D) (c : list D) :
  (forall d, id_of (f d) = id_of d) ->
  map id_of (Collection.updateById id_of i f c) = map id_of c.
Proof.
  intro Hid. unfold Collection.updateById.
  induction c as [| d c IH]; simpl; [reflexivity |].
  destruct (N.eqb (id_of d) i); simpl; [now rewrite Hid | now rewrite IH].
Qed.

(** With unique identifiers, an update by the [_id] of the document a query
    finds is seen by the same query, as long as it leaves alone what the
    query tests. *)
Lemma findOne_updateById (p : D -> bool) (f : D -> D) (c : list D) (d : D) :
  NoDup (map id_of c) ->
  (forall x, p (f x) = p x) ->
  Collection.findOne p c = Some d ->
  Collection.findOne p (Collection.updateById id_of (id_of d) f c) = Some (f d).
Proof.
  intros Hnd Hp. unfold Collection.findOne, Collection.updateById.
  induction c as [| x c IH]; simpl; [discriminate |].
  inversion Hnd as [| ? ? Hnotin Hnd']; subst.
  destruct (p x) eqn:Epx.
  - intro H. inversion H; subst. rewrite N.eqb_refl. simpl. now rewrite Hp, Epx.
  - intro H. destruct (N.eqb (id_of x) (id_of d)) eqn:E.
    + exfalso. apply N.eqb_eq in E. apply Hnotin. rewrite E.
      apply in_map. now apply find_some in H.
    + simpl. rewrite Epx. now apply IH.
Qed.

(** The document written over the one a read by [_id] finds is the one the
    next read by [_id] finds. *)
Lemma findById_updateById_found (i : ObjectId) (f : D -> D) (c : list D) (d : D) :
  Collection.findById id_of i c = Some d ->
  id_of (f d) = i ->
  Collection.findById id_of i (Collection.updateById id_of i f c) = Some (f d).
Proof.
  unfold Collection.findById, Collection.updateById, Collection.findOne.
  intros Hd Hid. induction c as [| x c IH]; simpl in *; [discriminate |].
  destruct (N.eqb (id_of x) i) eqn:E; simpl.
  - injection Hd as ->. rewrite Hid, N.eqb_refl. reflexivity.
  - rewrite E. now apply IH.
Qed.

End CollectionFacts.

(** ** Authentication *)

Section AuthFacts.
Context {L : Libs}.

Lemma isLocked_future (now until : Z) (u : userSchema.t) :
  userSchema.lockUntil u = Some until -> now < until -> userSchema.isLocked now u = true.
Proof.
  intros Hl Hlt. unfold userSchema.isLocked. rewrite Hl. now apply Z.ltb_lt.
Qed.

Lemma login_of_locked (now : Z) (rnd : Random) (b : authRoutes.LoginBody)
    (db : Store) (u : userSchema.t) :
  authRoutes.validateLogin b = true ->
  account_by_email db (normalizeEmail (authRoutes.l_email b)) = Some u ->
  userSchema.isLocked now u = true ->
  run (authRoutes.login now rnd b) db = (locked_response, db).
Proof.
  intros Hv Hu Hl. unfold authRoutes.login. rewrite Hv. simpl.
  unfold account_by_email in Hu. rewrite Hu, Hl. reflexivity.
Qed.

End AuthFacts.

(** C7.  A login request that passes validation and resolves to an account
    whose [lockUntil] lies in the future is answered 423 and leaves the store
    as it was, whatever password it carries and whatever [bcrypt.compare]
    would have answered: the secret is not compared, the counter and
    [lockUntil] are not written. *)
Theorem login_locked_rejected (L : Libs) (cmp : string -> string -> bool)
    (now until : Z) (rnd : Random) (b : authRoutes.LoginBody) (db : Store)
    (u : userSchema.t) :
  authRoutes.validateLogin b = true ->
  account_by_email db (normalizeEmail (authRoutes.l_email b)) = Some u ->
  userSchema.lockUntil u = Some until ->
  now < until ->
  run (authRoutes.login (L := with_compare cmp L) now rnd b) db = (locked_response, db).
Proof.
  intros Hv Hu Hl Hlt.
  apply (@login_of_locked (with_compare cmp L) now rnd b db u); try assumption.
  now apply isLocked_future with until.
Qed.

Lemma login_locked_rejected_witness :
  run (authRoutes.login (L := with_compare (fun _ _ => true) sample_libs) 1000
         sample_random (authRoutes.mkLoginBody "a@x.com" "secret1"))
      (mkStore [sample_account 5 (Some 5000)] [] [])
  = (locked_response, mkStore [sample_account 5 (Some 5000)] [] []).
Proof.
  apply (login_locked_rejected sample_libs (fun _ _ => true) 1000 5000 sample_random
           (authRoutes.mkLoginBody "a@x.com" "secret1")
           (mkStore [sample_account 5 (Some 5000)] [] [])
           (sample_account 5 (Some 5000))).
  - reflexivity.
  - reflexivity.
  - reflexivity.
  - lia.
Defined.

(** *** Saving a loaded account *)

Section SaveFacts.
Context {L : Libs}.
Import userSchema.

Lemma write_paths (p : Path) (f : t -> t) (d : doc) :
  login_path p -> Forall login_path (modifiedPaths d) ->
  Forall login_path (modifiedPaths (write p f d)).
Proof.
  intros Hp Hd. unfold write. simpl.
  destruct (isNew d || negb (same_at p (this d) (f (this d)))); auto.
Qed.

Lemma assign_login_paths (src stored : t) (paths : list Path) :
  Forall login_path paths ->
  credentials (fold_right (assign src) stored paths) = credentials stored
  /\ lockout (fold_right (assign src) stored paths) = lockout stored
  /\ name (fold_right (assign src) stored paths) = name stored
  /\ role (fold_right (assign src) stored paths) = role stored.
Proof.
  induction 1 as [| p paths Hp _ IH]; simpl; [auto |].
  destruct IH as (IH1 & IH2 & IH3 & IH4).
  destruct Hp as [-> | [-> | ->]]; simpl; auto.
Qed.

Lemma isModified_login_paths (p : Path) (d : doc) :
  Forall login_path (modifiedPaths d) -> ~ login_path p -> isModified p d = false.
Proof.
  unfold isModified. intros Hd Hp.
  induction Hd as [| q paths Hq _ IH]; simpl; [reflexivity |].
  rewrite IH, orb_false_r.
  destruct Hq as [-> | [-> | ->]]; destruct p; try reflexivity;
    exfalso; apply Hp; unfold login_path; auto.
Qed.

Lemma validate_login_paths (d : doc) :
  isNew d = false -> Forall login_path (modifiedPaths d) -> User.validate d = true.
Proof.
  unfold User.validate. intros -> Hd.
  induction Hd as [| q paths Hq _ IH]; simpl; [reflexivity |].
  rewrite IH, andb_true_r. now destruct Hq as [-> | [-> | ->]].
Qed.

(** Saving a loaded account of which only login paths are modified succeeds
    when the account is still in the store, and writes those paths. *)
Lemma save_login_paths (now : Z) (rnd : Random) (d : doc) (db : Store) (x : t) :
  isNew d = false ->
  Forall login_path (modifiedPaths d) ->
  account_by_id db (_id (this d)) = Some x ->
  exists d', run (User.save now rnd d) db = (Some d', saved_store now d db)
             /\ this d' = this d.
Proof.
  intros Hnew Hd Hx. unfold User.save.
  rewrite (validate_login_paths d Hnew Hd). simpl.
  unfold User.pre_save_password.
  rewrite (isModified_login_paths p_password d Hd); simpl.
  2: { unfold login_path. intros [H | [H | H]]; discriminate. }
  unfold User.pre_save_loginAttempts.
  rewrite (isModified_login_paths p_loginAttempts d Hd); simpl.
  2: { unfold login_path. intros [H | [H | H]]; discriminate. }
  rewrite (isModified_login_paths p_lockUntil d Hd); simpl.
  2: { unfold login_path. intros [H | [H | H]]; discriminate. }
  rewrite Hnew. unfold account_by_id in Hx. rewrite Hx.
  unfold saved_store.
  destruct (modifiedPaths d) as [| p paths]; eexists; split; reflexivity.
Qed.

Lemma account_by_id_of_In (db : Store) (u : t) :
  In u (users db) -> exists x, account_by_id db (_id u) = Some x.
Proof.
  intro Hin. unfold account_by_id, Collection.findById.
  apply findOne_of_In with u; [assumption | apply N.eqb_refl].
Qed.

End SaveFacts.

(** *** Phone login *)

Section PhoneFacts.
Context {L : Libs}.
Import userSchema.

Lemma phone_touch_paths (now : Z) (u : t) :
  Forall login_path (modifiedPaths (phone_touch now (hydrate u))).
Proof.
  unfold phone_touch.
  repeat (apply write_paths; [unfold login_path; auto |]).
  constructor.
Qed.

(** A phone login with the valid OTP for a number that resolves to an active
    account: the response and the store it leaves. *)
Lemma phone_login_of_active (now : Z) (rnd : Random) (b : authRoutes.PhoneBody)
    (db : Store) (u : t) :
  isMobilePhone (authRoutes.ph_phone b) = true ->
  authRoutes.ph_otp b = authRoutes.validOTP ->
  account_by_phone db (authRoutes.ph_phone b) = Some u ->
  status u = active ->
  run (authRoutes.phone_login now rnd b) db
  = (mkResponse 200 true "Phone login successful"
       (auth_data (authRoutes.generateToken now (_id u)) (authRoutes.view_phone u)),
     saved_store now (phone_touch now (hydrate u)) db).
Proof.
  intros Hph Hotp Hu Hs. unfold authRoutes.phone_login, authRoutes.validatePhoneOTP.
  rewrite Hph, Hotp. simpl.
  unfold account_by_phone in Hu. rewrite Hu. simpl. rewrite Hs. simpl.
  rewrite run_bind.
  destruct (account_by_id_of_In db u) as [x Hx].
  { now apply findOne_some_true in Hu. }
  destruct (save_login_paths now rnd (phone_touch now (hydrate u)) db x)
    as (d' & Hrun & Hthis).
  - reflexivity.
  - apply phone_touch_paths.
  - exact Hx.
  - unfold phone_touch in Hrun |- *. rewrite Hrun. simpl. rewrite Hthis. reflexivity.
Qed.

(** A login by phone leaves the lockout state of the account as it was:
    neither the counter nor the lock is read or written. *)
Lemma phone_login_keeps_lockout (now : Z) (rnd : Random) (b : authRoutes.PhoneBody)
    (db : Store) (u : t) :
  isMobilePhone (authRoutes.ph_phone b) = true ->
  authRoutes.ph_otp b = authRoutes.validOTP ->
  account_by_phone db (authRoutes.ph_phone b) = Some u ->
  account_by_id db (_id u) = Some u ->
  status u = active ->
  exists u',
    account_by_id (snd (run (authRoutes.phone_login now rnd b) db)) (_id u) = Some u'
    /\ lockout u' = lockout u.
Proof.
  intros Hph Hotp Hu Hid Hs.
  rewrite (phone_login_of_active now rnd b db u Hph Hotp Hu Hs). cbn [snd].
  unfold saved_store.
  destruct (modifiedPaths (phone_touch now (hydrate u))) as [| p paths] eqn:E.
  - exists u. auto.
  - eexists. split.
    + unfold account_by_id in *. cbn [users set_users].
      change (_id (this (phone_touch now (hydrate u)))) with (_id u).
      apply (findById_updateById_found _id (_id u) _ (users db) u Hid).
      simpl.
      now destruct (assign_login_paths (this (phone_touch now (hydrate u))) u (p :: paths))
        as (Hc & _); [rewrite <- E; apply phone_touch_paths | inversion Hc].
    + simpl.
      destruct (assign_login_paths (this (phone_touch now (hydrate u))) u (p :: paths))
        as (_ & Hl & _); [rewrite <- E; apply phone_touch_paths | exact Hl].
Qed.

End PhoneFacts.




(** *** Login by password *)

Section LoginFacts.
Context {L : Libs}.
Import userSchema.

Lemma comparePassword_credentials (u u' : t) (pw : string) :
  credentials u' = credentials u ->
  User.comparePassword u' pw = User.comparePassword u pw.
Proof.
  unfold credentials, User.comparePassword. intro H. inversion H as [[Hi He Hp Hph Hs]].
  now rewrite Hp.
Qed.

(** One refused password on an active account without a lock: the answer is
    401, and the stored account has its counter incremented, and its lock
    set when the counter reaches the maximum. *)
Lemma login_wrong_password (now : Z) (rnd : Random) (address pw : string)
    (db : Store) (u : t) :
  isEmail address = true ->
  unique_account_ids db ->
  account_by_email db (normalizeEmail address) = Some u ->
  status u = active ->
  lockUntil u = None ->
  wrong_password u pw ->
  exists db',
    run (authRoutes.login now rnd (authRoutes.mkLoginBody address pw)) db
    = (invalid_credential, db')
    /\ unique_account_ids db'
    /\ account_by_email db' (normalizeEmail address)
       = Some (set_updatedAt now (failure_update now u u)).
Proof.
  intros Hmail Hnd Hu Hs Hl [Hne Hpw].
  unfold authRoutes.login, authRoutes.validateLogin. simpl.
  rewrite Hmail, Hne. simpl.
  pose proof Hu as Hu'. unfold account_by_email in Hu'. rewrite Hu'.
  unfold isLocked. rewrite Hl, Hs. simpl. rewrite Hpw. simpl.
  rewrite run_bind. unfold User.incLoginAttempts, isLocked. rewrite Hl. simpl.
  eexists. split; [reflexivity |]. split.
  - unfold unique_account_ids. simpl.
    rewrite updateById_ids; [exact Hnd |].
    intro d. destruct (maxAttempts <=? loginAttempts u + 1)%Z; reflexivity.
  - unfold account_by_email. simpl.
    rewrite (findOne_updateById _id _ _ (users db) u Hnd); [| | exact Hu'].
    + unfold failure_update. rewrite andb_true_r.
      destruct (maxAttempts <=? loginAttempts u + 1)%Z; reflexivity.
    + intro x. destruct (maxAttempts <=? loginAttempts u + 1)%Z; reflexivity.
Qed.

Lemma login_seq_app (rnd : Random) (address : string) (xs ys : list (Z * string))
    (db : Store) :
  login_seq rnd address (xs ++ ys) db
  = let (rs, db') := login_seq rnd address xs db in
    let (rs', db'') := login_seq rnd address ys db' in
    ((rs ++ rs')%list, db'').
Proof.
  revert db. induction xs as [| [now pw] xs IH]; intro db; simpl.
  - now destruct (login_seq rnd address ys db).
  - destruct (run _ db) as [r db1]. rewrite IH.
    destruct (login_seq rnd address xs db1) as [rs db2].
    now destruct (login_seq rnd address ys db2).
Qed.

(** Refused passwords below the maximum: each is answered 401 and counted;
    no lock is set. *)
Lemma failures_accumulate (rnd : Random) (address : string)
    (attempts : list (Z * string)) :
  forall (db : Store) (u : t),
  isEmail address = true ->
  unique_account_ids db ->
  account_by_email db (normalizeEmail address) = Some u ->
  status u = active ->
  lockUntil u = None ->
  loginAttempts u + Z.of_nat (List.length attempts) < maxAttempts ->
  Forall (fun a => wrong_password u (snd a)) attempts ->
  exists u',
    fst (login_seq rnd address attempts db)
    = repeat invalid_credential (List.length attempts)
    /\ unique_account_ids (snd (login_seq rnd address attempts db))
    /\ account_by_email (snd (login_seq rnd address attempts db)) (normalizeEmail address)
       = Some u'
    /\ credentials u' = credentials u
    /\ lockout u' = (loginAttempts u + Z.of_nat (List.length attempts), None).
Proof.
  induction attempts as [| [now pw] rest IH]; intros db u Hmail Hnd Hu Hs Hl Hlt Hwrong.
  - exists u. simpl. repeat split; try assumption.
    unfold lockout. now rewrite Z.add_0_r, Hl.
  - inversion Hwrong as [| ? ? Hw Hrest]; subst. simpl in Hw.
    destruct (login_wrong_password now rnd address pw db u Hmail Hnd Hu Hs Hl Hw)
      as (db1 & Hrun & Hnd1 & Hu1).
    cbn [login_seq]. rewrite Hrun.
    assert (Hsmall : (maxAttempts <=? loginAttempts u + 1)%Z = false).
    { apply Z.leb_gt. cbn [List.length] in Hlt. lia. }
    unfold failure_update in Hu1. rewrite Hsmall in Hu1.
    destruct (IH db1 (set_updatedAt now (inc_loginAttempts 1 u)) Hmail Hnd1 Hu1)
      as (u' & Hrs & Hnd' & Hu' & Hcred & Hlock).
    + exact Hs.
    + exact Hl.
    + cbn [List.length] in Hlt. simpl. lia.
    + revert Hrest. apply Forall_impl. intros a [Ha1 Ha2]. split; [exact Ha1 |].
      rewrite <- Ha2. now apply comparePassword_credentials.
    + exists u'.
      destruct (login_seq rnd address rest db1) as [rs db2]. simpl in *.
      repeat split; try assumption.
      * now rewrite Hrs.
      * rewrite Hlock. f_equal. lia.
Qed.

(** The refused password that reaches the maximum: it is answered 401 as
    well, and sets the lock two hours ahead. *)
Lemma failure_sets_lock (now : Z) (rnd : Random) (address pw : string)
    (db : Store) (u : t) :
  isEmail address = true ->
  unique_account_ids db ->
  account_by_email db (normalizeEmail address) = Some u ->
  status u = active ->
  lockUntil u = None ->
  loginAttempts u = maxAttempts - 1 ->
  wrong_password u pw ->
  exists db' u',
    run (authRoutes.login now rnd (authRoutes.mkLoginBody address pw)) db
    = (invalid_credential, db')
    /\ account_by_email db' (normalizeEmail address) = Some u'
    /\ credentials u' = credentials u
    /\ lockout u' = (maxAttempts, Some (now + lockTime)).
Proof.
  intros Hmail Hnd Hu Hs Hl Hc Hw.
  destruct (login_wrong_password now rnd address pw db u Hmail Hnd Hu Hs Hl Hw)
    as (db1 & Hrun & _ & Hu1).
  exists db1. eexists. split; [exact Hrun |]. split; [exact Hu1 |].
  unfold failure_update. rewrite Hc.
  replace (maxAttempts <=? maxAttempts - 1 + 1)%Z with true
    by (symmetry; apply Z.leb_le; lia).
  split; [reflexivity |]. unfold lockout. simpl. rewrite Hc. reflexivity.
Qed.

(** Five refused passwords in a row on a fresh counter. *)
Lemma five_failures (rnd : Random) (address : string) (first4 : list (Z * string))
    (t5 : Z) (p5 : string) (db : Store) (u : t) :
  isEmail address = true ->
  unique_account_ids db ->
  account_by_email db (normalizeEmail address) = Some u ->
  status u = active ->
  loginAttempts u = 0 ->
  lockUntil u = None ->
  List.length first4 = 4%nat ->
  Forall (fun a => wrong_password u (snd a)) (first4 ++ [(t5, p5)]) ->
  exists u5,
    fst (login_seq rnd address (first4 ++ [(t5, p5)]) db) = repeat invalid_credential 5
    /\ account_by_email (snd (login_seq rnd address (first4 ++ [(t5, p5)]) db))
         (normalizeEmail address) = Some u5
    /\ credentials u5 = credentials u
    /\ lockout u5 = (5, Some (t5 + lockTime)).
Proof.
  intros Hmail Hnd Hu Hs Hc Hl Hlen Hwrong.
  apply Forall_app in Hwrong. destruct Hwrong as [Hw4 Hw5].
  inversion Hw5 as [| ? ? Hw5' _]; subst. simpl in Hw5'.
  destruct (failures_accumulate rnd address first4 db u Hmail Hnd Hu Hs Hl)
    as (u4 & Hrs & Hnd4 & Hu4 & Hcred4 & Hlock4).
  { rewrite Hc, Hlen. unfold maxAttempts. lia. }
  { exact Hw4. }
  rewrite Hc, Hlen in Hlock4. simpl in Hlock4.
  inversion Hlock4 as [[Hc4 Hl4]].
  assert (Hs4 : status u4 = active).
  { unfold credentials in Hcred4. inversion Hcred4. congruence. }
  destruct (failure_sets_lock t5 rnd address p5 _ u4 Hmail Hnd4 Hu4 Hs4 Hl4)
    as (db5 & u5 & Hrun & Hu5 & Hcred5 & Hlock5).
  { rewrite Hc4. reflexivity. }
  { destruct Hw5' as [Hne Hcmp]. split; [exact Hne |].
    rewrite <- Hcmp. now apply comparePassword_credentials. }
  exists u5. rewrite login_seq_app.
  destruct (login_seq rnd address first4 db) as [rs4 db4]. simpl in *.
  rewrite Hrun. simpl. rewrite Hrs, Hlen. simpl.
  repeat split; try assumption. congruence.
Qed.

(** A refused password on an account whose lock has expired: the answer is
    401, the lock is removed and the counter restarts at 1. *)
Lemma login_wrong_password_expired (now until : Z) (rnd : Random) (address pw : string)
    (db : Store) (u : t) :
  isEmail address = true ->
  unique_account_ids db ->
  account_by_email db (normalizeEmail address) = Some u ->
  status u = active ->
  lockUntil u = Some until ->
  until < now ->
  wrong_password u pw ->
  exists db',
    run (authRoutes.login now rnd (authRoutes.mkLoginBody address pw)) db
    = (invalid_credential, db')
    /\ unique_account_ids db'
    /\ account_by_email db' (normalizeEmail address)
       = Some (set_updatedAt now (set_loginAttempts 1 (unset_lockUntil u))).
Proof.
  intros Hmail Hnd Hu Hs Hl Hlt [Hne Hpw].
  unfold authRoutes.login, authRoutes.validateLogin. simpl.
  rewrite Hmail, Hne. simpl.
  pose proof Hu as Hu'. unfold account_by_email in Hu'. rewrite Hu'.
  unfold isLocked. rewrite Hl.
  replace (now <? until)%Z with false by (symmetry; apply Z.ltb_ge; lia).
  rewrite Hs. simpl. rewrite Hpw. simpl.
  rewrite run_bind. unfold User.incLoginAttempts. rewrite Hl.
  replace (until <? now)%Z with true by (symmetry; apply Z.ltb_lt; lia).
  simpl. eexists. split; [reflexivity |]. split.
  - unfold unique_account_ids. simpl. now rewrite updateById_ids.
  - unfold account_by_email. simpl.
    now rewrite (findOne_updateById _id _ _ (users db) u Hnd).
Qed.

(** Five refused passwords in a row from the start of a run of failures. *)
Lemma five_failures_from_start (rnd : Random) (address : string) (t1 : Z) (p1 : string)
    (middle : list (Z * string)) (t5 : Z) (p5 : string) (db : Store) (u : t) :
  isEmail address = true ->
  unique_account_ids db ->
  account_by_email db (normalizeEmail address) = Some u ->
  status u = active ->
  streak_start t1 u ->
  List.length middle = 3%nat ->
  Forall (fun a => wrong_password u (snd a)) ((t1, p1) :: middle ++ [(t5, p5)]) ->
  exists u5,
    fst (login_seq rnd address ((t1, p1) :: middle ++ [(t5, p5)]) db)
    = repeat invalid_credential 5
    /\ account_by_email (snd (login_seq rnd address ((t1, p1) :: middle ++ [(t5, p5)]) db))
         (normalizeEmail address) = Some u5
    /\ credentials u5 = credentials u
    /\ lockout u5 = (5, Some (t5 + lockTime)).
Proof.
  intros Hmail Hnd Hu Hs Hstart Hlen Hwrong.
  destruct Hstart as [[Hc Hl] | (until & Hl & Hexp)].
  - apply (five_failures rnd address ((t1, p1) :: middle) t5 p5 db u); try assumption.
    simpl. now rewrite Hlen.
  - inversion Hwrong as [| ? ? Hw1 Hrest]; subst. simpl in Hw1.
    apply Forall_app in Hrest. destruct Hrest as [Hmid Hw5].
    inversion Hw5 as [| ? ? Hw5' _]; subst. simpl in Hw5'.
    destruct (login_wrong_password_expired t1 until rnd address p1 db u
                Hmail Hnd Hu Hs Hl Hexp Hw1) as (db1 & Hrun1 & Hnd1 & Hu1).
    set (u1 := set_updatedAt t1 (set_loginAttempts 1 (unset_lockUntil u))) in *.
    assert (Hcred1 : credentials u1 = credentials u) by reflexivity.
    assert (Hsame : forall pw, wrong_password u pw -> wrong_password u1 pw).
    { intros pw [Hne Hcmp]. split; [exact Hne |]. rewrite <- Hcmp.
      now apply comparePassword_credentials. }
    destruct (failures_accumulate rnd address middle db1 u1 Hmail Hnd1 Hu1)
      as (u4 & Hrs & Hnd4 & Hu4 & Hcred4 & Hlock4).
    { exact Hs. }
    { reflexivity. }
    { rewrite Hlen. unfold maxAttempts. simpl. lia. }
    { revert Hmid. apply Forall_impl. intros a Ha. now apply Hsame. }
    rewrite Hlen in Hlock4. simpl in Hlock4. injection Hlock4 as Hc4 Hl4.
    assert (Hs4 : status u4 = active).
    { unfold credentials in Hcred4. inversion Hcred4. congruence. }
    destruct (failure_sets_lock t5 rnd address p5 _ u4 Hmail Hnd4 Hu4 Hs4 Hl4)
      as (db5 & u5 & Hrun5 & Hu5 & Hcred5 & Hlock5).
    { rewrite Hc4. reflexivity. }
    { destruct Hw5' as [Hne Hcmp]. split; [exact Hne |]. rewrite <- Hcmp.
      apply comparePassword_credentials. congruence. }
    exists u5. cbn [login_seq]. rewrite Hrun1. rewrite login_seq_app.
    destruct (login_seq rnd address middle db1) as [rs4 db4]. simpl in *.
    rewrite Hrun5. simpl. rewrite Hrs, Hlen. simpl.
    repeat split; try assumption. congruence.
Qed.

End LoginFacts.

(** *** A successful login by password *)

Section LoginSuccess.
Context {L : Libs}.
Import userSchema.

Lemma login_touch_paths (now : Z) (u : t) :
  Forall login_path (modifiedPaths (login_touch now (hydrate u))).
Proof.
  unfold login_touch.
  repeat (apply write_paths; [unfold login_path; auto |]).
  constructor.
Qed.

Lemma login_touch_id (now : Z) (u : t) :
  _id (this (login_touch now (hydrate u))) = _id u.
Proof. reflexivity. Qed.

(** A save of login paths changes neither who an address resolves to nor the
    lockout state of that account. *)
Lemma account_after_save (now : Z) (d : doc) (db : Store) (address : string) (u : t) :
  unique_account_ids db ->
  account_by_email db address = Some u ->
  Forall login_path (modifiedPaths d) ->
  _id (this d) = _id u ->
  exists u',
    account_by_email (saved_store now d db) address = Some u'
    /\ lockout u' = lockout u /\ credentials u' = credentials u.
Proof.
  intros Hnd Hu Hd Hid. unfold saved_store.
  destruct (modifiedPaths d) as [| p paths] eqn:E.
  - exists u. auto.
  - eexists. split.
    + unfold account_by_email in *. simpl. rewrite Hid.
      apply (findOne_updateById _id _ _ (users db) u Hnd); [| exact Hu].
      intro x. simpl.
      destruct (assign_login_paths (this d) x (p :: paths) Hd) as (Hc & _).
      unfold credentials in Hc. inversion Hc as [[Hi He Hp Hph Hs]].
      simpl in He. now rewrite He.
    + destruct (assign_login_paths (this d) u (p :: paths) Hd) as (Hc & Hl & _).
      split; [exact Hl | exact Hc].
Qed.

(** What a login request that is answered 200 leaves in the store: the
    account's counter is 0. *)
Lemma login_success_counter (now : Z) (rnd : Random) (b : authRoutes.LoginBody)
    (db : Store) (u : t) :
  unique_account_ids db ->
  account_by_email db (normalizeEmail (authRoutes.l_email b)) = Some u ->
  0 <= loginAttempts u ->
  code (fst (run (authRoutes.login now rnd b) db)) = 200 ->
  exists u',
    account_by_email (snd (run (authRoutes.login now rnd b) db))
      (normalizeEmail (authRoutes.l_email b)) = Some u'
    /\ loginAttempts u' = 0
    /\ credentials u' = credentials u.
Proof.
  intros Hnd Hu Hge. unfold authRoutes.login.
  destruct (authRoutes.validateLogin b); simpl; [| discriminate].
  pose proof Hu as Hu'. unfold account_by_email in Hu'. rewrite Hu'.
  destruct (isLocked now u); simpl; [discriminate |].
  destruct (AccountStatus_eqb (status u) active); simpl; [| discriminate].
  destruct (User.comparePassword u (authRoutes.l_password b)); simpl.
  2: { rewrite run_bind. unfold User.incLoginAttempts.
       destruct (match lockUntil u with Some _ => _ | None => _ end); simpl; discriminate. }
  rewrite run_bind.
  (* the store and the account after the reset, if there is one *)
  assert (Hreset : exists db1 u1,
            run (if (0 <? loginAttempts u)%Z
                 then User.resetLoginAttempts now u else Ret tt) db = (tt, db1)
            /\ unique_account_ids db1
            /\ account_by_email db1 (normalizeEmail (authRoutes.l_email b)) = Some u1
            /\ loginAttempts u1 = 0 /\ credentials u1 = credentials u).
  { destruct (0 <? loginAttempts u)%Z eqn:Epos.
    - eexists. eexists. split; [reflexivity |]. split; [| split].
      + unfold unique_account_ids. simpl. now rewrite updateById_ids.
      + unfold account_by_email. simpl.
        apply (findOne_updateById _id _ _ (users db) u Hnd); [| exact Hu'].
        reflexivity.
      + split; reflexivity.
    - exists db, u. repeat split; try assumption.
      apply Z.ltb_ge in Epos. lia. }
  destruct Hreset as (db1 & u1 & Hrun1 & Hnd1 & Hu1 & Hc1 & Hcred1).
  rewrite Hrun1. rewrite run_bind.
  assert (Hid1 : _id u1 = _id u).
  { unfold credentials in Hcred1. now inversion Hcred1. }
  destruct (account_by_id_of_In db1 u1) as [x Hx].
  { unfold account_by_email in Hu1. now apply findOne_some_true in Hu1. }
  destruct (save_login_paths now rnd (login_touch now (hydrate u)) db1 x)
    as (d' & Hsave & Hthis).
  { reflexivity. }
  { apply login_touch_paths. }
  { rewrite login_touch_id, <- Hid1. exact Hx. }
  unfold login_touch in Hsave. rewrite Hsave. simpl. intros _.
  destruct (account_after_save now (login_touch now (hydrate u)) db1
              (normalizeEmail (authRoutes.l_email b)) u1 Hnd1 Hu1)
    as (u' & Hu'' & Hl' & Hc').
  { apply login_touch_paths. }
  { rewrite login_touch_id. now symmetry. }
  exists u'. split; [exact Hu'' |]. split.
  - unfold lockout in Hl'. inversion Hl'. congruence.
  - congruence.
Qed.

(** A login with the right password on an active account without a lock in
    force is answered 200. *)
Lemma login_right_password (now : Z) (rnd : Random) (b : authRoutes.LoginBody)
    (db : Store) (u : t) :
  authRoutes.validateLogin b = true ->
  account_by_email db (normalizeEmail (authRoutes.l_email b)) = Some u ->
  isLocked now u = false ->
  status u = active ->
  User.comparePassword u (authRoutes.l_password b) = true ->
  fst (run (authRoutes.login now rnd b) db)
  = mkResponse 200 true "Login successful"
      (auth_data (jwt_sign now (_id u)) (authRoutes.view_email u)).
Proof.
  intros Hv Hu Hl Hs Hpw. unfold authRoutes.login. rewrite Hv. simpl.
  pose proof Hu as Hu'. unfold account_by_email in Hu'.
  rewrite Hu', Hl, Hs. simpl. rewrite Hpw. simpl.
  rewrite run_bind.
  destruct (run (if (0 <? loginAttempts u)%Z
                 then User.resetLoginAttempts now u else Ret tt) db) as [[] db1] eqn:E1.
  rewrite run_bind.
  assert (Hx : exists x, account_by_id db1 (_id u) = Some x).
  { destruct (account_by_id_of_In db u) as [x Hx].
    { now apply findOne_some_true in Hu'. }
    destruct (0 <? loginAttempts u)%Z; simpl in E1; inversion E1; subst.
    - unfold account_by_id in *. simpl. rewrite findById_updateById; [| reflexivity].
      rewrite Hx. simpl. eauto.
    - eauto. }
  destruct Hx as [x Hx].
  destruct (save_login_paths now rnd (login_touch now (hydrate u)) db1 x)
    as (d' & Hsave & Hthis).
  { reflexivity. }
  { apply login_touch_paths. }
  { exact Hx. }
  unfold login_touch in Hsave. rewrite Hsave. simpl. rewrite Hthis. reflexivity.
Qed.

End LoginSuccess.

(** C2.  An active account at the start of a run of failures (counter 0 and
    no lock, or a lock that has expired) receives five refused passwords in a
    row, the first at [t1] and the fifth at [t5].  Then the stored account has
    counter 5 and [lockUntil] two hours after [t5]; every later login request
    before that instant is answered 423 and changes nothing, whatever
    password it carries, the right one included; once the two hours have
    elapsed the right password is accepted again. *)
Theorem lockout_after_five_failures (L : Libs) (rnd : Random) (address : string)
    (t1 : Z) (p1 : string) (middle : list (Z * string)) (t5 : Z) (p5 : string)
    (db : Store) (u : userSchema.t) :
  isEmail address = true ->
  unique_account_ids db ->
  account_by_email db (normalizeEmail address) = Some u ->
  userSchema.status u = active ->
  streak_start t1 u ->
  List.length middle = 3%nat ->
  Forall (fun a => wrong_password u (snd a)) ((t1, p1) :: middle ++ [(t5, p5)]) ->
  let db5 := snd (login_seq rnd address ((t1, p1) :: middle ++ [(t5, p5)]) db) in
  exists u5,
    account_by_email db5 (normalizeEmail address) = Some u5
    /\ userSchema.loginAttempts u5 = 5
    /\ userSchema.lockUntil u5 = Some (t5 + 2 * 60 * 60 * 1000)
    /\ (forall (t6 : Z) (rnd6 : Random) (p6 : string),
          non_empty p6 = true ->
          t6 < t5 + 2 * 60 * 60 * 1000 ->
          run (authRoutes.login t6 rnd6 (authRoutes.mkLoginBody address p6)) db5
          = (locked_response, db5))
    /\ (forall (t6 : Z) (rnd6 : Random) (p6 : string),
          non_empty p6 = true ->
          User.comparePassword u p6 = true ->
          t5 + 2 * 60 * 60 * 1000 <= t6 ->
          code (fst (run (authRoutes.login t6 rnd6 (authRoutes.mkLoginBody address p6)) db5))
          = 200).
Proof.
  intros Hmail Hnd Hu Hs Hstart Hlen Hwrong db5.
  destruct (five_failures_from_start rnd address t1 p1 middle t5 p5 db u
              Hmail Hnd Hu Hs Hstart Hlen Hwrong)
    as (u5 & _ & Hu5 & Hcred & Hlock).
  fold db5 in Hu5. unfold lockout in Hlock. injection Hlock as Hc5 Hl5.
  assert (Hv : forall p6, non_empty p6 = true ->
                 authRoutes.validateLogin (authRoutes.mkLoginBody address p6) = true).
  { intros p6 Hne. unfold authRoutes.validateLogin. simpl. now rewrite Hmail, Hne. }
  exists u5. split; [exact Hu5 |]. split; [exact Hc5 |]. split; [exact Hl5 |]. split.
  - intros t6 rnd6 p6 Hne Hlt. apply login_of_locked with u5.
    + now apply Hv.
    + exact Hu5.
    + apply isLocked_future with (t5 + userSchema.lockTime); assumption.
  - intros t6 rnd6 p6 Hne Hpw Hge.
    rewrite (login_right_password t6 rnd6 _ db5 u5); [reflexivity | | | | |].
    + now apply Hv.
    + exact Hu5.
    + unfold userSchema.isLocked. rewrite Hl5. apply Z.ltb_ge. exact Hge.
    + unfold credentials in Hcred. inversion Hcred. congruence.
    + simpl. rewrite <- Hpw. now apply comparePassword_credentials.
Qed.

Lemma lockout_after_five_failures_witness :
  let db5 :=
    snd (login_seq (L := sample_libs) sample_random "a@x.com"
           ((7300000, "guess1")
              :: [(7300001, "guess2"); (7300002, "guess3"); (7300003, "guess4")]
              ++ [(7300004, "guess5")])
           (mkStore [sample_account 5 (Some 7200000)] [] [])) in
  exists u5,
    account_by_email (L := sample_libs) db5 "a@x.com" = Some u5
    /\ userSchema.loginAttempts u5 = 5
    /\ userSchema.lockUntil u5 = Some (7300004 + 2 * 60 * 60 * 1000)
    /\ (forall (t6 : Z) (rnd6 : Random) (p6 : string),
          non_empty p6 = true ->
          t6 < 7300004 + 2 * 60 * 60 * 1000 ->
          run (authRoutes.login (L := sample_libs) t6 rnd6
                 (authRoutes.mkLoginBody "a@x.com" p6)) db5
          = (locked_response, db5))
    /\ (forall (t6 : Z) (rnd6 : Random) (p6 : string),
          non_empty p6 = true ->
          User.comparePassword (L := sample_libs)
            (sample_account 5 (Some 7200000)) p6 = true ->
          7300004 + 2 * 60 * 60 * 1000 <= t6 ->
          code (fst (run (authRoutes.login (L := sample_libs) t6 rnd6
                            (authRoutes.mkLoginBody "a@x.com" p6)) db5))
          = 200).
Proof.
  apply (lockout_after_five_failures sample_libs sample_random "a@x.com"
           7300000 "guess1"
           [(7300001, "guess2"); (7300002, "guess3"); (7300003, "guess4")]
           7300004 "guess5"
           (mkStore [sample_account 5 (Some 7200000)] [] [])
           (sample_account 5 (Some 7200000))).
  - reflexivity.
  - unfold unique_account_ids. simpl. repeat constructor. intros [].
  - reflexivity.
  - reflexivity.
  - right. exists 7200000. split; [reflexivity | lia].
  - reflexivity.
  - repeat constructor.
Defined.

Section CounterAfterLogin.
Context {L : Libs}.
Import userSchema.

(** With unique identifiers, an account of the store is the one its
    identifier resolves to. *)
Lemma account_by_id_unique (db : Store) (u : t) :
  unique_account_ids db -> In u (users db) -> account_by_id db (_id u) = Some u.
Proof.
  unfold unique_account_ids, account_by_id, Collection.findById, Collection.findOne.
  induction (users db) as [| x c IH]; cbn [map find In]; [contradiction |].
  intros Hnd Hin. inversion Hnd as [| ? ? Hnotin Hnd']; subst.
  destruct Hin as [-> | Hin].
  - now rewrite N.eqb_refl.
  - destruct (N.eqb (_id x) (_id u)) eqn:E; [| now apply IH].
    exfalso. apply N.eqb_eq in E. apply Hnotin. rewrite E. now apply in_map.
Qed.

(** What a phone login that is answered 200 for a known number has passed. *)
Lemma phone_login_answered_200 (now : Z) (rnd : Random) (b : authRoutes.PhoneBody)
    (db : Store) (u : t) :
  account_by_phone db (authRoutes.ph_phone b) = Some u ->
  code (fst (run (authRoutes.phone_login now rnd b) db)) = 200 ->
  isMobilePhone (authRoutes.ph_phone b) = true
  /\ authRoutes.ph_otp b = authRoutes.validOTP
  /\ status u = active.
Proof.
  intro Hu. unfold authRoutes.phone_login.
  destruct (authRoutes.validatePhoneOTP b) eqn:Hv; cbn [negb]; [| discriminate].
  destruct (String.eqb (authRoutes.ph_otp b) authRoutes.validOTP) eqn:Hotp; cbn [negb];
    [| discriminate].
  unfold User.findOne at 1, await. cbn [bind run].
  unfold account_by_phone in Hu. rewrite Hu. cbn [bind run this hydrate].
  destruct (AccountStatus_eqb (status u) active) eqn:Hs; cbn [negb run fst code];
    [| discriminate].
  intros _. unfold authRoutes.validatePhoneOTP in Hv.
  apply andb_true_iff in Hv. destruct Hv as [Hv _].
  apply andb_true_iff in Hv. destruct Hv as [Hv _].
  repeat split.
  - exact Hv.
  - now apply String.eqb_eq.
  - now destruct (status u).
Qed.

End CounterAfterLogin.

(** C3, as the code has it.  A login by password that is answered 200 leaves
    the account's failed-login counter at 0, whatever non-negative value it
    had; a login by phone and OTP that is answered 200 leaves the counter
    (and the lock) of the account as they were. *)
Theorem login_resets_counter_phone_login_keeps_it (L : Libs) (now : Z) (rnd : Random)
    (db : Store) (u : userSchema.t) :
  unique_account_ids db ->
  0 <= userSchema.loginAttempts u ->
  (forall b : authRoutes.LoginBody,
     account_by_email db (normalizeEmail (authRoutes.l_email b)) = Some u ->
     code (fst (run (authRoutes.login now rnd b) db)) = 200 ->
     exists u',
       account_by_email (snd (run (authRoutes.login now rnd b) db))
         (normalizeEmail (authRoutes.l_email b)) = Some u'
       /\ userSchema.loginAttempts u' = 0)
  /\ (forall b : authRoutes.PhoneBody,
       account_by_phone db (authRoutes.ph_phone b) = Some u ->
       code (fst (run (authRoutes.phone_login now rnd b) db)) = 200 ->
       exists u',
         account_by_id (snd (run (authRoutes.phone_login now rnd b) db))
           (userSchema._id u) = Some u'
         /\ userSchema.loginAttempts u' = userSchema.loginAttempts u
         /\ userSchema.lockUntil u' = userSchema.lockUntil u).
Proof.
  intros Hnd Hge. split.
  - intros b Hu Hok.
    destruct (login_success_counter now rnd b db u Hnd Hu Hge Hok) as (u' & Hu' & Hc & _).
    now exists u'.
  - intros b Hu Hok.
    destruct (phone_login_answered_200 now rnd b db u Hu Hok) as (Hph & Hotp & Hs).
    assert (Hid : account_by_id db (userSchema._id u) = Some u).
    { apply account_by_id_unique; [exact Hnd |].
      unfold account_by_phone in Hu. now apply findOne_some_true in Hu. }
    destruct (phone_login_keeps_lockout now rnd b db u Hph Hotp Hu Hid Hs)
      as (u' & Hu' & Hl).
    exists u'. split; [exact Hu' |]. unfold lockout in Hl. now injection Hl.
Qed.

Lemma login_resets_counter_phone_login_keeps_it_witness :
  (exists u',
     account_by_email (L := sample_libs)
       (snd (run (authRoutes.login (L := sample_libs) 1000 sample_random
                    (authRoutes.mkLoginBody "m@x.com" "secret1"))
                 (mkStore [sample_subscriber 3 None] [] []))) "m@x.com" = Some u'
     /\ userSchema.loginAttempts u' = 0)
  /\ (exists u',
        account_by_id
          (snd (run (authRoutes.phone_login (L := sample_libs) 1000 sample_random
                       (authRoutes.mkPhoneBody "+919876543210" "1234"))
                    (mkStore [sample_subscriber 3 None] [] []))) 1%N = Some u'
        /\ userSchema.loginAttempts u' = 3
        /\ userSchema.lockUntil u' = None).
Proof.
  assert (Hnd : unique_account_ids (mkStore [sample_subscriber 3 None] [] [])).
  { unfold unique_account_ids. simpl. repeat constructor. intros []. }
  destruct (login_resets_counter_phone_login_keeps_it sample_libs 1000 sample_random
              (mkStore [sample_subscriber 3 None] [] []) (sample_subscriber 3 None)
              Hnd ltac:(simpl; lia)) as [Hpassword Hphone].
  split.
  - apply (Hpassword (authRoutes.mkLoginBody "m@x.com" "secret1")); reflexivity.
  - apply (Hphone (authRoutes.mkPhoneBody "+919876543210" "1234")); reflexivity.
Defined.

(** C3, as stated, fails on the phone path: a login by phone and OTP, with a
    number the validation of the route accepts, is answered 200 and leaves a
    counter of 3 at 3. *)
Lemma phone_login_keeps_counter_example :
  let r := run (authRoutes.phone_login (L := sample_libs) 1000 sample_random
                  (authRoutes.mkPhoneBody "+919876543210" "1234"))
               (mkStore [sample_subscriber 3 None] [] []) in
  code (fst r) = 200
  /\ success (fst r) = true
  /\ option_map userSchema.loginAttempts (account_by_id (snd r) 1%N) = Some 3
  /\ option_map userSchema.loginAttempts (account_by_id (snd r) 1%N) <> Some 0.
Proof.
  simpl. repeat split; discriminate.
Qed.

(** The scenario of an account from its registration: the registration is
    answered 201 and leaves counter 0 and no lock, the start of a run of
    failures; a login with the same credentials is answered 200. *)
Example register_then_login :
  let r := run (authRoutes.register (L := sample_libs) 1000 sample_random
                  (authRoutes.mkRegisterBody "Asha" "a@x.com" "secret1" None None))
               (mkStore [] [] []) in
  code (fst r) = 201
  /\ option_map lockout (account_by_email (L := sample_libs) (snd r) "a@x.com")
     = Some (0, None)
  /\ code (fst (run (authRoutes.login (L := sample_libs) 2000 sample_random
                      (authRoutes.mkLoginBody "a@x.com" "secret1")) (snd r))) = 200.
Proof. repeat split; reflexivity. Qed.

(** C8, as the code has it.  From a fresh counter, each of five refused
    passwords in a row is answered 401, the fifth included; a login with the
    right password that follows before the lock expires is answered 423. *)
Theorem five_failures_then_locked (L : Libs) (rnd : Random) (address : string)
    (first4 : list (Z * string)) (t5 : Z) (p5 : string) (db : Store)
    (u : userSchema.t) :
  isEmail address = true ->
  unique_account_ids db ->
  account_by_email db (normalizeEmail address) = Some u ->
  userSchema.status u = active ->
  userSchema.loginAttempts u = 0 ->
  userSchema.lockUntil u = None ->
  List.length first4 = 4%nat ->
  Forall (fun a => wrong_password u (snd a)) (first4 ++ [(t5, p5)]) ->
  map code (fst (login_seq rnd address (first4 ++ [(t5, p5)]) db))
  = [401; 401; 401; 401; 401]
  /\ forall (t6 : Z) (rnd6 : Random) (p6 : string),
       non_empty p6 = true ->
       User.comparePassword u p6 = true ->
       t6 < t5 + 2 * 60 * 60 * 1000 ->
       code (fst (run (authRoutes.login t6 rnd6 (authRoutes.mkLoginBody address p6))
                      (snd (login_seq rnd address (first4 ++ [(t5, p5)]) db))))
       = 423.
Proof.
  intros Hmail Hnd Hu Hs Hc Hl Hlen Hwrong.
  destruct (five_failures rnd address first4 t5 p5 db u Hmail Hnd Hu Hs Hc Hl Hlen Hwrong)
    as (u5 & Hrs & Hu5 & _ & Hlock).
  split.
  - rewrite Hrs. reflexivity.
  - intros t6 rnd6 p6 Hne _ Hlt.
    rewrite (login_of_locked t6 rnd6 _ _ u5); [reflexivity | | exact Hu5 |].
    + unfold authRoutes.validateLogin. simpl. now rewrite Hmail, Hne.
    + unfold lockout in Hlock. injection Hlock as Hc5 Hl5.
      apply isLocked_future with (t5 + userSchema.lockTime); assumption.
Qed.

Lemma five_failures_then_locked_witness :
  map code (fst (login_seq (L := sample_libs) sample_random "a@x.com"
                   ([(1, "guess1"); (2, "guess2"); (3, "guess3"); (4, "guess4")]
                      ++ [(5, "guess5")])
                   (mkStore [sample_account 0 None] [] [])))
  = [401; 401; 401; 401; 401]
  /\ forall (t6 : Z) (rnd6 : Random) (p6 : string),
       non_empty p6 = true ->
       User.comparePassword (L := sample_libs) (sample_account 0 None) p6 = true ->
       t6 < 5 + 2 * 60 * 60 * 1000 ->
       code (fst (run (authRoutes.login (L := sample_libs) t6 rnd6
                         (authRoutes.mkLoginBody "a@x.com" p6))
                      (snd (login_seq (L := sample_libs) sample_random "a@x.com"
                              ([(1, "guess1"); (2, "guess2"); (3, "guess3"); (4, "guess4")]
                                 ++ [(5, "guess5")])
                              (mkStore [sample_account 0 None] [] [])))))
       = 423.
Proof.
  apply (five_failures_then_locked sample_libs sample_random "a@x.com"
           [(1, "guess1"); (2, "guess2"); (3, "guess3"); (4, "guess4")] 5 "guess5"
           (mkStore [sample_account 0 None] [] []) (sample_account 0 None)).
  - reflexivity.
  - unfold unique_account_ids. simpl. repeat constructor. intros [].
  - reflexivity.
  - reflexivity.
  - reflexivity.
  - reflexivity.
  - reflexivity.
  - repeat constructor.
Defined.

(** C8, as stated, fails: the answer to the fifth refused password is 401,
    not 423. *)
Lemma fifth_failure_is_not_423 :
  option_map code
    (nth_error
       (fst (login_seq (L := sample_libs) sample_random "a@x.com"
               [(1, "guess1"); (2, "guess2"); (3, "guess3"); (4, "guess4"); (5, "guess5")]
               (mkStore [sample_account 0 None] [] []))) 4)
  <> Some 423.
Proof.
  simpl. discriminate.
Qed.

(** ** Content *)

(** C5.  A request to create a video, by an administrator and past
    validation, whose URL yields the [youtubeId] of a video in the store is
    answered 400 and leaves the store as it was, whatever else the body
    holds. *)
Theorem duplicate_video_rejected (L : Libs) (now : Z) (caller : ReqUser)
    (b : videoSchema.Body) (db : Store) (id : string) (v : videoSchema.t) :
  adminMiddleware (Some caller) = None ->
  videosRoutes.validateVideo b = true ->
  extractYouTubeId (videoSchema.b_youtubeUrl b) = Some id ->
  In v (videos db) ->
  videoSchema.youtubeId v = id ->
  run (videosRoutes.post now (Some caller) b) db
  = (failure 400 "Video with this YouTube ID already exists", db).
Proof.
  intros Hadmin Hv Hid Hin Hsame. unfold videosRoutes.post.
  rewrite Hadmin, Hv, Hid. simpl.
  destruct (findOne_of_In (fun w => String.eqb (videoSchema.youtubeId w) id)
              (videos db) v Hin) as [w Hw].
  { rewrite Hsame. apply String.eqb_refl. }
  rewrite Hw. reflexivity.
Qed.

Lemma duplicate_video_rejected_witness :
  run (videosRoutes.post (L := sample_libs) 1000 (Some (mkReqUser 7%N role_admin))
         (videoSchema.mkBody "Another title" None
            "https://www.youtube.com/watch?v=dQw4w9WgXcQ&t=42" "Live" None None None None))
      (mkStore [] [] [sample_video published 0])
  = (failure 400 "Video with this YouTube ID already exists",
     mkStore [] [] [sample_video published 0]).
Proof.
  apply (duplicate_video_rejected sample_libs 1000 (mkReqUser 7%N role_admin)
           (videoSchema.mkBody "Another title" None
              "https://www.youtube.com/watch?v=dQw4w9WgXcQ&t=42" "Live" None None None None)
           (mkStore [] [] [sample_video published 0]) "dQw4w9WgXcQ"
           (sample_video published 0)).
  - reflexivity.
  - reflexivity.
  - reflexivity.
  - simpl. left. reflexivity.
  - reflexivity.
Defined.

(** *** Engagement counters *)

Section EngagementFacts.
Context {L : Libs}.

Lemma valid_article (db : Store) (id : ObjectId) (a : newsSchema.t) :
  schema_valid db -> article_by_id db id = Some a -> 0 <= newsSchema.shares a.
Proof.
  intros [Hnews _] Ha. apply findById_In in Ha.
  rewrite Forall_forall in Hnews. specialize (Hnews a Ha).
  rewrite forallb_forall in Hnews.
  specialize (Hnews newsSchema.p_shares). simpl in Hnews.
  apply Z.leb_le. apply Hnews. auto 10.
Qed.

Lemma valid_video (db : Store) (id : ObjectId) (v : videoSchema.t) :
  schema_valid db -> video_by_id db id = Some v ->
  0 <= videoSchema.shares v /\ 0 <= videoSchema.likes v
  /\ non_empty (videoSchema.youtubeId v) = true.
Proof.
  intros [_ Hvideos] Hv. apply findById_In in Hv.
  rewrite Forall_forall in Hvideos. specialize (Hvideos v Hv).
  rewrite forallb_forall in Hvideos.
  pose proof (Hvideos videoSchema.p_shares) as H1.
  pose proof (Hvideos videoSchema.p_likes) as H2.
  pose proof (Hvideos videoSchema.p_youtubeId) as H3.
  simpl in H1, H2, H3. repeat split.
  - apply Z.leb_le. apply H1. auto 10.
  - apply Z.leb_le. apply H2. auto 20.
  - assert (H : non_empty (videoSchema.youtubeId v)
                && youtubeId_regex (videoSchema.youtubeId v) = true)
      by (apply H3; auto 10).
    now apply andb_true_iff in H.
Qed.

(** The write of [incrementShares] by a handler that read [a], against a
    store in which the article is now [stored]: the stored counter becomes
    the one the handler read, plus one. *)
Lemma article_share_write (now : Z) (id : ObjectId) (db : Store)
    (a stored : newsSchema.t) :
  newsSchema._id a = id ->
  0 <= newsSchema.shares a <= MAX_SAFE_INTEGER ->
  article_by_id db id = Some stored ->
  exists d' a',
    fst (run (News.incrementShares now (hydrate a)) db) = Some d'
    /\ newsSchema.shares (this d') = newsSchema.shares a + 1
    /\ article_by_id (snd (run (News.incrementShares now (hydrate a)) db)) id = Some a'
    /\ newsSchema.shares a' = newsSchema.shares a + 1
    /\ newsSchema.status a' = newsSchema.status stored.
Proof.
  intros Hid Hge Hst.
  unfold News.incrementShares. cbn [this hydrate]. rewrite (number_add_one _ Hge).
  unfold News.save, newsSchema.write. simpl.
  replace (newsSchema.shares a =? newsSchema.shares a + 1)%Z with false
    by (symmetry; apply Z.eqb_neq; lia).
  unfold newsSchema.validate. simpl.
  replace (0 <=? newsSchema.shares a + 1)%Z with true by (symmetry; apply Z.leb_le; lia).
  simpl. pose proof Hst as Hst'. unfold article_by_id in Hst'. rewrite Hid, Hst'. simpl.
  eexists. eexists. split; [reflexivity |]. split; [reflexivity |]. split.
  - unfold article_by_id. simpl.
    apply findById_updateById_found; [exact Hst' |].
    simpl. now apply findById_id in Hst'.
  - simpl. auto.
Qed.


End EngagementFacts.

Section VideoSave.
Context {L : Libs}.
Import videoSchema.

(** A path that is not among the modified ones keeps its stored value. *)
Lemma assign_fold_unmodified {A : Type} (proj : t -> A) (q : Path) (src stored : t)
    (paths : list Path) :
  (forall p x, Path_eqb q p = false -> proj (assign src p x) = proj x) ->
  existsb (Path_eqb q) paths = false ->
  proj (fold_right (assign src) stored paths) = proj stored.
Proof.
  intros Hproj. induction paths as [| p paths IH]; simpl; [reflexivity |].
  intro H. apply orb_false_iff in H. destruct H as [Hp Hrest].
  rewrite Hproj by exact Hp. now apply IH.
Qed.

(** A modified path takes the value of the handler's copy. *)
Lemma assign_fold_modified {A : Type} (proj : t -> A) (q : Path) (src stored : t)
    (paths : list Path) :
  (forall p x, Path_eqb q p = false -> proj (assign src p x) = proj x) ->
  (forall x, proj (assign src q x) = proj src) ->
  (forall p, Path_eqb q p = true -> p = q) ->
  existsb (Path_eqb q) paths = true ->
  proj (fold_right (assign src) stored paths) = proj src.
Proof.
  intros Hother Hsame Heq. induction paths as [| p paths IH]; simpl; [discriminate |].
  destruct (Path_eqb q p) eqn:E.
  - intros _. apply Heq in E. subst p. apply Hsame.
  - simpl. intro H. rewrite Hother by exact E. now apply IH.
Qed.

Lemma isModified_write_other (q p : Path) (f : t -> t) (d : doc) :
  Path_eqb q p = false -> isModified q (write p f d) = isModified q d.
Proof.
  intro H. unfold isModified, write. simpl.
  destruct (isNew d || negb (same_at p (this d) (f (this d)))); simpl; [| reflexivity].
  now rewrite H.
Qed.

(** The hook on a loaded video whose status is not being changed: at most
    the default thumbnail is filled in. *)
Lemma pre_save_loaded (now : Z) (d : doc) :
  isModified p_status d = false ->
  non_empty (youtubeId (this d)) = true ->
  pre_save now d
  = if negb (truthy (thumbnailUrl (this d)))
    then write p_thumbnailUrl
           (set_thumbnailUrl (Some (defaultThumbnail (youtubeId (this d))))) d
    else d.
Proof.
  intros Hst Hid. unfold pre_save. rewrite Hid. simpl negb. rewrite andb_false_r.
  cbv beta iota zeta. rewrite Hid, andb_true_r.
  destruct (negb (truthy (thumbnailUrl (this d)))).
  - rewrite isModified_write_other by reflexivity. rewrite Hst. cbn [andb].
    rewrite isModified_write_other by reflexivity. rewrite Hst. reflexivity.
  - rewrite Hst. cbn [andb]. rewrite Hst. reflexivity.
Qed.

(** Saving a loaded video of which neither the status nor the identifier is
    modified: the modified paths are written over the stored document. *)
Lemma save_loaded (now : Z) (d : doc) (db : Store) (stored : t) :
  isNew d = false ->
  validate d = true ->
  isModified p_status d = false ->
  isModified p_youtubeId d = false ->
  non_empty (youtubeId (this d)) = true ->
  modifiedPaths d <> [] ->
  video_by_id db (_id (this d)) = Some stored ->
  exists d' v',
    run (Video.save now d) db
    = (Some d', set_videos (Collection.updateById _id (_id (this d)) (fun _ => v')
                              (videos db)) db)
    /\ this d' = this (pre_save now d)
    /\ v' = set_updatedAt now
              (fold_right (assign (this (pre_save now d))) stored
                 (modifiedPaths (pre_save now d)))
    /\ (forall q, Path_eqb q p_thumbnailUrl = false ->
          isModified q (pre_save now d) = isModified q d).
Proof.
  intros Hnew Hval Hst Hyt Hid Hmod Hstored. unfold Video.save. rewrite Hval. simpl.
  rewrite (pre_save_loaded now d Hst Hid).
  set (d1 := if negb (truthy (thumbnailUrl (this d))) then _ else d).
  assert (H1 : isNew d1 = false /\ _id (this d1) = _id (this d)
               /\ modifiedPaths d1 <> []
               /\ forall q, Path_eqb q p_thumbnailUrl = false ->
                    isModified q d1 = isModified q d).
  { unfold d1. destruct (negb (truthy (thumbnailUrl (this d)))).
    - repeat split; try assumption.
      + unfold write. simpl. rewrite Hnew. simpl.
        destruct (negb _); [discriminate | assumption].
      + intros q Hq. now apply isModified_write_other.
    - auto. }
  destruct H1 as (Hnew1 & Hid1 & Hmod1 & Hsame1).
  rewrite Hnew1, Hid1. unfold video_by_id in Hstored. rewrite Hstored.
  destruct (modifiedPaths d1) as [| p paths] eqn:E; [congruence |].
  rewrite (assign_fold_unmodified youtubeId p_youtubeId (this d1) stored (p :: paths)).
  - rewrite String.eqb_refl. simpl. eexists. eexists.
    split; [reflexivity |]. split; [reflexivity |]. split; [reflexivity |]. exact Hsame1.
  - intros q x Hq. destruct q; try reflexivity; discriminate.
  - rewrite <- E. fold (isModified p_youtubeId d1). rewrite Hsame1 by reflexivity.
    exact Hyt.
Qed.

(** The write of a counter by a handler that read [v], against a store in
    which the video is now [stored]. *)
Lemma video_counter_write (now : Z) (id : ObjectId) (db : Store) (v stored : t)
    (p : Path) (counter : t -> Z) (set : Z -> t -> t) :
  (p = p_shares /\ counter = shares /\ set = set_shares)
  \/ (p = p_likes /\ counter = likes /\ set = set_likes) ->
  _id v = id ->
  0 <= counter v <= MAX_SAFE_INTEGER ->
  non_empty (youtubeId v) = true ->
  video_by_id db id = Some stored ->
  let save := Video.save now (write p (set (number_add (counter v) 1)) (hydrate v)) in
  exists d' v',
    fst (run save db) = Some d'
    /\ counter (this d') = counter v + 1
    /\ video_by_id (snd (run save db)) id = Some v'
    /\ counter v' = counter v + 1
    /\ status v' = status stored.
Proof.
  intros Hp Hidv Hge Hid Hst save. unfold save. rewrite (number_add_one _ Hge).
  set (d := write p (set (counter v + 1)) (hydrate v)).
  assert (Hd : modifiedPaths d = [p] /\ validate d = true
               /\ counter (this d) = counter v + 1 /\ _id (this d) = id
               /\ youtubeId (this d) = youtubeId v).
  { unfold d, write, validate.
    destruct Hp as [(-> & -> & ->) | (-> & -> & ->)]; simpl.
    - replace (shares v =? shares v + 1)%Z with false
        by (symmetry; apply Z.eqb_neq; lia).
      simpl. replace (0 <=? shares v + 1)%Z with true by (symmetry; apply Z.leb_le; lia).
      auto.
    - replace (likes v =? likes v + 1)%Z with false
        by (symmetry; apply Z.eqb_neq; lia).
      simpl. replace (0 <=? likes v + 1)%Z with true by (symmetry; apply Z.leb_le; lia).
      auto. }
  destruct Hd as (Hpaths & Hval & Hcnt & Hidd & Hyt).
  assert (Hmod : forall q, isModified q d = Path_eqb q p).
  { intro q. unfold isModified. rewrite Hpaths. simpl. apply orb_false_r. }
  assert (Hnot : Path_eqb p_status p = false /\ Path_eqb p_youtubeId p = false
                 /\ Path_eqb p p_thumbnailUrl = false /\ Path_eqb p p = true).
  { destruct Hp as [(-> & _) | (-> & _)]; auto. }
  destruct Hnot as (Hn1 & Hn2 & Hn3 & Hn4).
  destruct (save_loaded now d db stored) as (d' & v' & Hrun & Hd' & Hv' & Hmods).
  - reflexivity.
  - exact Hval.
  - now rewrite Hmod.
  - now rewrite Hmod.
  - now rewrite Hyt.
  - rewrite Hpaths. discriminate.
  - now rewrite Hidd.
  - rewrite Hrun. cbn [fst snd].
    assert (Hpre : counter (this (pre_save now d)) = counter v + 1).
    { rewrite (pre_save_loaded now d); [| now rewrite Hmod | now rewrite Hyt].
      rewrite <- Hcnt.
      destruct (negb (truthy (thumbnailUrl (this d)))); [| reflexivity].
      destruct Hp as [(_ & -> & _) | (_ & -> & _)]; reflexivity. }
    exists d', v'. split; [reflexivity |]. split; [now rewrite Hd' |]. split; [| split].
    + rewrite Hidd. unfold video_by_id. cbn [videos set_videos].
      pose proof Hst as Hst'. unfold video_by_id in Hst'.
      apply (findById_updateById_found _id id (fun _ => v') (videos db) stored Hst').
      rewrite Hv'. simpl. rewrite <- (findById_id _id id (videos db) stored Hst').
      apply (assign_fold_unmodified _id p_youtubeId).
      * intros q x _. now destruct q.
      * fold (isModified p_youtubeId (pre_save now d)). rewrite Hmods by reflexivity.
        now rewrite Hmod.
    + rewrite Hv', <- Hpre.
      destruct Hp as [(-> & -> & _) | (-> & -> & _)]; simpl.
      * apply (assign_fold_modified shares p_shares).
        -- intros q x Hq. destruct q; try reflexivity; discriminate.
        -- reflexivity.
        -- intros q Hq. destruct q; try reflexivity; discriminate.
        -- fold (isModified p_shares (pre_save now d)). rewrite Hmods by reflexivity.
           now rewrite Hmod.
      * apply (assign_fold_modified likes p_likes).
        -- intros q x Hq. destruct q; try reflexivity; discriminate.
        -- reflexivity.
        -- intros q Hq. destruct q; try reflexivity; discriminate.
        -- fold (isModified p_likes (pre_save now d)). rewrite Hmods by reflexivity.
           now rewrite Hmod.
    + rewrite Hv'. simpl. apply (assign_fold_unmodified status p_status).
      * intros q x Hq. destruct q; try reflexivity; discriminate.
      * fold (isModified p_status (pre_save now d)). rewrite Hmods by reflexivity.
        now rewrite Hmod.
Qed.



End VideoSave.


Lemma sample_content_valid : schema_valid sample_content.
Proof. split; repeat constructor. Qed.



(** Beyond the safe integers the counter does not grow: at [2 ^ 53] the sum
    [shares + 1] is [2 ^ 53] again, nothing is written, and the answer is
    200 with the same count. *)
Example share_at_two_to_the_53 :
  let db := mkStore [] [sample_article published (Some 10) (2 ^ 53)] [] in
  run (record_engagement (L := sample_libs) share_article 1000
         "000000000000000000000001") db
  = (engagement_done share_article (2 ^ 53), db).
Proof. reflexivity. Qed.

(** *** Concurrent engagement *)

Section Interleaving.
Context {L : Libs}.

Lemma step_bind_await {S X R : Type} (op : S -> X * S) (k : X -> Prog S R) (s : S) :
  step (bind (await op) k) s = (k (fst (op s)), snd (op s)).
Proof. simpl. now destruct (op s). Qed.

Lemma run_await {S X : Type} (op : S -> X * S) (s : S) : run (await op) s = op s.
Proof. simpl. now destruct (op s). Qed.

(** A save that passes validation is one store operation. *)
Lemma step_news_save {R : Type} (now : Z) (d : newsSchema.doc)
    (k : option newsSchema.doc -> Prog Store R) (s : Store) :
  newsSchema.validate d = true ->
  step (bind (News.save now d) k) s
  = (k (fst (run (News.save now d) s)), snd (run (News.save now d) s)).
Proof.
  intro Hv. unfold News.save. rewrite Hv. cbn [negb].
  now rewrite step_bind_await, run_await.
Qed.

Lemma step_video_save {R : Type} (now : Z) (d : videoSchema.doc)
    (k : option videoSchema.doc -> Prog Store R) (s : Store) :
  videoSchema.validate d = true ->
  step (bind (Video.save now d) k) s
  = (k (fst (run (Video.save now d) s)), snd (run (Video.save now d) s)).
Proof.
  intro Hv. unfold Video.save. rewrite Hv. cbn [negb].
  now rewrite step_bind_await, run_await.
Qed.

(** A share or like handler is a read followed by a write.  After the read
    of a published item with counter [n], the handler's next step, against
    whatever the store holds for the item by then, writes [n + 1] and answers
    with it. *)
Lemma engagement_two_phase (e : Engagement) (now : Z) (param : string) (id : ObjectId)
    (db : Store) (n : Z) :
  castObjectId param = Some id ->
  schema_valid db ->
  engagement_counter e db id = Some (published, n) ->
  n <= MAX_SAFE_INTEGER ->
  exists write_phase : Prog Store Response,
    step (record_engagement e now param) db = (write_phase, db)
    /\ forall (db1 : Store) (n1 : Z),
         engagement_counter e db1 id = Some (published, n1) ->
         fst (step write_phase db1) = Ret (engagement_done e (n + 1))
         /\ engagement_counter e (snd (step write_phase db1)) id
            = Some (published, n + 1).
Proof.
  intros Hcast Hvalid Hc Hsafe.
  destruct e; unfold engagement_counter, record_engagement in *.
  - destruct (article_by_id db id) as [a |] eqn:Ha; [| discriminate].
    cbn [option_map] in Hc. injection Hc as Hs Hn. subst n.
    pose proof (conj (valid_article db id a Hvalid Ha) Hsafe) as Hge.
    pose proof Ha as Ha'. unfold article_by_id in Ha'.
    unfold newsRoutes.post_share, News.findById. rewrite Hcast, step_bind_await.
    cbn [fst snd]. rewrite Ha'. cbn [this hydrate]. rewrite Hs. cbn [ContentStatus_eqb negb].
    eexists. split; [reflexivity |].
    intros db1 n1 Hc1.
    destruct (article_by_id db1 id) as [stored |] eqn:Hst; [| discriminate].
    cbn [option_map] in Hc1. injection Hc1 as Hs1 Hn1.
    destruct (article_share_write now id db1 a stored) as (d' & a' & Hd' & Hsh & Ha'' & Hcnt & Hst').
    { now apply findById_id in Ha'. }
    { exact Hge. }
    { exact Hst. }
    unfold News.incrementShares in *. rewrite step_news_save.
    + cbn [fst snd]. rewrite Hd', Ha''. cbn [option_map]. rewrite Hsh, Hcnt, Hst', Hs1.
      split; reflexivity.
    + cbn [this hydrate]. rewrite (number_add_one _ Hge).
      unfold newsSchema.validate, newsSchema.write. simpl.
      replace (newsSchema.shares a =? newsSchema.shares a + 1)%Z with false
        by (symmetry; apply Z.eqb_neq; lia).
      simpl. replace (0 <=? newsSchema.shares a + 1)%Z with true
        by (symmetry; apply Z.leb_le; lia).
      reflexivity.
  - destruct (video_by_id db id) as [v |] eqn:Hv; [| discriminate].
    cbn [option_map] in Hc. injection Hc as Hs Hn. subst n.
    destruct (valid_video db id v Hvalid Hv) as (Hge0 & _ & Hid).
    pose proof (conj Hge0 Hsafe) as Hge.
    pose proof Hv as Hv'. unfold video_by_id in Hv'.
    unfold videosRoutes.post_share, Video.findById. rewrite Hcast, step_bind_await.
    cbn [fst snd]. rewrite Hv'. cbn [this hydrate]. rewrite Hs. cbn [ContentStatus_eqb negb].
    eexists. split; [reflexivity |].
    intros db1 n1 Hc1.
    destruct (video_by_id db1 id) as [stored |] eqn:Hst; [| discriminate].
    cbn [option_map] in Hc1. injection Hc1 as Hs1 Hn1.
    destruct (video_counter_write now id db1 v stored videoSchema.p_shares
                videoSchema.shares videoSchema.set_shares)
      as (d' & v' & Hd' & Hsh & Hv'' & Hcnt & Hst'); auto.
    { now apply findById_id in Hv'. }
    unfold Video.incrementShares. cbn [this hydrate]. rewrite step_video_save.
    + cbn [fst snd]. cbn zeta in Hd', Hv''. rewrite Hd', Hv''.
      cbn [option_map]. rewrite Hsh, Hcnt, Hst', Hs1. split; reflexivity.
    + rewrite (number_add_one _ Hge).
      unfold videoSchema.validate, videoSchema.write. simpl.
      replace (videoSchema.shares v =? videoSchema.shares v + 1)%Z with false
        by (symmetry; apply Z.eqb_neq; lia).
      simpl. replace (0 <=? videoSchema.shares v + 1)%Z with true
        by (symmetry; apply Z.leb_le; lia).
      reflexivity.
  - destruct (video_by_id db id) as [v |] eqn:Hv; [| discriminate].
    cbn [option_map] in Hc. injection Hc as Hs Hn. subst n.
    destruct (valid_video db id v Hvalid Hv) as (_ & Hge0 & Hid).
    pose proof (conj Hge0 Hsafe) as Hge.
    pose proof Hv as Hv'. unfold video_by_id in Hv'.
    unfold videosRoutes.post_like, Video.findById. rewrite Hcast, step_bind_await.
    cbn [fst snd]. rewrite Hv'. cbn [this hydrate]. rewrite Hs. cbn [ContentStatus_eqb negb].
    eexists. split; [reflexivity |].
    intros db1 n1 Hc1.
    destruct (video_by_id db1 id) as [stored |] eqn:Hst; [| discriminate].
    cbn [option_map] in Hc1. injection Hc1 as Hs1 Hn1.
    destruct (video_counter_write now id db1 v stored videoSchema.p_likes
                videoSchema.likes videoSchema.set_likes)
      as (d' & v' & Hd' & Hsh & Hv'' & Hcnt & Hst'); auto.
    { now apply findById_id in Hv'. }
    unfold Video.incrementLikes. cbn [this hydrate]. rewrite step_video_save.
    + cbn [fst snd]. cbn zeta in Hd', Hv''. rewrite Hd', Hv''.
      cbn [option_map]. rewrite Hsh, Hcnt, Hst', Hs1. split; reflexivity.
    + rewrite (number_add_one _ Hge).
      unfold videoSchema.validate, videoSchema.write. simpl.
      replace (videoSchema.likes v =? videoSchema.likes v + 1)%Z with false
        by (symmetry; apply Z.eqb_neq; lia).
      simpl. replace (0 <=? videoSchema.likes v + 1)%Z with true
        by (symmetry; apply Z.leb_le; lia).
      reflexivity.
Qed.

End Interleaving.

(** C9, on the share and like routes.  Two requests for the same published
    item, whose counter is a safe integer, interleaved so that both read
    before either writes, are both answered 200 with the counter plus one,
    and the stored counter has grown by one, not by two: the second write
    overwrites the first. *)
Theorem concurrent_engagement_loses_update (L : Libs) (e : Engagement) (now1 now2 : Z)
    (param : string) (id : ObjectId) (db : Store) (n : Z) :
  castObjectId param = Some id ->
  schema_valid db ->
  engagement_counter e db id = Some (published, n) ->
  n <= MAX_SAFE_INTEGER ->
  let outcome :=
    run_schedule [0; 1; 0; 1]%nat
      [record_engagement e now1 param; record_engagement e now2 param] db in
  map finished (fst outcome)
  = [Some (engagement_done e (n + 1)); Some (engagement_done e (n + 1))]
  /\ engagement_counter e (snd outcome) id = Some (published, n + 1).
Proof.
  intros Hcast Hvalid Hc Hsafe outcome. unfold outcome.
  destruct (engagement_two_phase e now1 param id db n Hcast Hvalid Hc Hsafe)
    as (w1 & Hr1 & Hw1).
  destruct (engagement_two_phase e now2 param id db n Hcast Hvalid Hc Hsafe)
    as (w2 & Hr2 & Hw2).
  cbn [run_schedule step_nth]. rewrite Hr1, Hr2.
  destruct (Hw1 db n Hc) as [Ha1 Hc1].
  destruct (step w1 db) as [t1 db1]. cbn [fst snd] in Ha1, Hc1. subst t1.
  destruct (Hw2 db1 (n + 1) Hc1) as [Ha2 Hc2].
  destruct (step w2 db1) as [t2 db2]. cbn [fst snd] in Ha2, Hc2. subst t2.
  split; [reflexivity | exact Hc2].
Qed.

Lemma concurrent_engagement_loses_update_witness :
  let outcome :=
    run_schedule [0; 1; 0; 1]%nat
      [record_engagement (L := sample_libs) share_article 1000 "000000000000000000000001";
       record_engagement (L := sample_libs) share_article 1001 "000000000000000000000001"]
      sample_content in
  map finished (fst outcome)
  = [Some (engagement_done share_article (4 + 1));
     Some (engagement_done share_article (4 + 1))]
  /\ engagement_counter share_article (snd outcome) 1%N = Some (published, 4 + 1).
Proof.
  refine (concurrent_engagement_loses_update sample_libs share_article 1000 1001
            "000000000000000000000001" 1%N sample_content 4 eq_refl sample_content_valid
            eq_refl _).
  vm_compute. discriminate.
Defined.

(** *** Concurrent views *)

Lemma step_bind_bind_await {S X Y R : Type} (op : S -> X * S) (k1 : X -> Prog S Y)
    (k2 : Y -> Prog S R) (s : S) :
  step (bind (bind (await op) k1) k2) s = (bind (k1 (fst (op s))) k2, snd (op s)).
Proof. simpl. now destruct (op s). Qed.

Lemma view_thread_step (id : ObjectId) (b : bool) (t : Prog Store Response)
    (db : Store) (a : newsSchema.t) :
  view_thread id b t ->
  article_by_id db id = Some a ->
  newsSchema.status a = published ->
  exists b' a',
    view_thread id b' (fst (step t db))
    /\ article_by_id (snd (step t db)) id = Some a'
    /\ newsSchema.status a' = published
    /\ newsSchema.views a' + Z.b2z b' = newsSchema.views a + Z.b2z b.
Proof.
  intros Ht Ha Hs. pose proof Ha as Ha'. unfold article_by_id in Ha'.
  destruct Ht as [now user | now user a0 Hs0 | a0 | r].
  - exists true, a. unfold newsRoutes.get_one, News.findById.
    rewrite step_bind_await. cbn [fst snd or_default]. rewrite Ha'.
    split; [now constructor | auto].
  - exists false. unfold newsRoutes.serve, newsRoutes.increment_view_count.
    rewrite Hs0. change (String.eqb "true" "true") with true.
    cbn [ContentStatus_eqb andb]. unfold News.findByIdAndUpdate.
    rewrite step_bind_bind_await. cbn [fst snd bind].
    eexists. split; [constructor |]. split; [| split].
    + unfold article_by_id. cbn [news set_news].
      apply (findById_updateById_found newsSchema._id id _ (news db) a Ha').
      simpl. now apply findById_id in Ha'.
    + exact Hs.
    + simpl. lia.
  - exists false, a. unfold newsRoutes.get_related, News.find.
    rewrite step_bind_await. cbn [fst snd].
    split; [constructor | auto].
  - exists false, a. simpl. split; [constructor | auto].
Qed.

Lemma step_nth_nil {S R : Type} (i : nat) (s : S) :
  step_nth i (@nil (Prog S R)) s = ([], s).
Proof. now destruct i. Qed.

(** However two such handlers are interleaved, the stored counter and the
    increments still to come add up to the same number. *)
Lemma view_invariant (id : ObjectId) (sched : list nat) :
  forall (t0 t1 : Prog Store Response) (b0 b1 : bool) (db : Store) (a : newsSchema.t),
  view_thread id b0 t0 ->
  view_thread id b1 t1 ->
  article_by_id db id = Some a ->
  newsSchema.status a = published ->
  exists t0' t1' b0' b1' a',
    run_schedule sched [t0; t1] db = ([t0'; t1'], snd (run_schedule sched [t0; t1] db))
    /\ view_thread id b0' t0'
    /\ view_thread id b1' t1'
    /\ article_by_id (snd (run_schedule sched [t0; t1] db)) id = Some a'
    /\ newsSchema.status a' = published
    /\ newsSchema.views a' + Z.b2z b0' + Z.b2z b1'
       = newsSchema.views a + Z.b2z b0 + Z.b2z b1.
Proof.
  induction sched as [| i sched IH]; intros t0 t1 b0 b1 db a H0 H1 Ha Hs.
  - exists t0, t1, b0, b1, a. simpl. auto 10.
  - cbn [run_schedule].
    destruct i as [| [| i]]; cbn [step_nth].
    + destruct (view_thread_step id b0 t0 db a H0 Ha Hs) as (b' & a' & Ht & Ha' & Hs' & Hv).
      destruct (step t0 db) as [t0' db']. cbn [fst snd] in *.
      destruct (IH t0' t1 b' b1 db' a' Ht H1 Ha' Hs')
        as (u0 & u1 & c0 & c1 & a'' & Hrun & Hu0 & Hu1 & Ha'' & Hs'' & Hv').
      exists u0, u1, c0, c1, a''. repeat split; try assumption. lia.
    + destruct (view_thread_step id b1 t1 db a H1 Ha Hs) as (b' & a' & Ht & Ha' & Hs' & Hv).
      destruct (step t1 db) as [t1' db']. cbn [fst snd] in *.
      destruct (IH t0 t1' b0 b' db' a' H0 Ht Ha' Hs')
        as (u0 & u1 & c0 & c1 & a'' & Hrun & Hu0 & Hu1 & Ha'' & Hs'' & Hv').
      exists u0, u1, c0, c1, a''. repeat split; try assumption. lia.
    + rewrite step_nth_nil.
      destruct (IH t0 t1 b0 b1 db a H0 H1 Ha Hs)
        as (u0 & u1 & c0 & c1 & a'' & Hrun & Hu0 & Hu1 & Ha'' & Hs'' & Hv').
      exists u0, u1, c0, c1, a''. repeat split; assumption.
Qed.

Lemma view_thread_finished (id : ObjectId) (b : bool) (t : Prog Store Response)
    (r : Response) :
  view_thread id b t -> finished t = Some r -> b = false.
Proof.
  intros Ht Hf. destruct Ht as [now user | now user a0 Hs0 | a0 | r0]; try reflexivity.
  - discriminate.
  - unfold newsRoutes.serve, newsRoutes.increment_view_count in Hf.
    rewrite Hs0 in Hf. discriminate.
Qed.

(** C9, on the view counter: the increment is one [$inc] on the stored
    article, so it is never lost.  Two reads of a published article, in any
    interleaving of their store operations: when both handlers have answered,
    the view counter has grown by exactly two. *)
Theorem concurrent_views_both_counted (now1 now2 : Z) (user1 user2 : option ReqUser)
    (id : ObjectId) (db : Store) (a : newsSchema.t) (sched : list nat)
    (r1 r2 : Response) :
  article_by_id db id = Some a ->
  newsSchema.status a = published ->
  let outcome :=
    run_schedule sched
      [newsRoutes.get_one now1 user1 id None; newsRoutes.get_one now2 user2 id None] db in
  map finished (fst outcome) = [Some r1; Some r2] ->
  option_map newsSchema.views (article_by_id (snd outcome) id)
  = Some (newsSchema.views a + 2).
Proof.
  intros Ha Hs outcome Hdone. unfold outcome in *.
  destruct (view_invariant id sched _ _ true true db a
              (view_start id now1 user1) (view_start id now2 user2) Ha Hs)
    as (t0 & t1 & b0 & b1 & a' & Hrun & H0 & H1 & Ha' & Hs' & Hv).
  rewrite Hrun in Hdone. cbn [fst map] in Hdone.
  injection Hdone as Hf0 Hf1.
  rewrite (view_thread_finished id b0 t0 r1 H0 Hf0) in Hv.
  rewrite (view_thread_finished id b1 t1 r2 H1 Hf1) in Hv.
  rewrite Ha'. simpl in *. f_equal. lia.
Qed.

Example concurrent_views_example :
  let outcome :=
    run_schedule [0; 1; 1; 0; 1; 0]%nat
      [newsRoutes.get_one 1000 None 1%N None; newsRoutes.get_one 1001 None 1%N None]
      sample_content in
  map (fun t => option_map code (finished t)) (fst outcome) = [Some 200; Some 200]
  /\ option_map newsSchema.views (article_by_id (snd outcome) 1%N) = Some 2.
Proof. split; reflexivity. Qed.

(** *** The publish timestamp *)

Section PublishFacts.
Context {L : Libs}.
Import newsSchema.

Lemma length_between_non_empty (lo hi : nat) (s : string) :
  (0 < lo)%nat -> length_between lo hi s = true -> non_empty s = true.
Proof.
  unfold length_between. intros Hlo H. apply andb_true_iff in H. destruct H as [H _].
  apply Nat.leb_le in H. destruct s; [simpl in H; lia | reflexivity].
Qed.

Lemma length_between_upper (lo hi : nat) (s : string) :
  length_between lo hi s = true -> (String.length s <=? hi)%nat = true.
Proof. unfold length_between. intro H. now apply andb_true_iff in H. Qed.

Lemma apply_body_fields (b : Body) (a : t) :
  title (apply_body b a) = b_title b
  /\ summary (apply_body b a) = b_summary b
  /\ content (apply_body b a) = b_content b
  /\ category (apply_body b a) = b_category b
  /\ status (apply_body b a) = or_default (status a) (b_status b)
  /\ publishedAt (apply_body b a)
     = match b_publishedAt b with Some x => Some x | None => publishedAt a end
  /\ _id (apply_body b a) = _id a.
Proof.
  unfold apply_body.
  destruct (b_status b), (b_featured b), (b_publishedAt b); simpl; auto 10.
Qed.

(** What the route validators accept, the update validators accept. *)
Lemma validateNews_validate_update (b : Body) :
  newsRoutes.validateNews b = true -> validate_update b = true.
Proof.
  unfold newsRoutes.validateNews, validate_update. intro H.
  do 3 (apply andb_true_iff in H; destruct H as [H ?]).
  destruct (apply_body_fields b defaults) as (Ht & Hs & Hc & Hcat & _).
  unfold validate_path. rewrite Ht, Hs, Hc, Hcat.
  rewrite (length_between_non_empty 5 200 (b_title b)) by (assumption || lia).
  rewrite (length_between_upper 5 200 (b_title b)) by assumption.
  rewrite (length_between_non_empty 10 500 (b_summary b)) by (assumption || lia).
  rewrite (length_between_upper 10 500 (b_summary b)) by assumption.
  replace (non_empty (b_content b)) with true.
  - now rewrite H0.
  - symmetry. destruct (b_content b); [discriminate | reflexivity].
Qed.

(** An update writes the body over the stored article and nothing else: the
    pre-save hook does not run. *)
Lemma put_of_present (now : Z) (caller : option ReqUser) (id : ObjectId) (b : Body)
    (db : Store) (a : t) :
  adminMiddleware caller = None ->
  newsRoutes.validateNews b = true ->
  article_by_id db id = Some a ->
  run (newsRoutes.put now caller id b) db
  = (mkResponse 200 true "Article updated successfully"
       (article_data (set_updatedAt now (apply_body b a)) []),
     set_news (Collection.updateById _id id
                 (fun x => set_updatedAt now (apply_body b x)) (news db)) db)
  /\ article_by_id
       (set_news (Collection.updateById _id id
                    (fun x => set_updatedAt now (apply_body b x)) (news db)) db) id
     = Some (set_updatedAt now (apply_body b a)).
Proof.
  intros Hadmin Hv Ha. unfold newsRoutes.put.
  rewrite Hadmin, Hv, (validateNews_validate_update b Hv). simpl.
  pose proof Ha as Ha'. unfold article_by_id in Ha'.
  assert (Hread : Collection.findById _id id
                    (Collection.updateById _id id
                       (fun x => set_updatedAt now (apply_body b x)) (news db))
                  = Some (set_updatedAt now (apply_body b a))).
  { apply (findById_updateById_found _id id
             (fun x => set_updatedAt now (apply_body b x)) (news db) a Ha').
    simpl. destruct (apply_body_fields b a) as (_ & _ & _ & _ & _ & _ & Hid).
    rewrite Hid. now apply findById_id in Ha'. }
  rewrite Hread. split; [reflexivity | exact Hread].
Qed.

End PublishFacts.

(** C1, on the update path.  [PUT /api/news/:id] with a body that sets the
    status and carries no [publishedAt] leaves the stored [publishedAt] as it
    was: publishing a draft by an update stores status published with no
    publish timestamp, and unpublishing keeps the timestamp. *)
Theorem update_leaves_publishedAt (L : Libs) (now : Z) (caller : option ReqUser)
    (id : ObjectId) (b : newsSchema.Body) (db : Store) (a : newsSchema.t)
    (st : ContentStatus) :
  adminMiddleware caller = None ->
  newsRoutes.validateNews b = true ->
  newsSchema.b_status b = Some st ->
  newsSchema.b_publishedAt b = None ->
  article_by_id db id = Some a ->
  code (fst (run (newsRoutes.put now caller id b) db)) = 200
  /\ exists a',
       article_by_id (snd (run (newsRoutes.put now caller id b) db)) id = Some a'
       /\ newsSchema.status a' = st
       /\ newsSchema.publishedAt a' = newsSchema.publishedAt a.
Proof.
  intros Hadmin Hv Hst Hpub Ha.
  destruct (put_of_present now caller id b db a Hadmin Hv Ha) as [Hrun Hread].
  rewrite Hrun. cbn [fst snd code]. split; [reflexivity |].
  eexists. split; [exact Hread |].
  destruct (apply_body_fields b a) as (_ & _ & _ & _ & Hs & Hp & _).
  simpl. rewrite Hs, Hp, Hst, Hpub. split; reflexivity.
Qed.

Lemma update_leaves_publishedAt_witness :
  code (fst (run (newsRoutes.put 2000 (Some (mkReqUser 7%N role_admin)) 1%N
                    (sample_body (Some published)))
                 (mkStore [] [sample_article draft None 0] []))) = 200
  /\ exists a',
       article_by_id
         (snd (run (newsRoutes.put 2000 (Some (mkReqUser 7%N role_admin)) 1%N
                      (sample_body (Some published)))
                   (mkStore [] [sample_article draft None 0] []))) 1%N = Some a'
       /\ newsSchema.status a' = published
       /\ newsSchema.publishedAt a' = newsSchema.publishedAt (sample_article draft None 0).
Proof.
  apply (update_leaves_publishedAt sample_libs 2000 (Some (mkReqUser 7%N role_admin)) 1%N
           (sample_body (Some published)) (mkStore [] [sample_article draft None 0] [])
           (sample_article draft None 0) published); reflexivity.
Defined.

(** *** The create path *)

Section CreateFacts.
Context {L : Libs}.
Import newsSchema.

Lemma pre_save_isNew (now : Z) (d : doc) : isNew (pre_save now d) = isNew d.
Proof.
  unfold pre_save.
  repeat match goal with |- context [if ?c then _ else _] => destruct c end;
    reflexivity.
Qed.

(** Saving a new article that passes validation inserts what the pre-save
    hook leaves, under a new identifier. *)
Lemma save_new (now : Z) (d : doc) (db : Store) :
  isNew d = true ->
  validate d = true ->
  let a := set_updatedAt now (set_createdAt now
             (set__id (Collection.fresh_id _id (news db)) (this (pre_save now d)))) in
  run (News.save now d) db
  = (Some (mkDocument a false []), set_news (news db ++ [a])%list db).
Proof.
  intros Hnew Hv a. unfold News.save. rewrite Hv. cbn [negb]. rewrite run_await.
  now rewrite pre_save_isNew, Hnew.
Qed.

Lemma construct_isNew (b : Body) (creator : ObjectId) : isNew (construct b creator) = true.
Proof.
  unfold construct, write_opt.
  destruct (b_status b), (b_featured b), (b_publishedAt b); reflexivity.
Qed.

(** The hook on a document under construction whose body carries no
    [publishedAt]. *)
Lemma pre_save_construct (now : Z) (b : Body) (creator : ObjectId) :
  b_publishedAt b = None ->
  status (this (pre_save now (construct b creator))) = or_default draft (b_status b)
  /\ publishedAt (this (pre_save now (construct b creator)))
     = match or_default draft (b_status b) with
       | published => Some now
       | draft => None
       end.
Proof.
  intro Hpub. unfold construct, write_opt. rewrite Hpub.
  destruct (b_status b) as [[|] |], (b_featured b); split; reflexivity.
Qed.

Lemma validate_construct (b : Body) (creator : ObjectId) :
  newsRoutes.validateNews b = true -> validate (construct b creator) = true.
Proof.
  intro Hv. pose proof (validateNews_validate_update b Hv) as Hu.
  unfold validate_update in Hu.
  do 3 (apply andb_true_iff in Hu; destruct Hu as [Hu ?]).
  destruct (apply_body_fields b defaults) as (Ht & Hs & Hc & Hcat & _).
  unfold validate_path in *. rewrite Ht in Hu. rewrite Hs in H1.
  rewrite Hc in H0. rewrite Hcat in H.
  unfold validate, construct, write_opt.
  destruct (b_status b), (b_featured b), (b_publishedAt b);
    cbn -[string_in non_empty String.length Nat.leb];
    now rewrite Hu, H1, H0, H.
Qed.

End CreateFacts.

(** On the create path the pre-save hook runs: a new article whose body
    carries no [publishedAt] has a publish timestamp exactly when it is
    created published. *)
Lemma create_sets_publishedAt (L : Libs) (now : Z) (caller : ReqUser)
    (b : newsSchema.Body) (db : Store) :
  adminMiddleware (Some caller) = None ->
  newsRoutes.validateNews b = true ->
  newsSchema.b_publishedAt b = None ->
  exists a,
    fst (run (newsRoutes.post now (Some caller) b) db)
    = mkResponse 201 true "Article created successfully" (article_data a [])
    /\ In a (news (snd (run (newsRoutes.post now (Some caller) b) db)))
    /\ newsSchema.status a = or_default draft (newsSchema.b_status b)
    /\ newsSchema.publishedAt a
       = match newsSchema.status a with published => Some now | draft => None end.
Proof.
  intros Hadmin Hv Hpub. unfold newsRoutes.post. rewrite Hadmin, Hv. cbn [negb].
  rewrite run_bind.
  rewrite (save_new now _ db (construct_isNew b (userId caller))
             (validate_construct b (userId caller) Hv)).
  destruct (pre_save_construct now b (userId caller) Hpub) as [Hs Hp].
  eexists. split; [reflexivity |]. split.
  - cbn [run snd news set_news]. apply in_or_app. right. left. reflexivity.
  - cbn [this newsSchema.status newsSchema.publishedAt newsSchema.set_updatedAt
         newsSchema.set_createdAt newsSchema.set__id].
    rewrite Hs, Hp. split; reflexivity.
Qed.

(** ** Listing *)

Section ListingFacts.
Context {D : Type}.

Lemma In_insert_by (le : D -> D -> bool) (x y : D) (l : list D) :
  In y (insert_by le x l) -> y = x \/ In y l.
Proof.
  induction l as [| z l IH]; simpl.
  - intros [H | []]. now left.
  - destruct (le x z); simpl.
    + intros [H | H]; [now left | now right].
    + intros [H | H]; [right; now left |].
      destruct (IH H) as [H' | H']; [now left | right; now right].
Qed.

Lemma In_sort_by (le : D -> D -> bool) (y : D) (l : list D) :
  In y (sort_by le l) -> In y l.
Proof.
  unfold sort_by. induction l as [| x l IH]; simpl; [auto |].
  intro H. apply In_insert_by in H. destruct H as [H | H]; [now left | right; auto].
Qed.

Lemma In_firstn (n : nat) (l : list D) (y : D) : In y (firstn n l) -> In y l.
Proof.
  revert l. induction n as [| n IH]; intros [| x l]; simpl; try contradiction.
  intros [H | H]; [now left | right; now apply IH].
Qed.

Lemma In_skipn (n : nat) (l : list D) (y : D) : In y (skipn n l) -> In y l.
Proof.
  revert l. induction n as [| n IH]; intros [| x l]; simpl; try contradiction; auto.
Qed.

(** A page holds only documents of the collection that match the filter. *)
Lemma In_find_page (matches : D -> bool) (le : D -> D -> bool) (skip limit : Z)
    (c : list D) (y : D) :
  In y (find_page matches le skip limit c) -> In y c /\ matches y = true.
Proof.
  unfold find_page. intro H.
  apply In_firstn in H. apply In_skipn in H. apply In_sort_by in H.
  now apply filter_In in H.
Qed.

End ListingFacts.

Section ListFacts.
Context {L : Libs}.

Lemma build_query_public (user : option ReqUser) (q : ListQuery) :
  without_admin_privileges user -> f_status (build_query user q) = Some "published"%string.
Proof.
  unfold build_query. destruct user as [u |]; simpl; [| reflexivity].
  intros [Hna _]. destruct (req_role u); simpl; congruence.
Qed.

Lemma status_of_string_published (s : ContentStatus) :
  String.eqb (status_string s) "published" = true -> s = published.
Proof. destruct s; [reflexivity | discriminate]. Qed.

(** For a caller without admin privileges, whatever status the query asks
    for, [GET /api/news] returns only published articles and counts only
    published articles. *)
Lemma news_list_public (user : option ReqUser) (q : ListQuery) (db : Store) :
  without_admin_privileges user ->
  validateQuery newsSchema.categories q = true ->
  exists articles pages,
    run (newsRoutes.get_list user q) db
    = (mkResponse 200 true "" (articles_data articles pages), db)
    /\ Forall (fun a => In a (news db) /\ newsSchema.status a = published) articles
    /\ total pages
       = Collection.countDocuments
           (fun a => ContentStatus_eqb (newsSchema.status a) published
                     && News.matches (build_query user q) a) (news db).
Proof.
  intros Hpub Hv. unfold newsRoutes.get_list. rewrite Hv. simpl.
  eexists. eexists. split; [reflexivity |].
  pose proof (build_query_public user q Hpub) as Hst. split.
  - apply Forall_forall. intros a Ha. apply In_find_page in Ha. destruct Ha as [Hin Hm].
    split; [exact Hin |]. unfold News.matches in Hm. rewrite Hst in Hm. cbn [holds] in Hm.
    do 3 (apply andb_true_iff in Hm; destruct Hm as [Hm ?]).
    now apply status_of_string_published.
  - simpl. unfold Collection.countDocuments. do 2 f_equal.
    apply filter_ext. intro a. unfold News.matches. rewrite Hst. cbn [holds].
    destruct (newsSchema.status a); reflexivity.
Qed.

Lemma videos_list_public (user : option ReqUser) (q : ListQuery) (db : Store) :
  without_admin_privileges user ->
  validateQuery videoSchema.categories q = true ->
  exists found pages,
    run (videosRoutes.get_list user q) db
    = (mkResponse 200 true "" (videos_data found pages), db)
    /\ Forall (fun v => In v (videos db) /\ videoSchema.status v = published) found
    /\ total pages
       = Collection.countDocuments
           (fun v => ContentStatus_eqb (videoSchema.status v) published
                     && Video.matches (build_query user q) v) (videos db).
Proof.
  intros Hpub Hv. unfold videosRoutes.get_list. rewrite Hv. simpl.
  eexists. eexists. split; [reflexivity |].
  pose proof (build_query_public user q Hpub) as Hst. split.
  - apply Forall_forall. intros a Ha. apply In_find_page in Ha. destruct Ha as [Hin Hm].
    split; [exact Hin |]. unfold Video.matches in Hm. rewrite Hst in Hm. cbn [holds] in Hm.
    do 3 (apply andb_true_iff in Hm; destruct Hm as [Hm ?]).
    now apply status_of_string_published.
  - simpl. unfold Collection.countDocuments. do 2 f_equal.
    apply filter_ext. intro a. unfold Video.matches. rewrite Hst. cbn [holds].
    destruct (videoSchema.status a); reflexivity.
Qed.

(** An admin selects the status the query names. *)
Lemma build_query_admin (u : ReqUser) (q : ListQuery) (s : string) :
  req_role u = role_admin ->
  q_status q = Some s -> non_empty s = true ->
  f_status (build_query (Some u) q) = Some s.
Proof.
  intros Hr Hq Hs. unfold build_query. rewrite Hr, Hq. simpl. now rewrite Hs.
Qed.

End ListFacts.

(** C4, for a super admin.  The list routes compare the role with ['admin']
    alone, so a super admin is served as an anonymous caller is: the status
    filter is forced to published, whatever status the query names. *)
Theorem super_admin_listed_as_public (L : Libs) (caller : ReqUser) (q : ListQuery)
    (db : Store) :
  req_role caller = role_super_admin ->
  f_status (build_query (Some caller) q) = Some "published"%string
  /\ run (newsRoutes.get_list (Some caller) q) db = run (newsRoutes.get_list None q) db
  /\ run (videosRoutes.get_list (Some caller) q) db
     = run (videosRoutes.get_list None q) db.
Proof.
  intro Hr.
  assert (Hq : build_query (Some caller) q = build_query None q).
  { unfold build_query. now rewrite Hr. }
  split; [| split].
  - rewrite Hq. reflexivity.
  - unfold newsRoutes.get_list. now rewrite Hq.
  - unfold videosRoutes.get_list. now rewrite Hq.
Qed.

Lemma super_admin_listed_as_public_witness :
  f_status (build_query (Some (mkReqUser 8%N role_super_admin)) drafts_query)
  = Some "published"%string
  /\ run (newsRoutes.get_list (L := sample_libs) (Some (mkReqUser 8%N role_super_admin))
            drafts_query) (mkStore [] [sample_article draft None 0] [])
     = run (newsRoutes.get_list (L := sample_libs) None drafts_query)
           (mkStore [] [sample_article draft None 0] [])
  /\ run (videosRoutes.get_list (L := sample_libs) (Some (mkReqUser 8%N role_super_admin))
            drafts_query) (mkStore [] [sample_article draft None 0] [])
     = run (videosRoutes.get_list (L := sample_libs) None drafts_query)
           (mkStore [] [sample_article draft None 0] []).
Proof.
  apply (super_admin_listed_as_public sample_libs (mkReqUser 8%N role_super_admin)
           drafts_query (mkStore [] [sample_article draft None 0] [])).
  reflexivity.
Defined.

(** The same query for drafts: an admin is given the draft, a super admin an
    empty page. *)
Example drafts_for_admin_not_for_super_admin :
  data (fst (run (newsRoutes.get_list (L := sample_libs) (Some (mkReqUser 7%N role_admin))
                    drafts_query) (mkStore [] [sample_article draft None 0] [])))
  = articles_data [sample_article draft None 0] (pagination 1 10 1)
  /\ data (fst (run (newsRoutes.get_list (L := sample_libs)
                       (Some (mkReqUser 8%N role_super_admin)) drafts_query)
                    (mkStore [] [sample_article draft None 0] [])))
     = articles_data [] (pagination 1 10 0).
Proof. split; reflexivity. Qed.

(** ** The identifier of a video *)

Example extractYouTubeId_watch :
  extractYouTubeId "https://www.youtube.com/watch?v=dQw4w9WgXcQ&t=42"
  = Some "dQw4w9WgXcQ"%string.
Proof. reflexivity. Qed.

Example extractYouTubeId_short :
  extractYouTubeId "https://youtu.be/dQw4w9WgXcQ" = Some "dQw4w9WgXcQ"%string.
Proof. reflexivity. Qed.

Example extractYouTubeId_embed :
  extractYouTubeId "https://www.youtube.com/embed/dQw4w9WgXcQ?rel=0"
  = Some "dQw4w9WgXcQ"%string.
Proof. reflexivity. Qed.

Example extractYouTubeId_late_v :
  extractYouTubeId "https://youtube.com/watch?feature=share&v=abc&v=xyz"
  = Some "xyz"%string.
Proof. reflexivity. Qed.

Example extractYouTubeId_none :
  extractYouTubeId "https://example.com/watch" = None.
Proof. reflexivity. Qed.

(** ** The YouTube identifier of a URL *)

Section ExtractFacts.

Lemma take_while_forallb (p : ascii -> bool) (s : string) :
  string_forallb p (take_while p s) = true.
Proof.
  induction s as [| c s IH]; simpl; [reflexivity |].
  destruct (p c) eqn:Hc; simpl; [now rewrite Hc | reflexivity].
Qed.

Lemma capture_spec (s r : string) :
  capture s = Some r -> non_empty r = true /\ string_forallb id_char r = true.
Proof.
  unfold capture. destruct (non_empty (take_while id_char s)) eqn:Hn; [| discriminate].
  intro H. injection H as <-. split; [exact Hn | apply take_while_forallb].
Qed.

Lemma search_spec (m : string -> option string) (s r : string) :
  search m s = Some r -> exists s', m s' = Some r.
Proof.
  induction s as [| c s IH]; simpl.
  - destruct (m "") eqn:Hm; [| discriminate]. intro H. injection H as <-. now exists "".
  - destruct (m (String c s)) eqn:Hm.
    + intro H. injection H as <-. now exists (String c s).
    + exact IH.
Qed.

Lemma pattern1_here_spec (s r : string) :
  pattern1_here s = Some r -> exists rest, capture rest = Some r.
Proof.
  unfold pattern1_here, or_else.
  destruct (strip_prefix "youtube.com/watch?v=" s) as [r1 |] eqn:H1.
  - destruct (capture r1) eqn:Hc1.
    + intro H. injection H as <-. now exists r1.
    + destruct (strip_prefix "youtu.be/" s) as [r2 |].
      * destruct (capture r2) eqn:Hc2.
        -- intro H. injection H as <-. now exists r2.
        -- destruct (strip_prefix "youtube.com/embed/" s) as [r3 |]; [| discriminate].
           intro H. now exists r3.
      * destruct (strip_prefix "youtube.com/embed/" s) as [r3 |]; [| discriminate].
        intro H. now exists r3.
  - destruct (strip_prefix "youtu.be/" s) as [r2 |].
    + destruct (capture r2) eqn:Hc2.
      * intro H. injection H as <-. now exists r2.
      * destruct (strip_prefix "youtube.com/embed/" s) as [r3 |]; [| discriminate].
        intro H. now exists r3.
    + destruct (strip_prefix "youtube.com/embed/" s) as [r3 |]; [| discriminate].
      intro H. now exists r3.
Qed.

Lemma last_v_spec (s r : string) :
  last_v s = Some r -> exists rest, capture rest = Some r.
Proof.
  induction s as [| c s IH]; cbn [last_v].
  - destruct (strip_prefix "v=" "") as [rest |]; [| discriminate]. intro H. now exists rest.
  - assert (Hhere : match strip_prefix "v=" (String c s) with
                    | Some rest => capture rest
                    | None => None
                    end = Some r -> exists rest, capture rest = Some r).
    { destruct (strip_prefix "v=" (String c s)) as [rest |]; [| discriminate].
      intro H. now exists rest. }
    destruct (line_terminator c); [exact Hhere |].
    unfold or_else. destruct (last_v s) as [r' |].
    + intro H. injection H as <-. now apply IH.
    + exact Hhere.
Qed.

Lemma pattern2_here_spec (s r : string) :
  pattern2_here s = Some r -> exists rest, capture rest = Some r.
Proof.
  unfold pattern2_here. destruct (strip_prefix "youtube.com/watch?" s) as [rest |];
    [apply last_v_spec | discriminate].
Qed.

Lemma string_prefix_app (pre s : string) :
  String.prefix pre s = true -> s = pre ++ drop (String.length pre) s.
Proof.
  revert s. induction pre as [| a pre IH]; intros s H.
  - reflexivity.
  - destruct s as [| b s]; simpl in H; [discriminate |].
    destruct (ascii_dec a b) as [-> | _]; [| discriminate].
    simpl. f_equal. now apply IH.
Qed.

Lemma strip_prefix_some (pre s r : string) :
  strip_prefix pre s = Some r -> s = pre ++ r.
Proof.
  unfold strip_prefix. destruct (String.prefix pre s) eqn:Hp; [| discriminate].
  intro H. injection H as <-. now apply string_prefix_app.
Qed.

Lemma search_here (m : string -> option string) (s r : string) :
  m s = Some r -> search m s = Some r.
Proof. intro H. destruct s; simpl; now rewrite H. Qed.

Lemma search_app (m : string -> option string) (pre s r : string) :
  search m s = Some r -> exists r', search m (pre ++ s) = Some r'.
Proof.
  intro H. induction pre as [| c pre IH]; simpl.
  - now exists r.
  - destruct (m (String c (pre ++ s))) as [r' |]; [now exists r' | exact IH].
Qed.

Lemma word_or_hyphen_id_char (c : ascii) : word_or_hyphen c = true -> id_char c = true.
Proof.
  destruct c as [[] [] [] [] [] [] [] []]; vm_compute; intro H;
    reflexivity || discriminate H.
Qed.

Lemma capture_word (c : ascii) (s : string) :
  word_or_hyphen c = true -> exists r, capture (String c s) = Some r.
Proof.
  intro H. unfold capture. cbn [take_while]. rewrite (word_or_hyphen_id_char c H).
  eexists. reflexivity.
Qed.

Lemma append_assoc (a b c : string) : (a ++ b) ++ c = a ++ (b ++ c).
Proof. induction a; simpl; [reflexivity | now f_equal]. Qed.

(** The host alternatives of the validator's pattern are alternatives of
    the first pattern of [extractYouTubeId]. *)
Lemma host_pattern1 (r : string) :
  match or_else (strip_prefix "youtube.com/watch?v=" r)
                (or_else (strip_prefix "youtube.com/embed/" r)
                         (strip_prefix "youtu.be/" r)) with
  | Some (String c _) => word_or_hyphen c
  | _ => false
  end = true ->
  exists id, pattern1_here r = Some id.
Proof.
  unfold pattern1_here, or_else.
  destruct (strip_prefix "youtube.com/watch?v=" r) as [x |] eqn:H1.
  - destruct x as [| c x]; [discriminate |]. intro H.
    destruct (capture_word c x H) as [id ->]. now exists id.
  - destruct (strip_prefix "youtube.com/embed/" r) as [x |] eqn:H2.
    + destruct x as [| c x]; [discriminate |]. intro H.
      destruct (strip_prefix "youtu.be/" r) as [y |] eqn:H3.
      * apply strip_prefix_some in H2. apply strip_prefix_some in H3.
        rewrite H2 in H3. discriminate H3.
      * destruct (capture_word c x H) as [id ->]. now exists id.
    + destruct (strip_prefix "youtu.be/" r) as [x |] eqn:H3; [| discriminate].
      destruct x as [| c x]; [discriminate |]. intro H.
      destruct (capture_word c x H) as [id ->]. now exists id.
Qed.

End ExtractFacts.

(** X1.  Whatever [extractYouTubeId] returns is a non-empty string without
    any of the delimiters [&], line feed, [?] and [#]. *)
Theorem extractYouTubeId_identifier (url id : string) :
  extractYouTubeId url = Some id ->
  non_empty id = true /\ string_forallb id_char id = true.
Proof.
  unfold extractYouTubeId, or_else. intro H.
  assert (Hc : exists rest, capture rest = Some id).
  { destruct (search pattern1_here url) as [r |] eqn:H1.
    - injection H as ->. destruct (search_spec _ _ _ H1) as [s' Hs'].
      now apply pattern1_here_spec with s'.
    - destruct (search_spec _ _ _ H) as [s' Hs'].
      now apply pattern2_here_spec with s'. }
  destruct Hc as [rest Hc]. now apply capture_spec with rest.
Qed.

Lemma extractYouTubeId_identifier_witness :
  extractYouTubeId "https://www.youtube.com/watch?v=dQw4w9WgXcQ&t=42" = Some "dQw4w9WgXcQ"
  /\ non_empty "dQw4w9WgXcQ" = true /\ string_forallb id_char "dQw4w9WgXcQ" = true.
Proof.
  split; [reflexivity |].
  apply (extractYouTubeId_identifier "https://www.youtube.com/watch?v=dQw4w9WgXcQ&t=42").
  reflexivity.
Defined.

(** X2.  A URL that the pattern of [validateVideo] (and of the schema)
    accepts always has an identifier for [extractYouTubeId]: after
    validation, the answer "Invalid YouTube URL" of the create and update
    routes cannot occur. *)
Theorem validated_url_has_identifier (url : string) :
  youtubeUrl_regex url = true -> exists id, extractYouTubeId url = Some id.
Proof.
  unfold youtubeUrl_regex. intro H.
  destruct (or_else (strip_prefix "https://" url) (strip_prefix "http://" url))
    as [r0 |] eqn:Hscheme; [| discriminate].
  assert (Hr0 : exists pre, url = pre ++ r0).
  { unfold or_else in Hscheme.
    destruct (strip_prefix "https://" url) as [x |] eqn:H1.
    - injection Hscheme as <-. exists "https://". now apply strip_prefix_some.
    - exists "http://". now apply strip_prefix_some. }
  clear Hscheme. destruct Hr0 as [pre ->].
  destruct (strip_prefix "www." r0) as [r |] eqn:Hw.
  - apply strip_prefix_some in Hw. subst r0.
    destruct (host_pattern1 r H) as [id Hid].
    destruct (search_app pattern1_here (pre ++ "www.") r id (search_here _ _ _ Hid))
      as [id' Hid'].
    exists id'. unfold extractYouTubeId. rewrite <- append_assoc. now rewrite Hid'.
  - destruct (host_pattern1 r0 H) as [id Hid].
    destruct (search_app pattern1_here pre r0 id (search_here _ _ _ Hid)) as [id' Hid'].
    exists id'. unfold extractYouTubeId. now rewrite Hid'.
Qed.

Lemma validated_url_has_identifier_witness :
  exists id, extractYouTubeId "http://youtu.be/abc" = Some id.
Proof. apply validated_url_has_identifier. reflexivity. Defined.

(** ** Reading, deleting and creating one item *)

Section MoreCollectionFacts.
Context {D : Type} (id_of : D -> ObjectId).


(** What an update by [_id] leaves of the other documents. *)
Lemma In_updateById_other (i : ObjectId) (f : D -> D) (c : list D) (x : D) :
  (forall d, id_of (f d) = id_of d) ->
  In x (Collection.updateById id_of i f c) -> id_of x <> i -> In x c.
Proof.
  intros Hid. unfold Collection.updateById.
  induction c as [| d c IH]; simpl; [auto |].
  destruct (N.eqb (id_of d) i) eqn:E; simpl.
  - intros [<- | Hin] Hne; [| auto].
    exfalso. apply Hne. rewrite Hid. now apply N.eqb_eq.
  - intros [<- | Hin] Hne; auto.
Qed.

Lemma findById_deleteFirst_other (i j : ObjectId) (c : list D) :
  j <> i ->
  Collection.findById id_of j (Collection.deleteFirst (fun d => N.eqb (id_of d) i) c)
  = Collection.findById id_of j c.
Proof.
  intro Hij. unfold Collection.findById, Collection.findOne.
  induction c as [| d c IH]; simpl; [reflexivity |].
  destruct (N.eqb (id_of d) i) eqn:E; simpl.
  - apply N.eqb_eq in E. rewrite E.
    destruct (N.eqb i j) eqn:E'; [apply N.eqb_eq in E'; congruence | reflexivity].
  - destruct (N.eqb (id_of d) j); [reflexivity | exact IH].
Qed.

Lemma deleteFirst_absent (i : ObjectId) (c : list D) :
  Collection.findById id_of i c = None ->
  Collection.deleteFirst (fun d => N.eqb (id_of d) i) c = c.
Proof.
  unfold Collection.findById, Collection.findOne.
  induction c as [| d c IH]; simpl; [reflexivity |].
  destruct (N.eqb (id_of d) i); [discriminate |].
  intro H. now rewrite IH.
Qed.

(** With unique identifiers, the deleted document is gone. *)
Lemma findById_deleteFirst (i : ObjectId) (c : list D) :
  NoDup (map id_of c) ->
  Collection.findById id_of i (Collection.deleteFirst (fun d => N.eqb (id_of d) i) c)
  = None.
Proof.
  unfold Collection.findById, Collection.findOne.
  induction c as [| d c IH]; simpl; [reflexivity |].
  intro Hnd. inversion Hnd as [| ? ? Hnotin Hnd']; subst.
  destruct (N.eqb (id_of d) i) eqn:E; simpl.
  - destruct (find (fun d0 => N.eqb (id_of d0) i) c) as [x |] eqn:Hx; [| reflexivity].
    exfalso. apply find_some in Hx. destruct Hx as [Hin Hx].
    apply N.eqb_eq in Hx. apply N.eqb_eq in E. apply Hnotin. rewrite E, <- Hx.
    now apply in_map.
  - rewrite E. now apply IH.
Qed.

Lemma find_append (p : D -> bool) (l1 l2 : list D) :
  find p (l1 ++ l2)%list
  = match find p l1 with
    | Some x => Some x
    | None => find p l2
    end.
Proof.
  induction l1 as [| x l1 IH]; simpl; [reflexivity |].
  destruct (p x); [reflexivity | exact IH].
Qed.

Lemma fresh_id_above (c : list D) (d : D) :
  In d c -> (id_of d < Collection.fresh_id id_of c)%N.
Proof.
  unfold Collection.fresh_id. induction c as [| x c IH]; simpl; [contradiction |].
  intros [-> | H]; [lia |]. specialize (IH H). lia.
Qed.

(** A document inserted under a fresh identifier is the one a read by that
    identifier finds, and the reads of the other identifiers are as before. *)
Lemma findById_insert_fresh (c : list D) (d : D) (j : ObjectId) :
  id_of d = Collection.fresh_id id_of c ->
  Collection.findById id_of j (c ++ [d])%list
  = if N.eqb j (id_of d) then Some d else Collection.findById id_of j c.
Proof.
  intro Hd. unfold Collection.findById, Collection.findOne.
  destruct (find (fun x => N.eqb (id_of x) j) c) as [x |] eqn:Hx.
  - rewrite find_append, Hx.
    apply find_some in Hx. destruct Hx as [Hin Hx]. apply N.eqb_eq in Hx.
    pose proof (fresh_id_above c x Hin) as Hlt.
    destruct (N.eqb j (id_of d)) eqn:E; [| reflexivity].
    apply N.eqb_eq in E. lia.
  - rewrite find_append, Hx. simpl. rewrite N.eqb_sym.
    now destruct (N.eqb j (id_of d)).
Qed.

End MoreCollectionFacts.

Section PageFacts.
Context {D : Type}.

Lemma length_insert_by (le : D -> D -> bool) (x : D) (l : list D) :
  List.length (insert_by le x l) = S (List.length l).
Proof.
  induction l as [| y l IH]; simpl; [reflexivity |].
  destruct (le x y); simpl; [reflexivity | now rewrite IH].
Qed.

Lemma length_sort_by (le : D -> D -> bool) (l : list D) :
  List.length (sort_by le l) = List.length l.
Proof.
  unfold sort_by. induction l as [| x l IH]; simpl; [reflexivity |].
  now rewrite length_insert_by, IH.
Qed.

Lemma length_find_page (matches : D -> bool) (le : D -> D -> bool) (skip limit : Z)
    (c : list D) :
  (List.length (find_page matches le skip limit c) <= Z.to_nat limit)%nat.
Proof. unfold find_page. rewrite length_firstn. lia. Qed.

End PageFacts.

Section ReadFacts.
Import newsSchema.

Lemma run_news_findById (id : ObjectId) (db : Store) :
  run (News.findById id) db = (article_by_id db id, db).
Proof. unfold News.findById. now rewrite run_await. Qed.

Lemma run_news_find (p : t -> bool) (le : t -> t -> bool) (skip limit : Z) (db : Store) :
  run (News.find p le skip limit) db = (find_page p le skip limit (news db), db).
Proof. unfold News.find. now rewrite run_await. Qed.

Lemma run_news_get_related (id : ObjectId) (a : t) (db : Store) :
  exists related,
    run (newsRoutes.get_related id a) db
    = (mkResponse 200 true "" (article_data a related), db)
    /\ (List.length related <= 5)%nat
    /\ forall x, In x related ->
         In x (news db) /\ _id x <> id /\ category x = category a /\ status x = published.
Proof.
  unfold newsRoutes.get_related. rewrite run_bind, run_news_find.
  eexists. split; [reflexivity |]. split.
  - apply (length_find_page _ _ 0 5).
  - intros x Hx. apply In_find_page in Hx. destruct Hx as [Hin Hm].
    apply andb_true_iff in Hm. destruct Hm as [Hm Hs].
    apply andb_true_iff in Hm. destruct Hm as [Hid Hc].
    repeat split.
    + exact Hin.
    + intro E. rewrite E, N.eqb_refl in Hid. discriminate.
    + now apply String.eqb_eq.
    + now destruct (status x).
Qed.

Lemma run_news_inc_views (now : Z) (id : ObjectId) (db : Store) :
  snd (run (News.findByIdAndUpdate now id (inc_views 1)) db)
  = set_news (Collection.updateById _id id
                (fun a => set_updatedAt now (inc_views 1 a)) (news db)) db.
Proof. unfold News.findByIdAndUpdate. now rewrite run_await. Qed.

End ReadFacts.



(** X4.  The related articles of an answer of [GET /api/news/:id] are at
    most five, and each is a published article of the category of the
    article read, other than the article asked for. *)
Theorem related_articles_are_published (L : Libs) (now : Z) (user : option ReqUser)
    (param : string) (increment_view : option string) (db : Store)
    (a : newsSchema.t) (related : list newsSchema.t) :
  fst (run (newsRequests.get_one now user param increment_view) db)
  = mkResponse 200 true "" (article_data a related) ->
  exists id,
    castObjectId param = Some id
    /\ (List.length related <= 5)%nat
    /\ forall x, In x related ->
         In x (news db)
         /\ newsSchema._id x <> id
         /\ newsSchema.category x = newsSchema.category a
         /\ newsSchema.status x = published.
Proof.
  unfold newsRequests.get_one.
  destruct (castObjectId param) as [id |]; [| discriminate].
  unfold newsRoutes.get_one. rewrite run_bind, run_news_findById.
  destruct (article_by_id db id) as [a0 |]; [| discriminate].
  unfold newsRoutes.serve.
  destruct (ContentStatus_eqb (newsSchema.status a0) draft && newsRoutes.is_not_admin user);
    [discriminate |].
  rewrite run_bind.
  destruct (run (newsRoutes.increment_view_count now id
                   (or_default "true" increment_view) a0) db) as [a1 db'] eqn:Hinc.
  assert (Hnews : forall x, In x (news db') -> newsSchema.status x = published ->
                            newsSchema._id x <> id -> In x (news db)).
  { unfold newsRoutes.increment_view_count in Hinc.
    destruct (String.eqb (or_default "true" increment_view) "true"
              && ContentStatus_eqb (newsSchema.status a0) published).
    - rewrite run_bind in Hinc.
      pose proof (run_news_inc_views now id db) as Hs.
      destruct (run (News.findByIdAndUpdate now id (newsSchema.inc_views 1)) db)
        as [y db''].
      cbn [snd] in Hs. cbn [run] in Hinc. injection Hinc as _ <-. subst db''.
      cbn [news set_news]. intros x Hx _ Hne.
      eapply In_updateById_other; [| exact Hx | exact Hne]. reflexivity.
    - cbn [run] in Hinc. injection Hinc as _ <-. auto. }
  destruct (run_news_get_related id a1 db') as (rel & Hr & Hlen & Hrel).
  rewrite Hr. cbn [fst]. intro H. injection H as <- <-.
  exists id. split; [reflexivity |]. split; [exact Hlen |].
  intros x Hx. destruct (Hrel x Hx) as (Hin & H1 & H2 & H3).
  repeat split; auto.
Qed.

Lemma related_articles_are_published_witness :
  exists id,
    castObjectId (Libs := sample_libs) "000000000000000000000001" = Some id
    /\ (List.length [sample_sports_second] <= 5)%nat
    /\ forall x, In x [sample_sports_second] ->
         In x (news sample_newsroom)
         /\ newsSchema._id x <> id
         /\ newsSchema.category x = newsSchema.category (sample_sports_first 1)
         /\ newsSchema.status x = published.
Proof.
  apply (related_articles_are_published sample_libs 1000 None
           "000000000000000000000001" None sample_newsroom).
  reflexivity.
Defined.

Section DeleteFacts.

Lemma run_news_findByIdAndDelete (id : ObjectId) (db : Store) :
  run (News.findByIdAndDelete id) db
  = (article_by_id db id,
     set_news (Collection.deleteFirst (fun a => N.eqb (newsSchema._id a) id) (news db)) db).
Proof. unfold News.findByIdAndDelete. now rewrite run_await. Qed.

End DeleteFacts.

(** X5.  [DELETE /api/news/:id] by a caller the admin middleware lets
    through: an [:id] that is no identifier is answered 500 and an unknown
    identifier 404, and neither changes anything; otherwise the article is
    removed, the other articles and collections are untouched, and a later
    read of the same [:id] is answered 404. *)
Theorem delete_removes_article (L : Libs) (user : option ReqUser) (param : string)
    (db : Store) (now : Z) (reader : option ReqUser) (increment_view : option string) :
  adminMiddleware user = None ->
  NoDup (map newsSchema._id (news db)) ->
  let r := run (newsRequests.delete user param) db in
  match castObjectId param with
  | None => r = (failure 500 "Failed to delete article", db)
  | Some id =>
      match article_by_id db id with
      | None => r = (failure 404 "Article not found", db)
      | Some _ =>
          fst r = mkResponse 200 true "Article deleted successfully" (deleted_data id)
          /\ article_by_id (snd r) id = None
          /\ (forall j, j <> id -> article_by_id (snd r) j = article_by_id db j)
          /\ users (snd r) = users db /\ videos (snd r) = videos db
          /\ run (newsRequests.get_one now reader param increment_view) (snd r)
             = (failure 404 "Article not found", snd r)
      end
  end.
Proof.
  intros Hadmin Hnd r. unfold r, newsRequests.delete, newsRequests.get_one.
  rewrite Hadmin. destruct (castObjectId param) as [id |]; [| reflexivity].
  unfold newsRoutes.delete. rewrite Hadmin.
  rewrite run_bind, run_news_findByIdAndDelete.
  destruct (article_by_id db id) as [a |] eqn:Ha.
  - cbn [run fst snd].
    assert (Hgone : article_by_id
                      (set_news (Collection.deleteFirst
                                   (fun a => N.eqb (newsSchema._id a) id) (news db)) db) id
                    = None).
    { unfold article_by_id. cbn [news set_news]. now apply findById_deleteFirst. }
    repeat split.
    + exact Hgone.
    + intros j Hj. unfold article_by_id. cbn [news set_news].
      now apply findById_deleteFirst_other.
    + unfold newsRoutes.get_one. rewrite run_bind, run_news_findById, Hgone. reflexivity.
  - cbn [run]. unfold article_by_id in Ha.
    rewrite (deleteFirst_absent newsSchema._id id (news db) Ha).
    now destruct db.
Qed.

Lemma delete_removes_article_witness :
  let r := run (newsRequests.delete (L := sample_libs) (Some (mkReqUser 7%N role_admin))
                  "000000000000000000000001") sample_content in
  fst r = mkResponse 200 true "Article deleted successfully" (deleted_data 1%N)
  /\ article_by_id (snd r) 1%N = None
  /\ run (newsRequests.get_one (L := sample_libs) 2000 None
            "000000000000000000000001" None) (snd r)
     = (failure 404 "Article not found", snd r).
Proof.
  pose proof (delete_removes_article sample_libs (Some (mkReqUser 7%N role_admin))
                "000000000000000000000001" sample_content 2000 None None eq_refl) as H.
  assert (Hnd : NoDup (map newsSchema._id (news sample_content))).
  { repeat constructor. intros []. }
  destruct (H Hnd) as (H1 & H2 & _ & _ & _ & H3).
  repeat split; assumption.
Defined.

Section CreateRoundTrip.
Context {L : Libs}.
Import newsSchema.

Lemma pre_save_construct_fields (now : Z) (b : Body) (creator : ObjectId) :
  let a := this (pre_save now (construct b creator)) in
  title a = b_title b /\ summary a = b_summary b /\ content a = b_content b
  /\ category a = b_category b /\ createdBy a = Some creator.
Proof.
  unfold construct, write_opt.
  destruct (b_status b) as [[|] |], (b_featured b), (b_publishedAt b);
    repeat split; reflexivity.
Qed.

End CreateRoundTrip.

(** X6.  When [POST /api/news] answers 201, the caller is one the admin
    middleware lets through, and the article is stored under an identifier
    no article had, with the title, summary, content and category of the
    validated body and the caller as [createdBy]; a read by that identifier
    finds it, and the reads of the other identifiers are as before. *)
Theorem created_article_is_stored (now : Z) (user : option ReqUser)
    (b : newsSchema.Body) (db : Store) :
  let r := run (newsRoutes.post now user b) db in
  code (fst r) = 201 ->
  exists caller a,
    user = Some caller
    /\ adminMiddleware user = None
    /\ newsRoutes.validateNews b = true
    /\ fst r = mkResponse 201 true "Article created successfully" (article_data a [])
    /\ article_by_id db (newsSchema._id a) = None
    /\ (forall j, article_by_id (snd r) j
                  = if N.eqb j (newsSchema._id a) then Some a else article_by_id db j)
    /\ newsSchema.title a = newsSchema.b_title b
    /\ newsSchema.summary a = newsSchema.b_summary b
    /\ newsSchema.content a = newsSchema.b_content b
    /\ newsSchema.category a = newsSchema.b_category b
    /\ newsSchema.createdBy a = Some (userId caller)
    /\ users (snd r) = users db /\ videos (snd r) = videos db.
Proof.
  intro r. unfold r, newsRoutes.post.
  destruct (adminMiddleware user) as [refusal |] eqn:Hadmin.
  { unfold adminMiddleware in Hadmin. destruct user as [u |].
    - destruct (negb (Role_eqb (req_role u) role_admin
                      || Role_eqb (req_role u) role_super_admin)); [| discriminate].
      injection Hadmin as <-. discriminate.
    - injection Hadmin as <-. discriminate. }
  destruct user as [caller |]; [| discriminate].
  destruct (newsRoutes.validateNews b) eqn:Hv; cbn [negb]; [| discriminate].
  intros _. rewrite run_bind.
  rewrite (save_new now _ db (construct_isNew b (userId caller))
             (validate_construct b (userId caller) Hv)).
  destruct (pre_save_construct_fields now b (userId caller)) as (Ht & Hs & Hc & Hcat & Hby).
  exists caller. eexists. split; [reflexivity |]. split; [reflexivity |].
  split; [reflexivity |]. split; [reflexivity |].
  cbn [run snd fst news set_news users videos].
  split; [| split].
  - unfold article_by_id.
    destruct (Collection.findById newsSchema._id _ (news db)) as [x |] eqn:Hx; [| reflexivity].
    exfalso. pose proof (findById_id _ _ _ _ Hx) as Hid.
    pose proof (fresh_id_above newsSchema._id (news db) x (findById_In _ _ _ _ Hx)) as Hlt.
    cbn [this newsSchema._id newsSchema.set_updatedAt newsSchema.set_createdAt
         newsSchema.set__id] in Hid. lia.
  - intro j. unfold article_by_id. now apply findById_insert_fresh.
  - cbn [this newsSchema.title newsSchema.summary newsSchema.content newsSchema.category
         newsSchema.createdBy newsSchema.createdAt newsSchema.set_updatedAt
         newsSchema.set_createdAt newsSchema.set__id].
    now repeat split.
Qed.

Lemma created_article_is_stored_witness :
  exists a,
    fst (run (newsRoutes.post 1000 (Some (mkReqUser 7%N role_admin))
                (sample_body (Some published))) sample_content)
    = mkResponse 201 true "Article created successfully" (article_data a [])
    /\ newsSchema._id a = 2%N
    /\ article_by_id
         (snd (run (newsRoutes.post 1000
                      (Some (mkReqUser 7%N role_admin))
                      (sample_body (Some published))) sample_content)) 2%N
       = Some a.
Proof.
  destruct (created_article_is_stored 1000 (Some (mkReqUser 7%N role_admin))
              (sample_body (Some published)) sample_content eq_refl)
    as (caller & a & _ & _ & _ & Hr & _ & Hfind & _).
  exists a. split; [exact Hr |].
  assert (Hid : newsSchema._id a = 2%N).
  { cbn in Hr. injection Hr as <-. reflexivity. }
  split; [exact Hid |]. rewrite Hfind, Hid. reflexivity.
Defined.

(** ** Pagination *)

Section PaginationFacts.
Context {D : Type}.

Lemma skipn_nil_iff (n : nat) (l : list D) :
  skipn n l = [] <-> (List.length l <= n)%nat.
Proof.
  revert l. induction n as [| n IH]; intros [| x l]; simpl; split; intro H;
    try reflexivity; try lia; try discriminate.
  - apply IH in H. lia.
  - apply IH. lia.
Qed.

End PaginationFacts.

Lemma ceil_div_bounds (a b : Z) :
  0 < b -> a <= ceil_div a b * b < a + b.
Proof.
  intro Hb. unfold ceil_div.
  pose proof (Z.div_mod (- a) b ltac:(lia)) as Hdm.
  pose proof (Z.mod_pos_bound (- a) b Hb) as Hm.
  nia.
Qed.

(** X7.  The pagination block of a list answer, for a limit of at least one:
    [totalPages] is the least number of pages of [limit] items that hold
    [total] items, [hasNextPage] says exactly that items lie beyond the
    current page, [hasPrevPage] that the page is not the first. *)
Theorem pagination_exact (page limit count : Z) :
  1 <= limit -> 0 <= count ->
  let p := pagination page limit count in
  count <= totalPages p * limit < count + limit
  /\ (hasNextPage p = true <-> page * limit < count)
  /\ (hasPrevPage p = true <-> 1 < page)
  /\ currentPage p = page /\ total p = count /\ page_limit p = limit.
Proof.
  intros Hl Hc p. unfold p, pagination. cbn [totalPages hasNextPage hasPrevPage
                                             currentPage total page_limit].
  pose proof (ceil_div_bounds count limit ltac:(lia)) as Hb.
  split; [exact Hb |]. split; [| split; [apply Z.ltb_lt | now repeat split]].
  rewrite Z.ltb_lt. split; intro H; nia.
Qed.

Lemma pagination_exact_witness :
  let p := pagination 2 10 25 in
  25 <= totalPages p * 10 < 25 + 10 /\ (hasNextPage p = true <-> 2 * 10 < 25).
Proof.
  destruct (pagination_exact 2 10 25 ltac:(lia) ltac:(lia)) as (H1 & H2 & _).
  split; assumption.
Defined.

Section NextPage.
Context {L : Libs}.

Lemma build_query_at_page (user : option ReqUser) (p : Z) (q : ListQuery) :
  build_query user (at_page p q) = build_query user q.
Proof. reflexivity. Qed.

Lemma validateQuery_at_page (categories : list string) (p : Z) (q : ListQuery) :
  1 <= p -> validateQuery categories q = true ->
  validateQuery categories (at_page p q) = true.
Proof.
  intros Hp. unfold validateQuery, at_page. cbn [q_page q_limit q_category q_status
                                                  q_search holds].
  intro H. do 4 (apply andb_true_iff in H; destruct H as [H ?]).
  repeat (apply andb_true_iff; split); try assumption. now apply Z.leb_le.
Qed.

Lemma validateQuery_bounds (categories : list string) (q : ListQuery) :
  validateQuery categories q = true ->
  1 <= or_default 1 (q_page q) /\ 1 <= or_default 10 (q_limit q) <= 100.
Proof.
  unfold validateQuery. intro H. do 4 (apply andb_true_iff in H; destruct H as [H ?]).
  destruct (q_page q) as [p |], (q_limit q) as [l |]; cbn [holds or_default] in *;
    repeat match goal with
           | h : (_ && _)%bool = true |- _ => apply andb_true_iff in h; destruct h
           | h : (_ <=? _)%Z = true |- _ => apply Z.leb_le in h
           end; lia.
Qed.

Lemma page_nonempty_iff {D : Type} (matches : D -> bool) (le : D -> D -> bool)
    (skip limit : Z) (c : list D) :
  0 <= skip -> 1 <= limit ->
  find_page matches le skip limit c <> [] <-> skip < Collection.countDocuments matches c.
Proof.
  intros Hs Hl. unfold find_page, Collection.countDocuments.
  rewrite <- (length_sort_by le (filter matches c)).
  set (l := sort_by le (filter matches c)).
  pose proof (skipn_nil_iff (Z.to_nat skip) l) as Hnil.
  destruct (skipn (Z.to_nat skip) l) as [| x rest] eqn:E.
  - split; [intro H; destruct (Z.to_nat limit); now elim H |].
    intro H. assert (List.length l <= Z.to_nat skip)%nat by now apply Hnil. lia.
  - split; intro H.
    + assert (Hn : ~ (List.length l <= Z.to_nat skip)%nat).
      { intro Hle. apply Hnil in Hle. discriminate. }
      lia.
    + destruct (Z.to_nat limit) eqn:El; [lia | discriminate].
Qed.

End NextPage.

(** X8.  [hasNextPage] of an answer of [GET /api/news] is exact: it is true
    exactly when the same request for the following page returns at least
    one article. *)
Theorem hasNextPage_tells_next_page (L : Libs) (user : option ReqUser) (q : ListQuery)
    (db : Store) (articles : list newsSchema.t) (p : Pagination) :
  fst (run (newsRoutes.get_list user q) db)
  = mkResponse 200 true "" (articles_data articles p) ->
  exists following p',
    fst (run (newsRoutes.get_list user (at_page (currentPage p + 1) q)) db)
    = mkResponse 200 true "" (articles_data following p')
    /\ (hasNextPage p = true <-> following <> []).
Proof.
  unfold newsRoutes.get_list.
  destruct (validateQuery newsSchema.categories q) eqn:Hv; [| discriminate].
  destruct (validateQuery_bounds _ q Hv) as (Hpage & Hlimit).
  cbn [negb]. rewrite !run_bind, run_news_find, run_bind.
  unfold News.countDocuments. rewrite run_await. cbn [run fst].
  intro H. injection H as <- <-.
  cbn [currentPage pagination].
  rewrite (validateQuery_at_page _ (or_default 1 (q_page q) + 1) q ltac:(lia) Hv).
  cbn [negb]. rewrite !run_bind, run_news_find, run_bind, run_await. cbn [run fst].
  rewrite build_query_at_page.
  do 2 eexists. split; [reflexivity |].
  cbn [at_page q_page q_limit q_sort q_order or_default hasNextPage].
  set (page := or_default 1 (q_page q)) in *.
  set (limit := or_default 10 (q_limit q)) in *.
  replace (page + 1 - 1) with page by lia.
  rewrite (page_nonempty_iff _ _ (page * limit) limit (news db) ltac:(nia) ltac:(lia)).
  unfold pagination. cbn [hasNextPage]. rewrite Z.ltb_lt.
  pose proof (ceil_div_bounds
                (Collection.countDocuments (News.matches (build_query user q)) (news db))
                limit ltac:(lia)) as Hb.
  split; intro H; nia.
Qed.

Lemma hasNextPage_tells_next_page_witness :
  let q := mkListQuery (Some 1) (Some 1) None None None None None None in
  exists following p',
    fst (run (newsRoutes.get_list (L := sample_libs) None (at_page 2 q)) sample_newsroom)
    = mkResponse 200 true "" (articles_data following p')
    /\ (true = true <-> following <> []).
Proof.
  intro q.
  apply (hasNextPage_tells_next_page sample_libs None q sample_newsroom
           [newsSchema.mk 2%N "Second" "Another summary." "Body" "Sports" published 3 0 true
              (Some 20) (Some 7%N) 20 20]
           (mkPagination 1 2 2 true false 1)).
  reflexivity.
Defined.

(** ** The authentication middlewares *)

Section MiddlewareFacts.
Variable jwt_verify : Z -> string -> Verified.

Lemma run_user_findById (id : ObjectId) (db : Store) :
  run (User.findById id) db = (account_by_id db id, db).
Proof. unfold User.findById. now rewrite run_await. Qed.

(** [authMiddleware] only reads the store. *)
Lemma authMiddleware_reads (now : Z) (authHeader : option string) (db : Store) :
  snd (run (authMiddleware jwt_verify now authHeader) db) = db.
Proof.
  unfold authMiddleware.
  destruct (bearer_token authHeader) as [token |]; [| reflexivity].
  destruct (jwt_verify now token) as [[id | id] | name]; try reflexivity.
  rewrite run_bind, run_user_findById.
  destruct (account_by_id db id) as [u |]; [| reflexivity].
  destruct (negb (AccountStatus_eqb (userSchema.status u) active)); [reflexivity |].
  now destruct (userSchema.isLocked now u).
Qed.

(** When [authMiddleware] lets an account through. *)
Lemma authMiddleware_passed (now : Z) (authHeader : option string) (db : Store)
    (p : Principal) :
  fst (run (authMiddleware jwt_verify now authHeader) db) = passed p ->
  exists token,
    bearer_token authHeader = Some token
    /\ match p with
       | guest g => jwt_verify now token = decoded (guest_payload g)
       | member m =>
           exists u,
             jwt_verify now token = decoded (account_payload (userId m))
             /\ account_by_id db (userId m) = Some u
             /\ req_role m = userSchema.role u
             /\ userSchema.status u = active
             /\ userSchema.isLocked now u = false
       end.
Proof.
  unfold authMiddleware.
  destruct (bearer_token authHeader) as [token |]; [| discriminate].
  destruct (jwt_verify now token) as [[id | id] | name] eqn:Hv; try discriminate.
  - rewrite run_bind, run_user_findById.
    destruct (account_by_id db id) as [u |] eqn:Hu; [| discriminate].
    destruct (AccountStatus_eqb (userSchema.status u) active) eqn:Hs; [| discriminate].
    cbn [negb]. destruct (userSchema.isLocked now u) eqn:Hl; [discriminate |].
    cbn [run fst]. intro H. injection H as <-. exists token. split; [reflexivity |].
    exists u. cbn [userId req_role].
    pose proof (findById_id _ _ _ _ Hu) as Hid. rewrite Hid.
    repeat split; try assumption. now destruct (userSchema.status u).
  - cbn [run fst]. intro H. injection H as <-. now exists token.
Qed.

End MiddlewareFacts.

(** X9.  [optionalAuthMiddleware] attaches a caller to the request in
    exactly the cases in which [authMiddleware] lets the request through,
    and the same caller; in the cases in which [authMiddleware] refuses, it
    attaches none; and it leaves the store as it is. *)
Theorem optional_auth_agrees_with_auth (jwt_verify : Z -> string -> Verified) (now : Z)
    (authHeader : option string) (db : Store) :
  run (optionalAuthMiddleware jwt_verify now authHeader) db
  = (match fst (run (authMiddleware jwt_verify now authHeader) db) with
     | passed p => Some p
     | refused _ => None
     end, db).
Proof.
  unfold optionalAuthMiddleware, authMiddleware.
  destruct (bearer_token authHeader) as [token |]; [| reflexivity].
  destruct (jwt_verify now token) as [[id | id] | name]; try reflexivity.
  rewrite !run_bind, run_user_findById.
  destruct (account_by_id db id) as [u |]; [| reflexivity].
  destruct (AccountStatus_eqb (userSchema.status u) active); [| reflexivity].
  cbn [negb andb]. now destruct (userSchema.isLocked now u).
Qed.

(** X10.  Behind [router.use(authMiddleware)] and
    [router.use(adminMiddleware)], the handler of an admin route runs
    exactly for a bearer token that verifies to an account of the store
    which is active, not locked, and of role ['admin'] or ['super_admin']
    (never for a guest session); a request the middlewares refuse leaves the
    store as it was. *)
Theorem admin_router_admits_only_admins {R : Type} (jwt_verify : Z -> string -> Verified)
    (now : Z) (authHeader : option string) (handler : ReqUser -> Prog Store R)
    (db : Store) :
  match run (admin_router jwt_verify now authHeader handler) db with
  | (inl _, db') => db' = db
  | (inr r, db') =>
      exists token u,
        bearer_token authHeader = Some token
        /\ jwt_verify now token = decoded (account_payload (userSchema._id u))
        /\ account_by_id db (userSchema._id u) = Some u
        /\ userSchema.status u = active
        /\ userSchema.isLocked now u = false
        /\ (userSchema.role u = role_admin \/ userSchema.role u = role_super_admin)
        /\ run (handler (mkReqUser (userSchema._id u) (userSchema.role u))) db = (r, db')
  end
  /\ forall token id u,
       bearer_token authHeader = Some token ->
       jwt_verify now token = decoded (account_payload id) ->
       account_by_id db id = Some u ->
       userSchema.status u = active ->
       userSchema.isLocked now u = false ->
       userSchema.role u = role_admin \/ userSchema.role u = role_super_admin ->
       run (admin_router jwt_verify now authHeader handler) db
       = (inr (fst (run (handler (mkReqUser id (userSchema.role u))) db)),
          snd (run (handler (mkReqUser id (userSchema.role u))) db)).
Proof.
  split.
  - unfold admin_router. rewrite run_bind.
    pose proof (authMiddleware_reads jwt_verify now authHeader db) as Hsnd.
    pose proof (authMiddleware_passed jwt_verify now authHeader db) as Hp.
    destruct (run (authMiddleware jwt_verify now authHeader) db) as [[refusal | p] db0].
    + cbn [snd] in Hsnd. subst db0. reflexivity.
    + cbn [snd fst] in *. subst db0. specialize (Hp p eq_refl).
      destruct Hp as (token & Htoken & Hp).
      destruct p as [g | m]; [reflexivity |].
      destruct Hp as (u & Hv & Hu & Hr & Hs & Hl).
      unfold adminMiddleware, req_user. rewrite Hr.
      destruct (Role_eqb (userSchema.role u) role_admin
                || Role_eqb (userSchema.role u) role_super_admin) eqn:Hrole;
        [| reflexivity].
      cbn [negb]. rewrite run_bind.
      destruct (run (handler m) db) as [r db'] eqn:Hrun. cbn [run].
      pose proof (findById_id _ _ _ _ Hu) as Hid.
      exists token, u. rewrite Hid.
      assert (Hm : mkReqUser (userId m) (userSchema.role u) = m)
        by (destruct m; cbn in *; now subst).
      rewrite Hm. repeat split; try assumption.
      destruct (userSchema.role u); try discriminate; [now left | now right].
  - intros token id u Htoken Hv Hu Hs Hl Hrole.
    unfold admin_router, authMiddleware. rewrite Htoken, Hv.
    rewrite !run_bind, run_user_findById, Hu, Hs, Hl.
    pose proof (findById_id _ _ _ _ Hu) as Hid. rewrite Hid.
    cbn [AccountStatus_eqb negb run req_user adminMiddleware req_role].
    replace (Role_eqb (userSchema.role u) role_admin
             || Role_eqb (userSchema.role u) role_super_admin) with true
      by (destruct Hrole as [-> | ->]; reflexivity).
    cbn [negb]. rewrite run_bind.
    now destruct (run (handler (mkReqUser id (userSchema.role u))) db).
Qed.

Lemma admin_router_admits_only_admins_witness :
  let handler := fun _ : ReqUser =>
    adminRoutes.put_user_status (L := sample_libs) 1000 (Some "active")
      "000000000000000000000001" "suspended" in
  run (admin_router sample_verify 1000 (Some "Bearer token-2") handler) sample_office
  = (inr (fst (run (handler (mkReqUser 2%N role_admin)) sample_office)),
     snd (run (handler (mkReqUser 2%N role_admin)) sample_office))
  /\ fst (run (admin_router sample_verify 1000 (Some "Bearer token-1") handler)
              sample_office)
     = inl (failure 403 "Access denied. Admin privileges required.").
Proof.
  intro handler. split; [| reflexivity].
  apply (proj2 (admin_router_admits_only_admins sample_verify 1000
                  (Some "Bearer token-2") handler sample_office)
           "token-2" 2%N
           (userSchema.mk 2%N "Ravi" "r@x.com" "$2a$12$secret2" None
                          role_admin active false None 0 None 0 0 0));
    try reflexivity.
  now left.
Defined.

(** ** The admin route on an account's status *)

Section StatusFacts.
Context {L : Libs}.
Import userSchema.


Lemma run_user_findOne (p : t -> bool) (db : Store) :
  run (User.findOne p) db = (Collection.findOne p (users db), db).
Proof. unfold User.findOne. now rewrite run_await. Qed.

End StatusFacts.



(** ** The rate limiter *)

Section RateLimitFacts.
Variables maxAttempts windowMs : Z.

Lemma key_eqb_eq (a b : option string) : key_eqb a b = true <-> a = b.
Proof.
  unfold key_eqb, option_eqb. destruct a as [x |], b as [y |]; split; intro H;
    try discriminate; try reflexivity.
  - apply String.eqb_eq in H. now subst.
  - injection H as ->. apply String.eqb_refl.
Qed.

Lemma key_eqb_refl (a : option string) : key_eqb a a = true.
Proof. now apply key_eqb_eq. Qed.

(** An entry still inside its window survives the cleaning. *)
Lemma attempts_get_clean (now : Z) (key : option string) (attempts : AttemptsMap)
    (e : Attempts) :
  attempts_get key attempts = Some e ->
  now - firstAttempt e <= windowMs ->
  attempts_get key (clean windowMs now attempts) = Some e.
Proof.
  unfold attempts_get, clean. intros Hget Hin.
  induction attempts as [| [k d] rest IH]; cbn [find filter fst snd] in *; [discriminate |].
  destruct (key_eqb k key) eqn:Ek.
  - cbn [option_map snd] in Hget. injection Hget as ->.
    replace (windowMs <? now - firstAttempt e)%Z with false by (symmetry; apply Z.ltb_ge; lia).
    cbn [negb find fst]. now rewrite Ek.
  - destruct (negb (windowMs <? now - firstAttempt d)%Z); [| now apply IH].
    cbn [find fst]. rewrite Ek. now apply IH.
Qed.

Lemma attempts_get_count_up (key : option string) (attempts : AttemptsMap) (e : Attempts) :
  attempts_get key attempts = Some e ->
  attempts_get key (count_up key attempts)
  = Some (mkAttempts (number_add (count e) 1) (firstAttempt e)).
Proof.
  unfold attempts_get.
  induction attempts as [| [k d] rest IH]; cbn [find count_up fst snd]; [discriminate |].
  destruct (key_eqb k key) eqn:Ek.
  - cbn [find fst]. rewrite Ek. cbn [option_map snd]. intro H. now injection H as ->.
  - cbn [find fst]. rewrite Ek. exact IH.
Qed.

Lemma attempts_get_count_up_other (key other : option string) (attempts : AttemptsMap) :
  other <> key ->
  attempts_get key (count_up other attempts) = attempts_get key attempts.
Proof.
  intro Hne. unfold attempts_get.
  induction attempts as [| [k d] rest IH]; cbn [find count_up fst snd]; [reflexivity |].
  destruct (key_eqb k other) eqn:Eo.
  - apply key_eqb_eq in Eo. subst k. cbn [find fst].
    destruct (key_eqb other key) eqn:Ek; [apply key_eqb_eq in Ek; contradiction |].
    reflexivity.
  - cbn [find fst]. destruct (key_eqb k key); [reflexivity | exact IH].
Qed.

Lemma attempts_get_append (key other : option string) (attempts : AttemptsMap)
    (e d : Attempts) :
  attempts_get key attempts = Some e ->
  attempts_get key (attempts ++ [(other, d)])%list = Some e.
Proof.
  unfold attempts_get. rewrite find_append.
  destruct (find (fun x => key_eqb (fst x) key) attempts); [auto | discriminate].
Qed.

Lemma attempts_get_append_new (key : option string) (attempts : AttemptsMap) (d : Attempts) :
  attempts_get key attempts = None ->
  attempts_get key (attempts ++ [(key, d)])%list = Some d.
Proof.
  unfold attempts_get. rewrite find_append.
  destruct (find (fun x => key_eqb (fst x) key) attempts); [discriminate |].
  intros _. cbn [find fst]. now rewrite key_eqb_refl.
Qed.

Lemma asked_cons (key k : option string) (now : Z) (rest : list (Z * option string)) :
  asked key ((now, k) :: rest) = (if key_eqb k key then 1 else 0) + asked key rest.
Proof.
  unfold asked. cbn [filter snd]. destruct (key_eqb k key); cbn [List.length]; lia.
Qed.

Lemma asked_nonneg (key : option string) (requests : list (Z * option string)) :
  0 <= asked key requests.
Proof. unfold asked. lia. Qed.

(** While the entry of a client stays inside its window, the client is let
    through until its count reaches [maxAttempts]. *)
Lemma granted_in_window (key : option string) (t0 : Z)
    (requests : list (Z * option string)) :
  maxAttempts <= MAX_SAFE_INTEGER ->
  Forall (fun r => fst r - t0 <= windowMs) requests ->
  forall (attempts : AttemptsMap) (c : Z),
    0 <= c ->
    attempts_get key attempts = Some (mkAttempts c t0) ->
    granted key requests (fst (serve_requests maxAttempts windowMs requests attempts))
    = Z.max 0 (Z.min (asked key requests) (maxAttempts - c)).
Proof.
  intro Hmax.
  induction 1 as [| [now k] rest Hnow Hrest IH]; intros attempts c Hc Hget.
  - cbn. lia.
  - cbn [fst] in Hnow. cbn [serve_requests].
    pose proof (attempts_get_clean now key attempts _ Hget Hnow) as Hclean.
    unfold rateLimitMiddleware. rewrite asked_cons.
    pose proof (asked_nonneg key rest) as Hpos.
    destruct (key_eqb k key) eqn:Ek.
    + apply key_eqb_eq in Ek. subst k. rewrite Hclean. cbn [count firstAttempt].
      destruct (maxAttempts <=? c)%Z eqn:Emax.
      * apply Z.leb_le in Emax.
        specialize (IH _ _ Hc Hclean).
        destruct (serve_requests maxAttempts windowMs rest (clean windowMs now attempts))
          as [answers attempts'].
        cbn [fst granted]. rewrite key_eqb_refl.
        cbn [fst] in IH. rewrite IH. lia.
      * apply Z.leb_gt in Emax.
        pose proof (attempts_get_count_up key _ _ Hclean) as Hup.
        cbn [count firstAttempt] in Hup.
        rewrite (number_add_one c ltac:(lia)) in Hup.
        specialize (IH _ (c + 1) ltac:(lia) Hup).
        destruct (serve_requests maxAttempts windowMs rest
                    (count_up key (clean windowMs now attempts)))
          as [answers attempts'].
        cbn [fst granted]. rewrite key_eqb_refl.
        cbn [fst] in IH. rewrite IH. lia.
    + assert (Hne : k <> key).
      { intro E. subst k. rewrite key_eqb_refl in Ek. discriminate. }
      destruct (attempts_get k (clean windowMs now attempts)) as [d |] eqn:Hk.
      * destruct (maxAttempts <=? count d)%Z.
        -- specialize (IH _ _ Hc Hclean).
           destruct (serve_requests maxAttempts windowMs rest (clean windowMs now attempts))
             as [answers attempts'].
           cbn [fst granted]. rewrite Ek. cbn [fst] in IH. rewrite IH. lia.
        -- pose proof (attempts_get_count_up_other key k
                         (clean windowMs now attempts) Hne) as Hother.
           rewrite Hclean in Hother. specialize (IH _ _ Hc Hother).
           destruct (serve_requests maxAttempts windowMs rest
                       (count_up k (clean windowMs now attempts)))
             as [answers attempts'].
           cbn [fst granted]. rewrite Ek. cbn [fst] in IH. rewrite IH. lia.
      * specialize (IH _ _ Hc (attempts_get_append key k _ _ (mkAttempts 1 now) Hclean)).
        destruct (serve_requests maxAttempts windowMs rest
                    (clean windowMs now attempts ++ [(k, mkAttempts 1 now)])%list)
          as [answers attempts'].
        cbn [fst granted]. rewrite Ek. cbn [fst] in IH. rewrite IH. lia.
Qed.

Lemma ceil_div_nonneg (a b : Z) : 0 <= a -> 0 < b -> 0 <= ceil_div a b.
Proof.
  intros Ha Hb. pose proof (ceil_div_bounds a b Hb) as H. nia.
Qed.

Lemma clean_keys_NoDup (now : Z) (attempts : AttemptsMap) :
  NoDup (map fst attempts) -> NoDup (map fst (clean windowMs now attempts)).
Proof.
  unfold clean. induction attempts as [| [k d] rest IH]; cbn [map filter fst snd];
    [auto |].
  intro H. inversion H as [| ? ? Hnotin Hnd]; subst.
  destruct (negb (windowMs <? now - firstAttempt d)%Z); [| now apply IH].
  cbn [map fst]. constructor; [| now apply IH].
  intro Hin. apply Hnotin. apply in_map_iff in Hin. destruct Hin as ([k' d'] & Hk & Hin).
  apply filter_In in Hin. apply in_map_iff. exists (k', d'). tauto.
Qed.

(** With unique keys, the entry [attempts_get] finds is the only one of the
    client: once it is cleaned, the client has none. *)
Lemma attempts_get_expired (now : Z) (key : option string) (attempts : AttemptsMap)
    (e : Attempts) :
  NoDup (map fst attempts) ->
  attempts_get key attempts = Some e ->
  windowMs < now - firstAttempt e ->
  attempts_get key (clean windowMs now attempts) = None.
Proof.
  unfold attempts_get, clean. intros Hnd Hget Hout.
  induction attempts as [| [k d] rest IH]; cbn [find filter fst snd map] in *; [discriminate |].
  inversion Hnd as [| ? ? Hnotin Hnd']; subst.
  destruct (key_eqb k key) eqn:Ek.
  - cbn [option_map snd] in Hget. injection Hget as ->.
    replace (windowMs <? now - firstAttempt e)%Z with true by (symmetry; apply Z.ltb_lt; lia).
    cbn [negb]. apply key_eqb_eq in Ek. subst k.
    destruct (find (fun x => key_eqb (fst x) key)
                (filter (fun x => negb (windowMs <? now - firstAttempt (snd x))%Z) rest))
      as [[k' d'] |] eqn:Hf; [| reflexivity].
    exfalso. apply find_some in Hf. destruct Hf as [Hin Hk]. cbn [fst] in Hk.
    apply key_eqb_eq in Hk. subst k'. apply filter_In in Hin. destruct Hin as [Hin _].
    apply Hnotin. apply in_map_iff. now exists (key, d').
  - destruct (negb (windowMs <? now - firstAttempt d)%Z); [| now apply IH].
    cbn [find fst]. rewrite Ek. now apply IH.
Qed.

Lemma attempts_get_window (now : Z) (key : option string) (attempts : AttemptsMap)
    (e : Attempts) :
  attempts_get key (clean windowMs now attempts) = Some e ->
  now - firstAttempt e <= windowMs.
Proof.
  unfold attempts_get, clean. intro H.
  destruct (find (fun x => key_eqb (fst x) key)
              (filter (fun x => negb (windowMs <? now - firstAttempt (snd x))%Z) attempts))
    as [[k d] |] eqn:Hf; [| discriminate].
  cbn [option_map snd] in H. injection H as <-.
  apply find_some in Hf. destruct Hf as [Hin _]. apply filter_In in Hin.
  destruct Hin as [_ Hin]. cbn [snd] in Hin. apply negb_true_iff in Hin.
  apply Z.ltb_ge in Hin. lia.
Qed.

End RateLimitFacts.

(** X12.  The rate limiter lets a client through at most
    [max(1, maxAttempts)] times per window, and refuses no request before
    that: for a limit that is a safe integer, of the requests of a client
    that arrive, among those of other clients, within [windowMs] of its
    first one, exactly the first [max(1, maxAttempts)] are let through. *)
Theorem rate_limit_per_window (maxAttempts windowMs : Z) (key : option string) (t0 : Z)
    (rest : list (Z * option string)) (attempts : AttemptsMap) :
  maxAttempts <= MAX_SAFE_INTEGER ->
  attempts_get key (clean windowMs t0 attempts) = None ->
  Forall (fun r => fst r - t0 <= windowMs) rest ->
  let requests := (t0, key) :: rest in
  granted key requests (fst (serve_requests maxAttempts windowMs requests attempts))
  = Z.min (asked key requests) (Z.max 1 maxAttempts).
Proof.
  intros Hmax Hnew Hrest requests. unfold requests. cbn [serve_requests].
  unfold rateLimitMiddleware at 1. rewrite Hnew.
  pose proof (granted_in_window maxAttempts windowMs key t0 rest Hmax Hrest
                (clean windowMs t0 attempts ++ [(key, mkAttempts 1 t0)])%list 1
                ltac:(lia) (attempts_get_append_new key _ _ Hnew)) as H.
  destruct (serve_requests maxAttempts windowMs rest
              (clean windowMs t0 attempts ++ [(key, mkAttempts 1 t0)])%list)
    as [answers attempts'].
  cbn [fst granted] in *. rewrite asked_cons, key_eqb_refl, H.
  pose proof (asked_nonneg key rest) as Hpos. lia.
Qed.

Lemma rate_limit_per_window_witness :
  let requests :=
    [(0, Some "10.0.0.1"); (10, Some "10.0.0.2"); (20, Some "10.0.0.1");
     (30, Some "10.0.0.1"); (40, Some "10.0.0.1")] in
  asked (Some "10.0.0.1") requests = 4
  /\ granted (Some "10.0.0.1") requests (fst (serve_requests 3 1000 requests [])) = 3.
Proof.
  split; [reflexivity |].
  apply (rate_limit_per_window 3 1000 (Some "10.0.0.1") 0
           [(10, Some "10.0.0.2"); (20, Some "10.0.0.1");
            (30, Some "10.0.0.1"); (40, Some "10.0.0.1")] []).
  - vm_compute. discriminate.
  - reflexivity.
  - repeat constructor; cbn; lia.
Defined.

(** X13.  A refusal of the rate limiter announces a wait of
    [retryAfter >= 0] seconds and changes no count; on the map it leaves, a
    request of the same client that comes more than [retryAfter] seconds
    later is let through. *)
Theorem rate_limit_retry_after (maxAttempts windowMs : Z) (key : option string)
    (now later retryAfter : Z) (attempts attempts' : AttemptsMap) :
  NoDup (map fst attempts) ->
  rateLimitMiddleware maxAttempts windowMs now key attempts
  = (too_many retryAfter, attempts') ->
  now + 1000 * retryAfter < later ->
  0 <= retryAfter
  /\ attempts' = clean windowMs now attempts
  /\ fst (rateLimitMiddleware maxAttempts windowMs later key attempts') = next.
Proof.
  intros Hnd Hrun Hlater. unfold rateLimitMiddleware in Hrun.
  destruct (attempts_get key (clean windowMs now attempts)) as [e |] eqn:Hget;
    [| discriminate].
  destruct (maxAttempts <=? count e)%Z; [| discriminate].
  injection Hrun as <- <-.
  pose proof (attempts_get_window windowMs now key attempts e Hget) as Hwin.
  pose proof (ceil_div_bounds (windowMs - (now - firstAttempt e)) 1000 ltac:(lia)) as Hb.
  split; [apply ceil_div_nonneg; lia |]. split; [reflexivity |].
  unfold rateLimitMiddleware.
  rewrite (attempts_get_expired windowMs later key _ e
             (clean_keys_NoDup windowMs now attempts Hnd) Hget ltac:(lia)).
  reflexivity.
Qed.

Lemma rate_limit_retry_after_witness :
  let attempts := [(Some "10.0.0.1", mkAttempts 5 0)] in
  rateLimitMiddleware 5 900000 600500 (Some "10.0.0.1") attempts
  = (too_many 300, attempts)
  /\ fst (rateLimitMiddleware 5 900000 900501 (Some "10.0.0.1") attempts) = next.
Proof.
  intro attempts. split; [reflexivity |].
  assert (Hnd : NoDup (map fst attempts)) by (repeat constructor; intros []).
  destruct (rate_limit_retry_after 5 900000 (Some "10.0.0.1") 600500 900501 300
              attempts attempts Hnd eq_refl ltac:(lia)) as (_ & _ & H).
  exact H.
Defined.

(** ** Registration *)

Section RegisterFacts.
Context {L : Libs}.
Import userSchema.

Lemma findOne_none_existsb {D : Type} (p : D -> bool) (c : list D) :
  Collection.findOne p c = None -> existsb p c = false.
Proof.
  unfold Collection.findOne. induction c as [| x c IH]; simpl; [reflexivity |].
  destruct (p x); [discriminate | exact IH].
Qed.

Lemma unique_ids_insert_fresh (db : Store) (u : t) :
  unique_account_ids db ->
  _id u = Collection.fresh_id _id (users db) ->
  unique_account_ids (set_users (users db ++ [u])%list db).
Proof.
  unfold unique_account_ids. cbn [users set_users]. intros Hnd Hid.
  rewrite map_app. cbn [map].
  apply NoDup_app; [exact Hnd | repeat constructor; intros [] |].
  intros x Hx [Hin | []]. apply in_map_iff in Hx. destruct Hx as (y & Hy & Hin').
  pose proof (fresh_id_above _id (users db) y Hin') as Hlt. lia.
Qed.

Lemma saved_store_unique (now : Z) (d : doc) (db : Store) :
  Forall login_path (modifiedPaths d) ->
  unique_account_ids db -> unique_account_ids (saved_store now d db).
Proof.
  intros Hd Hnd. unfold saved_store.
  destruct (modifiedPaths d) as [| p paths] eqn:Hpaths; [exact Hnd |].
  unfold unique_account_ids. cbn [users set_users]. rewrite updateById_ids; [exact Hnd |].
  intro x. cbn [_id set_updatedAt]. rewrite <- Hpaths in *.
  destruct (assign_login_paths (this d) x (modifiedPaths d) Hd) as (Hc & _).
  unfold credentials in Hc. now injection Hc.
Qed.

(** A save of login paths leaves an account its address, its credentials,
    its lockout state, its name and its role. *)
Lemma account_after_save_fields (now : Z) (d : doc) (db : Store) (address : string)
    (u : t) :
  unique_account_ids db ->
  account_by_email db address = Some u ->
  Forall login_path (modifiedPaths d) ->
  _id (this d) = _id u ->
  exists u',
    account_by_email (saved_store now d db) address = Some u'
    /\ lockout u' = lockout u /\ credentials u' = credentials u
    /\ name u' = name u /\ role u' = role u.
Proof.
  intros Hnd Hu Hd Hid. unfold saved_store.
  destruct (modifiedPaths d) as [| p paths] eqn:E.
  - exists u. auto.
  - rewrite <- E in *. eexists. split.
    + unfold account_by_email in *. cbn [users set_users]. rewrite Hid.
      apply (findOne_updateById _id _ _ (users db) u Hnd); [| exact Hu].
      intro x. cbn [email set_updatedAt].
      destruct (assign_login_paths (this d) x (modifiedPaths d) Hd) as (Hc & _).
      unfold credentials in Hc. injection Hc as _ He _ _ _. now rewrite He.
    + destruct (assign_login_paths (this d) u (modifiedPaths d) Hd) as (Hc & Hl & Hn & Hr).
      repeat split; assumption.
Qed.

(** Saving a new account that passes validation and whose address is free
    inserts it with the hash of its password. *)
Lemma save_new_user (now : Z) (rnd : Random) (nm address pw : string)
    (ph : option string) (r : Role) (verified : bool) (db : Store) :
  User.validate (authRoutes.new_user now nm address pw ph r verified) = true ->
  Collection.findOne (fun u => String.eqb (email u) (toLowerCase address)) (users db)
  = None ->
  let u := mk (Collection.fresh_id _id (users db)) nm (toLowerCase address)
              (bcrypt_hash (random_salt rnd) pw) ph r active verified None 0 None
              now now now in
  run (User.save now rnd (authRoutes.new_user now nm address pw ph r verified)) db
  = (Some (mkDocument u false []), set_users (users db ++ [u])%list db).
Proof.
  intros Hval He u. unfold User.save. rewrite Hval. cbn [negb].
  rewrite run_bind.
  unfold User.pre_save_password, User.pre_save_loginAttempts, authRoutes.new_user.
  cbn [isModified modifiedPaths existsb Path_eqb orb negb andb this isNew run].
  rewrite run_await.
  cbn [this email set_password name password phone role status phoneVerified lastLogin
       loginAttempts lockUntil lastActiveAt].
  rewrite (findOne_none_existsb _ _ He). reflexivity.
Qed.

(** A registration that is answered 201 has inserted the account, and
    written its [lastLogin]. *)
Lemma register_created (now : Z) (rnd : Random) (b : authRoutes.RegisterBody) (db : Store) :
  unique_account_ids db ->
  code (fst (run (authRoutes.register now rnd b) db)) = 201 ->
  let address := normalizeEmail (authRoutes.r_email b) in
  let u := registered_account_of now rnd b db in
  authRoutes.validateRegister b = true
  /\ account_by_email db address = None
  /\ unique_account_ids (snd (run (authRoutes.register now rnd b) db))
  /\ exists u',
       account_by_email (snd (run (authRoutes.register now rnd b) db)) address = Some u'
       /\ lockout u' = lockout u /\ credentials u' = credentials u
       /\ name u' = name u /\ role u' = role u.
Proof.
  intros Hnd. unfold authRoutes.register.
  destruct (authRoutes.validateRegister b) eqn:Hv; [| discriminate].
  cbn [negb]. rewrite run_bind. unfold User.findByEmail. rewrite run_user_findOne.
  destruct (Collection.findOne _ (users db)) as [x |] eqn:He; [discriminate |].
  rewrite run_bind.
  set (address := normalizeEmail (authRoutes.r_email b)) in *.
  set (r := match authRoutes.r_role b with Some r => r | None => role_user end).
  destruct (User.validate (authRoutes.new_user now (authRoutes.r_name b) address
                             (authRoutes.r_password b) (authRoutes.r_phone b) r false))
    eqn:Hval.
  2: { unfold User.save. rewrite Hval. cbn [negb run fst code]. discriminate. }
  rewrite (save_new_user now rnd (authRoutes.r_name b) address (authRoutes.r_password b)
             (authRoutes.r_phone b) r false db Hval He).
  set (u := mk (Collection.fresh_id _id (users db)) (authRoutes.r_name b)
               (toLowerCase address)
               (bcrypt_hash (random_salt rnd) (authRoutes.r_password b))
               (authRoutes.r_phone b) r active false None 0 None now now now).
  set (db1 := set_users (users db ++ [u])%list db).
  rewrite run_bind.
  assert (Hnd1 : unique_account_ids db1) by now apply unique_ids_insert_fresh.
  assert (Hu1 : account_by_email db1 address = Some u).
  { unfold account_by_email, db1, Collection.findOne. cbn [users set_users].
    rewrite find_append. unfold Collection.findOne in He. rewrite He.
    cbn [find email u]. now rewrite String.eqb_refl. }
  assert (Hid1 : account_by_id db1 (_id u) = Some u).
  { unfold account_by_id, db1. cbn [users set_users].
    rewrite (findById_insert_fresh _id (users db) u (_id u) eq_refl).
    now rewrite N.eqb_refl. }
  set (d := write p_lastLogin (set_lastLogin (Some now)) (mkDocument u false [])).
  assert (Hd : Forall login_path (modifiedPaths d)).
  { apply write_paths; [unfold login_path; auto | constructor]. }
  destruct (save_login_paths now rnd d db1 u eq_refl Hd Hid1) as (d' & Hsave & Hthis).
  rewrite Hsave. cbn [run fst snd code]. intros _.
  split; [reflexivity |]. split; [exact He |]. split.
  - now apply saved_store_unique.
  - exact (account_after_save_fields now d db1 address u Hnd1 Hu1 Hd eq_refl).
Qed.

End RegisterFacts.

Lemma length_non_empty (n : nat) (s : string) :
  (S n <=? String.length s)%nat = true -> non_empty s = true.
Proof. destruct s; [discriminate | reflexivity]. Qed.

(** X14.  What [POST /api/auth/register] leaves when it answers 201: the
    address had no account; it now resolves to an account that holds the
    bcrypt hash of the password of the body, that is active, with a fresh
    failure counter and no lock, and whose role is ['user'] or ['admin'],
    never ['super_admin']. *)
Theorem registration_stores_hash (L : Libs) (now : Z) (rnd : Random)
    (b : authRoutes.RegisterBody) (db : Store) :
  unique_account_ids db ->
  code (fst (run (authRoutes.register now rnd b) db)) = 201 ->
  let address := normalizeEmail (authRoutes.r_email b) in
  account_by_email db address = None
  /\ exists u,
       account_by_email (snd (run (authRoutes.register now rnd b) db)) address = Some u
       /\ userSchema.email u = toLowerCase address
       /\ userSchema.name u = authRoutes.r_name b
       /\ userSchema.password u
          = bcrypt_hash (random_salt rnd) (authRoutes.r_password b)
       /\ userSchema.status u = active
       /\ userSchema.loginAttempts u = 0
       /\ userSchema.lockUntil u = None
       /\ (userSchema.role u = role_user \/ userSchema.role u = role_admin).
Proof.
  intros Hnd Hcode address.
  destruct (register_created now rnd b db Hnd Hcode)
    as (Hv & Hfree & _ & u & Hu & Hl & Hc & Hn & Hr).
  split; [exact Hfree |]. exists u. split; [exact Hu |].
  unfold lockout, credentials, registered_account_of in *.
  cbn [userSchema._id userSchema.email userSchema.password userSchema.phone
       userSchema.status userSchema.loginAttempts userSchema.lockUntil
       userSchema.name userSchema.role] in *.
  injection Hl as Hl1 Hl2. injection Hc as _ Hc2 Hc3 _ Hc5.
  repeat split; try assumption.
  rewrite Hr. unfold authRoutes.validateRegister in Hv.
  apply andb_true_iff in Hv. destruct Hv as [_ Hv].
  destruct (authRoutes.r_role b) as [[| | |] |]; cbn in *;
    try discriminate; auto.
Qed.

Lemma registration_stores_hash_witness :
  let r := run (authRoutes.register (L := sample_libs) 1000 sample_random
                  (authRoutes.mkRegisterBody "Asha" "a@x.com" "secret1" None None))
               (mkStore [] [] []) in
  exists u,
    account_by_email (L := sample_libs) (snd r) "a@x.com" = Some u
    /\ userSchema.password u = "$2a$12$secret1".
Proof.
  assert (Hnd : unique_account_ids (mkStore [] [] [])) by constructor.
  destruct (registration_stores_hash sample_libs 1000 sample_random
              (authRoutes.mkRegisterBody "Asha" "a@x.com" "secret1" None None)
              (mkStore [] [] []) Hnd eq_refl)
    as (_ & u & Hu & _ & _ & Hp & _).
  exists u. split; [exact Hu | exact Hp].
Defined.

(** X15.  An account that has just been registered can log in: when
    [bcrypt.compare] accepts a password against its own hash, a login with
    the address and the password of a registration that was answered 201 is
    answered 200, at whatever instant. *)
Theorem registered_account_can_login (L : Libs) (now : Z) (rnd : Random)
    (b : authRoutes.RegisterBody) (db : Store) (later : Z) (rnd' : Random) :
  unique_account_ids db ->
  code (fst (run (authRoutes.register now rnd b) db)) = 201 ->
  non_empty (bcrypt_hash (random_salt rnd) (authRoutes.r_password b)) = true ->
  bcrypt_compare (authRoutes.r_password b)
                 (bcrypt_hash (random_salt rnd) (authRoutes.r_password b)) = true ->
  let login := authRoutes.mkLoginBody (authRoutes.r_email b) (authRoutes.r_password b) in
  let answer := fst (run (authRoutes.login later rnd' login)
                         (snd (run (authRoutes.register now rnd b) db))) in
  code answer = 200 /\ success answer = true.
Proof.
  intros Hnd Hcode Hne Hcmp login answer.
  destruct (register_created now rnd b db Hnd Hcode)
    as (Hv & _ & _ & u & Hu & Hl & Hc & _).
  unfold lockout, credentials, registered_account_of in *.
  cbn [userSchema._id userSchema.email userSchema.password userSchema.phone
       userSchema.status userSchema.loginAttempts userSchema.lockUntil] in *.
  injection Hl as Hl1 Hl2. injection Hc as _ _ Hc3 _ Hc5.
  unfold authRoutes.validateRegister in Hv.
  apply andb_true_iff in Hv. destruct Hv as [Hv _].
  apply andb_true_iff in Hv. destruct Hv as [Hv Hpw].
  apply andb_true_iff in Hv. destruct Hv as [_ Hmail].
  unfold answer.
  rewrite (login_right_password later rnd' login _ u).
  - split; reflexivity.
  - unfold authRoutes.validateLogin, login. cbn [authRoutes.l_email authRoutes.l_password].
    rewrite Hmail. cbn [andb]. now apply length_non_empty with 5%nat.
  - exact Hu.
  - unfold userSchema.isLocked. now rewrite Hl2.
  - exact Hc5.
  - unfold User.comparePassword, login. cbn [authRoutes.l_password].
    now rewrite Hc3, Hne, Hcmp.
Qed.

Lemma registered_account_can_login_witness :
  let r := run (authRoutes.register (L := sample_libs) 1000 sample_random
                  (authRoutes.mkRegisterBody "Asha" "a@x.com" "secret1" None None))
               (mkStore [] [] []) in
  code (fst (run (authRoutes.login (L := sample_libs) 5000 sample_random
                    (authRoutes.mkLoginBody "a@x.com" "secret1")) (snd r))) = 200.
Proof.
  assert (Hnd : unique_account_ids (mkStore [] [] [])) by constructor.
  apply (registered_account_can_login sample_libs 1000 sample_random
           (authRoutes.mkRegisterBody "Asha" "a@x.com" "secret1" None None)
           (mkStore [] [] []) 5000 sample_random Hnd eq_refl eq_refl eq_refl).
Defined.

(** X16.  An address can be registered once: after a registration that was
    answered 201, every registration whose address normalizes to the same
    one is answered 400 and leaves the store as it is. *)
Theorem second_registration_is_refused (L : Libs) (now : Z) (rnd : Random)
    (b : authRoutes.RegisterBody) (db : Store) (later : Z) (rnd' : Random)
    (b' : authRoutes.RegisterBody) :
  unique_account_ids db ->
  code (fst (run (authRoutes.register now rnd b) db)) = 201 ->
  authRoutes.validateRegister b' = true ->
  normalizeEmail (authRoutes.r_email b') = normalizeEmail (authRoutes.r_email b) ->
  let db' := snd (run (authRoutes.register now rnd b) db) in
  run (authRoutes.register later rnd' b') db'
  = (failure 400 "User already exists with this email", db').
Proof.
  intros Hnd Hcode Hv' Hsame db'.
  destruct (register_created now rnd b db Hnd Hcode) as (_ & _ & _ & u & Hu & _).
  unfold authRoutes.register. rewrite Hv'. cbn [negb].
  rewrite run_bind. unfold User.findByEmail. rewrite run_user_findOne.
  rewrite Hsame. unfold account_by_email in Hu. fold db' in Hu. rewrite Hu.
  reflexivity.
Qed.

Lemma second_registration_is_refused_witness :
  let db' := snd (run (authRoutes.register (L := sample_libs) 1000 sample_random
                         (authRoutes.mkRegisterBody "Asha" "a@x.com" "secret1" None None))
                      (mkStore [] [] [])) in
  run (authRoutes.register (L := sample_libs) 2000 sample_random
         (authRoutes.mkRegisterBody "Another" "a@x.com" "secret2" None (Some role_admin)))
      db'
  = (failure 400 "User already exists with this email", db').
Proof.
  assert (Hnd : unique_account_ids (mkStore [] [] [])) by constructor.
  apply (second_registration_is_refused sample_libs 1000 sample_random
           (authRoutes.mkRegisterBody "Asha" "a@x.com" "secret1" None None)
           (mkStore [] [] []) 2000 sample_random
           (authRoutes.mkRegisterBody "Another" "a@x.com" "secret2" None (Some role_admin))
           Hnd eq_refl eq_refl eq_refl).
Defined.

(** ** Creating a video *)

Section VideoCreateFacts.
Context {L : Libs}.
Import videoSchema.

Lemma construct_this (b : Body) (id : string) (creator : ObjectId) :
  this (construct b id creator)
  = mk 0%N (b_title b) (or_default "" (b_description b)) (b_youtubeUrl b) id
       (b_thumbnailUrl b) (b_category b) (or_default draft (b_status b)) 0 0 0
       (or_default false (b_featured b)) (b_publishedAt b) (Some creator) 0 0.
Proof.
  unfold construct, write_opt.
  destruct (b_description b), (b_thumbnailUrl b), (b_status b), (b_featured b),
    (b_publishedAt b); reflexivity.
Qed.

Lemma video_construct_isNew (b : Body) (id : string) (creator : ObjectId) :
  isNew (construct b id creator) = true.
Proof.
  unfold construct, write_opt.
  destruct (b_description b), (b_thumbnailUrl b), (b_status b), (b_featured b),
    (b_publishedAt b); reflexivity.
Qed.

Lemma video_pre_save_isNew (now : Z) (d : doc) : isNew (pre_save now d) = isNew d.
Proof.
  unfold pre_save.
  repeat match goal with
         | |- context [if ?c then _ else _] => destruct c
         | |- context [match ?c with Some _ => _ | None => _ end] => destruct c
         end; reflexivity.
Qed.

(** The hook leaves alone an identifier that is there, and gives a video
    without a thumbnail the default one of its identifier. *)
Lemma video_pre_save_fields (now : Z) (d : doc) :
  non_empty (youtubeId (this d)) = true ->
  let v := this (pre_save now d) in
  youtubeId v = youtubeId (this d)
  /\ thumbnailUrl v
     = (if truthy (thumbnailUrl (this d)) then thumbnailUrl (this d)
        else Some (defaultThumbnail (youtubeId (this d))))
  /\ title v = title (this d) /\ youtubeUrl v = youtubeUrl (this d)
  /\ category v = category (this d) /\ status v = status (this d)
  /\ createdBy v = createdBy (this d).
Proof.
  intro Hid. unfold pre_save. rewrite Hid, andb_false_r.
  destruct (truthy (thumbnailUrl (this d))) eqn:Ht; cbn [negb andb].
  - repeat match goal with
           | |- context [if ?c then _ else _] => destruct c
           end; cbn; rewrite ?Ht; repeat split; reflexivity.
  - rewrite Hid.
    repeat match goal with
           | |- context [if ?c then _ else _] => destruct c
           end; cbn; repeat split; reflexivity.
Qed.

(** A save of a new video inserts what the hook leaves, unless validation
    or the unique index on [youtubeId] refuses it. *)
Lemma video_save_new (now : Z) (d : doc) (db : Store) :
  isNew d = true ->
  validate d = true ->
  let v := set_updatedAt now (set_createdAt now
             (set__id (Collection.fresh_id _id (videos db)) (this (pre_save now d)))) in
  Video.youtubeId_free v (videos db) = true ->
  run (Video.save now d) db
  = (Some (mkDocument v false []), set_videos (videos db ++ [v])%list db).
Proof.
  intros Hnew Hval v Hfree. unfold Video.save. rewrite Hval. cbn [negb].
  rewrite run_await, video_pre_save_isNew, Hnew. fold v. now rewrite Hfree.
Qed.

Lemma video_save_invalid (now : Z) (d : doc) (db : Store) :
  validate d = false -> run (Video.save now d) db = (None, db).
Proof. intro Hval. unfold Video.save. now rewrite Hval. Qed.

Lemma run_video_findOne (p : t -> bool) (db : Store) :
  run (Video.findOne p) db = (Collection.findOne p (videos db), db).
Proof. unfold Video.findOne. now rewrite run_await. Qed.

End VideoCreateFacts.

(** X17.  [POST /api/videos] creates a video only for an identifier of
    eleven word characters or hyphens: when the identifier cut out of a
    validated URL is anything else (as for an embed URL with a trailing
    slash), the schema refuses it, the answer is 500 (400 if a video with
    that identifier is stored) and the store is unchanged. *)
Theorem video_identifier_must_have_eleven_characters (L : Libs) (now : Z)
    (caller : ReqUser) (b : videoSchema.Body) (id : string) (db : Store) :
  adminMiddleware (Some caller) = None ->
  videosRoutes.validateVideo b = true ->
  extractYouTubeId (videoSchema.b_youtubeUrl b) = Some id ->
  youtubeId_regex id = false ->
  run (videosRoutes.post now (Some caller) b) db
  = (if is_some (Collection.findOne (fun v => String.eqb (videoSchema.youtubeId v) id)
                                    (videos db))
     then failure 400 "Video with this YouTube ID already exists"
     else failure 500 "Failed to create video", db).
Proof.
  intros Hadmin Hv Hid Hre. unfold videosRoutes.post. rewrite Hadmin, Hv, Hid.
  cbn [negb]. rewrite run_bind, run_video_findOne.
  destruct (Collection.findOne _ (videos db)) as [x |]; [reflexivity |].
  rewrite run_bind, video_save_invalid; [reflexivity |].
  unfold videoSchema.validate. rewrite video_construct_isNew.
  unfold videoSchema.all_paths. cbn [forallb].
  rewrite construct_this.
  replace (videoSchema.validate_path videoSchema.p_youtubeId _) with false.
  - now rewrite !andb_false_r.
  - unfold videoSchema.validate_path. cbn [videoSchema.youtubeId].
    now rewrite Hre, andb_false_r.
Qed.

Lemma video_identifier_must_have_eleven_characters_witness :
  run (videosRoutes.post (L := sample_libs) 1000 (Some (mkReqUser 7%N role_admin))
         (videoSchema.mkBody "A video title" None
            "https://www.youtube.com/embed/dQw4w9WgXcQ/" "News" None None None None))
      sample_content
  = (failure 500 "Failed to create video", sample_content).
Proof.
  apply (video_identifier_must_have_eleven_characters sample_libs 1000
           (mkReqUser 7%N role_admin)
           (videoSchema.mkBody "A video title" None
              "https://www.youtube.com/embed/dQw4w9WgXcQ/" "News" None None None None)
           "dQw4w9WgXcQ/" sample_content); reflexivity.
Defined.
